(** * graph-main: validation, template injection, retrieval and staging

    A shallow embedding of the Python sources

      - [diagram_generator.py] / [app.py]: [validate_json],
        [inject_data_into_html];
      - [agent/rag_pipeline.py]: [RAGPipeline];
      - [agent/repo_agent.py]: [RepoAnalysisAgent];

    together with the properties of the specification that concern them.

    Conventions.  A Python [str] is a list of Unicode code points ([N]).
    A Python call is a value of [py A]: the diagnostics it has written
    (the texts given to [print] / [st.error]) and either the value it
    returns or the exception it raises.  Library calls that the
    repository does not define ([pathlib], the LangChain splitter, the
    vector store's ranking, the chat model) and the prompt templates are
    the fields of two classes, [Libraries] and [Services]. *)

From Stdlib Require Import ZArith NArith List Ascii String Lia Permutation Sorted.
From Stdlib Require Import DecimalString.
From stdpp Require Import base option list gmap sorting.
Import ListNotations.

Local Open Scope Z_scope.
Set Warnings "-register-all".

(** ** Python strings *)

Module Py.

Definition char := N.
Definition str := list N.

(** [lit "abc"] is the Python literal ['abc']. *)
Definition lit (s : string) : str := map N_of_ascii (list_ascii_of_string s).

(** The double quote, written without a string literal. *)
Definition dquote : char := 34%N.

(** [quoted s] is [s] between double quotes. *)
Definition quoted (s : string) : str := dquote :: lit s ++ [dquote].

Definition str_eqb (a b : str) : bool := bool_decide (a = b).

(** [s.startswith(p)]. *)
Fixpoint starts_with (p s : str) : bool :=
  match p, s with
  | [], _ => true
  | _ :: _, [] => false
  | a :: p', b :: s' => N.eqb a b && starts_with p' s'
  end.

(** Lowest index at which [sub] occurs in [s]. *)
Fixpoint index_of (sub s : str) : option nat :=
  if starts_with sub s then Some 0%nat
  else match s with
       | [] => None
       | _ :: s' => S <$> index_of sub s'
       end.

(** [s.find(sub)]: the lowest index, or [-1]. *)
Definition str_find (s sub : str) : Z :=
  match index_of sub s with
  | Some n => Z.of_nat n
  | None => -1
  end.

(** [n] is the lowest index at which [sub] occurs in [s]. *)
Definition first_occurrence (sub s : str) (n : nat) : Prop :=
  starts_with sub (drop n s) = true
  /\ (n <= length s)%nat
  /\ forall k, (k < n)%nat -> starts_with sub (drop k s) = false.

(** [p] and [a] differ at a position that both have. *)
Fixpoint clash (p a : str) : bool :=
  match p, a with
  | x :: p', y :: a' => negb (N.eqb x y) || clash p' a'
  | _, _ => false
  end.

(** The number of positions of [s] at which [sub] occurs. *)
Fixpoint occurrences (sub s : str) : nat :=
  (if starts_with sub s then 1 else 0)%nat +
  match s with
  | [] => 0%nat
  | _ :: s' => occurrences sub s'
  end.

(** [sub in s] for two strings. *)
Definition str_contains (sub s : str) : bool :=
  match index_of sub s with Some _ => true | None => false end.

(** [s[:i]] and [s[i:]], with Python's reading of a negative index. *)
Definition slice_to (s : str) (i : Z) : str :=
  if i <? 0 then take (Z.to_nat (Z.of_nat (length s) + i)) s
  else take (Z.to_nat i) s.

Definition slice_from (s : str) (i : Z) : str :=
  if i <? 0 then drop (Z.to_nat (Z.of_nat (length s) + i)) s
  else drop (Z.to_nat i) s.

(** [len(s)] as a Python integer. *)
Definition len (s : str) : Z := Z.of_nat (length s).

(** [sep.join(parts)]. *)
Fixpoint join (sep : str) (parts : list str) : str :=
  match parts with
  | [] => []
  | [p] => p
  | p :: rest => p ++ sep ++ join sep rest
  end.

(** [a <= b] on strings: code point by code point. *)
Fixpoint str_leb (a b : str) : bool :=
  match a, b with
  | [], _ => true
  | _ :: _, [] => false
  | x :: a', y :: b' => N.ltb x y || (N.eqb x y && str_leb a' b')
  end.

(** [sorted(l, key=...)], with [leb x y] standing for [key x <= key y]:
    a stable sort, the earlier of two equal elements stays first. *)
Fixpoint insert_sorted {A} (leb : A -> A -> bool) (x : A) (l : list A)
  : list A :=
  match l with
  | [] => [x]
  | y :: l' => if leb x y then x :: l else y :: insert_sorted leb x l'
  end.

Definition py_sorted {A} (leb : A -> A -> bool) (l : list A) : list A :=
  foldr (insert_sorted leb) [] l.

(** Exceptions the modelled code can raise.  [JSONDecodeError] is the
    one that the callers of [json.loads] catch; [RecursionError] and a
    [ValueError] are raised by the interpreter's limits. *)
Inductive exn :=
  | TypeError
  | AttributeError
  | IndexError
  | KeyError (key : str)
  | ValueError (msg : str)
  | JSONDecodeError
  | RecursionError.

Inductive outcome (A : Type) :=
  | Return (a : A)
  | Raise (e : exn).
Arguments Return {A} a.
Arguments Raise {A} e.

#[global] Instance exn_eq_dec : EqDecision exn.
Proof. solve_decision. Defined.

#[global] Instance outcome_eq_dec {A} `{EqDecision A} : EqDecision (outcome A).
Proof. solve_decision. Defined.

(** A call: what it printed, and how it ended. *)
Definition py (A : Type) : Type := list str * outcome A.

Definition ret {A} (a : A) : py A := ([], Return a).
Definition raise {A} (e : exn) : py A := ([], Raise e).
Definition print (line : str) : py unit := ([line], Return tt).

Definition bind {A B} (m : py A) (k : A -> py B) : py B :=
  match m with
  | (out, Return a) => let '(out', r) := k a in (out ++ out', r)
  | (out, Raise e) => (out, Raise e)
  end.

(** [try: body except json.JSONDecodeError: handler]. *)
Definition catch_decode_error {A} (body handler : py A) : py A :=
  match body with
  | (out, Raise JSONDecodeError) => let '(out', r) := handler in (out ++ out', r)
  | _ => body
  end.

Arguments bind : simpl never.
Arguments ret : simpl never.
Arguments raise : simpl never.
Arguments print : simpl never.

(** The call ends by returning, whatever it printed. *)
Definition returns {A} (m : py A) : Prop := exists out a, m = (out, Return a).

(** The call does not end with a [JSONDecodeError]. *)
Definition no_decode_error {A} (m : py A) : Prop :=
  forall e, snd m = Raise e -> e <> JSONDecodeError.

Definition printed {A} (m : py A) : list str := fst m.
Definition result {A} (m : py A) : outcome A := snd m.

End Py.

Import Py.

Notation "'let!' x ':=' m 'in' k" := (bind m (fun x => k))
  (at level 10, x name, m at level 100, k at level 200).


(** ** JSON values, [json.loads] and [json.dumps] *)

Module Json.

(** What [json.loads] produces.  A [float] is carried by the text of its
    literal: no floating-point arithmetic is modelled.  A [dict] keeps its
    insertion order, as Python's does. *)
Inductive json :=
  | JNull
  | JBool (b : bool)
  | JInt (z : Z)
  | JFloat (text : str)
  | JString (s : str)
  | JArray (items : list json)
  | JObject (members : list (str * json)).

Definition dict := list (str * json).

(** [key in d] for a [dict]. *)
Fixpoint dict_in (key : str) (d : dict) : bool :=
  match d with
  | [] => false
  | (k, _) :: d' => str_eqb k key || dict_in key d'
  end.

(** [d.get(key)]. *)
Fixpoint dict_get (key : str) (d : dict) : option json :=
  match d with
  | [] => None
  | (k, v) :: d' => if str_eqb k key then Some v else dict_get key d'
  end.

(** [d[key] = v]: an existing key keeps its place. *)
Fixpoint dict_set (key : str) (v : json) (d : dict) : dict :=
  match d with
  | [] => [(key, v)]
  | (k, x) :: d' =>
      if str_eqb k key then (k, v) :: d' else (k, x) :: dict_set key v d'
  end.

(** [isinstance(v, list)] and [isinstance(v, dict)]; [None] is neither. *)
Definition is_list (v : option json) : bool :=
  match v with Some (JArray _) => true | _ => false end.

Definition is_dict (v : json) : bool :=
  match v with JObject _ => true | _ => false end.

(** The text of a float literal denotes zero: every digit of its
    mantissa is [0].  (A literal that underflows to zero is not seen.) *)
Fixpoint float_text_is_zero (t : str) : bool :=
  match t with
  | [] => true
  | c :: t' =>
      if ((c =? 101) || (c =? 69))%N then true
      else if ((c =? 45) || (c =? 46) || (c =? 48))%N then float_text_is_zero t'
      else false
  end.

(** Truth value of a decoded value, as tested by [if v:] and [not v]. *)
Definition py_truthy (v : json) : bool :=
  match v with
  | JNull => false
  | JBool b => b
  | JInt z => negb (z =? 0)
  | JFloat t => negb (float_text_is_zero t)
  | JString t => match t with [] => false | _ :: _ => true end
  | JArray items => match items with [] => false | _ :: _ => true end
  | JObject members => match members with [] => false | _ :: _ => true end
  end.

(** *** Decoding *)

Inductive presult (A : Type) :=
  | POk (a : A) (rest : str)
  | PErr
  | PFuel.
Arguments POk {A} a rest.
Arguments PErr {A}.
Arguments PFuel {A}.

(** A scan that does not exhaust its fuel and, when it succeeds, leaves
    a text shorter than the one it was given. *)
Definition progresses {A} (s : str) (p : presult A) : Prop :=
  p <> PFuel /\ forall a r, p = POk a r -> (length r < length s)%nat.

Local Open Scope N_scope.

(** The decoder's whitespace: space, tab, line feed, carriage return. *)
Definition is_json_ws (c : char) : bool :=
  (c =? 32) || (c =? 9) || (c =? 10) || (c =? 13).

Fixpoint skip_ws (s : str) : str :=
  match s with
  | c :: s' => if is_json_ws c then skip_ws s' else s
  | [] => []
  end.

Definition is_digit (c : char) : bool := (48 <=? c) && (c <=? 57).

Definition hex_val (c : char) : option N :=
  if is_digit c then Some (c - 48)
  else if (97 <=? c) && (c <=? 102) then Some (c - 87)
  else if (65 <=? c) && (c <=? 70) then Some (c - 55)
  else None.

Definition hex4 (a b c d : char) : option N :=
  match hex_val a, hex_val b, hex_val c, hex_val d with
  | Some x, Some y, Some z, Some w => Some (((x * 16 + y) * 16 + z) * 16 + w)
  | _, _, _, _ => None
  end.

(** The one-character escapes after a backslash. *)
Definition unescape (e : char) : option char :=
  if e =? 34 then Some 34        (* quote *)
  else if e =? 92 then Some 92   (* backslash *)
  else if e =? 47 then Some 47   (* slash *)
  else if e =? 98 then Some 8    (* b *)
  else if e =? 102 then Some 12  (* f *)
  else if e =? 110 then Some 10  (* n *)
  else if e =? 114 then Some 13  (* r *)
  else if e =? 116 then Some 9   (* t *)
  else None.

Definition is_high_surrogate (u : N) : bool := (55296 <=? u) && (u <=? 56319).
Definition is_low_surrogate (u : N) : bool := (56320 <=? u) && (u <=? 57343).

(** [scanstring], strict: the text after an opening quote, up to the
    closing one; [acc] holds the decoded characters, last first. *)
Fixpoint scan_string (s : str) (acc : str) : presult str :=
  match s with
  | [] => PErr
  | c :: s1 =>
      if c =? 34 then POk (rev acc) s1
      else if c <? 32 then PErr
      else if c =? 92 then
        match s1 with
        | [] => PErr
        | e :: s2 =>
            if e =? 117 then
              match s2 with
              | h1 :: h2 :: h3 :: h4 :: s3 =>
                  match hex4 h1 h2 h3 h4 with
                  | None => PErr
                  | Some u =>
                      if is_high_surrogate u then
                        match s3 with
                        | b :: u' :: g1 :: g2 :: g3 :: g4 :: s4 =>
                            if (b =? 92) && (u' =? 117) then
                              match hex4 g1 g2 g3 g4 with
                              | None => PErr
                              | Some u2 =>
                                  if is_low_surrogate u2 then
                                    scan_string s4
                                      (65536 + ((u - 55296) * 1024 + (u2 - 56320)) :: acc)
                                  else scan_string s3 (u :: acc)
                              end
                            else scan_string s3 (u :: acc)
                        | _ => scan_string s3 (u :: acc)
                        end
                      else scan_string s3 (u :: acc)
                  end
              | _ => PErr
              end
            else
              match unescape e with
              | Some c' => scan_string s2 (c' :: acc)
              | None => PErr
              end
        end
      else scan_string s1 (c :: acc)
  end.

(** The longest run of decimal digits at the head of [s]. *)
Fixpoint take_digits (s : str) : str * str :=
  match s with
  | c :: s' =>
      if is_digit c then let '(d, r) := take_digits s' in (c :: d, r)
      else ([], s)
  | [] => ([], [])
  end.

Definition digits_value (d : str) : Z :=
  fold_left (fun acc c => (acc * 10 + Z.of_N (c - 48))%Z) d 0%Z.

(** The integer part of a number: an optional minus sign, then a single
    zero or a non-zero digit followed by digits. *)
Definition scan_int_part (s : str) : option (str * str) :=
  let '(sign, s0) :=
    match s with
    | c :: s' => if c =? 45 then ([c], s') else ([], s)
    | [] => ([], s)
    end in
  match s0 with
  | c :: s1 =>
      if c =? 48 then Some (sign ++ [c], s1)
      else if is_digit c then
        let '(d, r) := take_digits s1 in Some (sign ++ c :: d, r)
      else None
  | [] => None
  end.

(** The optional fraction: a dot and at least one digit. *)
Definition scan_frac (s : str) : str * str :=
  match s with
  | c :: s1 =>
      if c =? 46 then
        match take_digits s1 with
        | ([], _) => ([], s)
        | (d, r) => (c :: d, r)
        end
      else ([], s)
  | [] => ([], s)
  end.

(** The optional exponent: e or E, an optional sign, at least one digit. *)
Definition scan_exp (s : str) : str * str :=
  match s with
  | c :: s1 =>
      if (c =? 101) || (c =? 69) then
        let '(sign, s2) :=
          match s1 with
          | g :: s' => if (g =? 45) || (g =? 43) then ([g], s') else ([], s1)
          | [] => ([], s1)
          end in
        match take_digits s2 with
        | ([], _) => ([], s)
        | (d, r) => (c :: sign ++ d, r)
        end
      else ([], s)
  | [] => ([], s)
  end.

Definition int_of_literal (t : str) : Z :=
  match t with
  | c :: d => if c =? 45 then (- digits_value d)%Z else digits_value t
  | [] => 0%Z
  end.

Definition scan_number (s : str) : option (json * str) :=
  match scan_int_part s with
  | None => None
  | Some (i, r) =>
      let '(f, r1) := scan_frac r in
      let '(e, r2) := scan_exp r1 in
      match f, e with
      | [], [] => Some (JInt (int_of_literal i), r2)
      | _, _ => Some (JFloat (i ++ f ++ e), r2)
      end
  end.

(** A constant such as [null]: the value, if [s] starts with its text. *)
Definition scan_const (text : string) (v : json) (s : str) : presult json :=
  if starts_with (lit text) s then POk v (drop (length (lit text)) s) else PErr.

(** A later duplicate key overrides the value and keeps the first place,
    as [dict(pairs)] does. *)
Definition dict_of_pairs (pairs : list (str * json)) : dict :=
  fold_left (fun d kv => dict_set (fst kv) (snd kv) d) pairs [].

(** [scan_once] with its two loops, [JSONArray] and [JSONObject]. *)
Fixpoint parse_value (fuel : nat) (s : str) : presult json :=
  match fuel with
  | O => PFuel
  | S f =>
      match s with
      | [] => PErr
      | c :: s1 =>
          if c =? 34 then
            match scan_string s1 [] with
            | POk t r => POk (JString t) r
            | PErr => PErr
            | PFuel => PFuel
            end
          else if c =? 123 then
            match skip_ws s1 with
            | c' :: s2 =>
                if c' =? 125 then POk (JObject []) s2
                else parse_members f (c' :: s2) []
            | [] => PErr
            end
          else if c =? 91 then
            match skip_ws s1 with
            | c' :: s2 =>
                if c' =? 93 then POk (JArray []) s2
                else parse_elements f (c' :: s2) []
            | [] => PErr
            end
          else if c =? 110 then scan_const "null" JNull s
          else if c =? 116 then scan_const "true" (JBool true) s
          else if c =? 102 then scan_const "false" (JBool false) s
          else
            match scan_number s with
            | Some (v, r) => POk v r
            | None =>
                if c =? 78 then scan_const "NaN" (JFloat (lit "NaN")) s
                else if c =? 73 then
                  scan_const "Infinity" (JFloat (lit "Infinity")) s
                else if c =? 45 then
                  scan_const "-Infinity" (JFloat (lit "-Infinity")) s
                else PErr
            end
      end
  end

with parse_elements (fuel : nat) (s : str) (acc : list json) : presult json :=
  match fuel with
  | O => PFuel
  | S f =>
      match parse_value f s with
      | POk v r =>
          match skip_ws r with
          | c :: r1 =>
              if c =? 93 then POk (JArray (rev (v :: acc))) r1
              else if c =? 44 then parse_elements f (skip_ws r1) (v :: acc)
              else PErr
          | [] => PErr
          end
      | PErr => PErr
      | PFuel => PFuel
      end
  end

with parse_members (fuel : nat) (s : str) (acc : list (str * json)) : presult json :=
  match fuel with
  | O => PFuel
  | S f =>
      match s with
      | q :: s1 =>
          if q =? 34 then
            match scan_string s1 [] with
            | POk key r =>
                match skip_ws r with
                | colon :: r1 =>
                    if colon =? 58 then
                      match parse_value f (skip_ws r1) with
                      | POk v r2 =>
                          match skip_ws r2 with
                          | c :: r3 =>
                              if c =? 125 then
                                POk (JObject (dict_of_pairs (rev ((key, v) :: acc)))) r3
                              else if c =? 44 then
                                parse_members f (skip_ws r3) ((key, v) :: acc)
                              else PErr
                          | [] => PErr
                          end
                      | PErr => PErr
                      | PFuel => PFuel
                      end
                    else PErr
                | [] => PErr
                end
            | PErr => PErr
            | PFuel => PFuel
            end
          else PErr
      | [] => PErr
      end
  end.

Local Close Scope N_scope.

(** The fuel given to [parse_value]; it is never exhausted (see
    [json_loads_fuel]). *)
Definition loads_fuel (s : str) : nat := (2 * length s + 2)%nat.

(** The grammar of [json.loads]: the value that the text denotes,
    [None] when it is no JSON text. *)
Definition parse_json (s : str) : option json :=
  match parse_value (loads_fuel s) (skip_ws s) with
  | POk v r => match skip_ws r with [] => Some v | _ :: _ => None end
  | PErr => None
  | PFuel => None
  end.

(** What depends on the interpreter and its settings.  On some texts
    [json.loads] ends with an exception that is no [JSONDecodeError]: a
    [ValueError] for an integer literal with more digits than [int]
    converts (4300 by default), a [RecursionError] for nesting past the
    recursion limit of the moment; [loads_limit s] is that exception, if
    any.  [float_repr t] is the text that [json.dumps] prints for the
    double read from the literal [t]. *)
Class Interpreter := {
  loads_limit : str -> option exn;
  float_repr : str -> str
}.

Definition is_decode_error (e : exn) : bool :=
  match e with JSONDecodeError => true | _ => false end.

Section Interpreted.
Context {interp : Interpreter}.

(** [json.loads(s)]. *)
Definition loads (s : str) : outcome json :=
  match loads_limit s with
  | Some e => Raise e
  | None =>
      match parse_json s with
      | Some v => Return v
      | None => Raise JSONDecodeError
      end
  end.

(** The value that [json.loads(s)] returns, when it returns one. *)
Definition json_loads (s : str) : option json :=
  match loads s with
  | Return v => Some v
  | Raise _ => None
  end.

End Interpreted.

(** *** Encoding: [json.dumps(v, indent=2)] *)

Definition hex_digit (n : N) : char :=
  (if n <? 10 then 48 + n else 87 + n)%N.

Definition hex4_text (u : N) : str :=
  [hex_digit (u / 4096 mod 16); hex_digit (u / 256 mod 16);
   hex_digit (u / 16 mod 16); hex_digit (u mod 16)]%N.

(** [\uXXXX], a surrogate pair above the basic plane. *)
Definition unicode_escape (c : char) : str :=
  (if c <? 65536 then lit "\u" ++ hex4_text c
   else
     let n := c - 65536 in
     lit "\u" ++ hex4_text (55296 + n / 1024 mod 1024)
       ++ lit "\u" ++ hex4_text (56320 + n mod 1024))%N.

(** One character of a string under [ensure_ascii]. *)
Definition encode_char (c : char) : str :=
  (if c =? 34 then [92; 34]
   else if c =? 92 then [92; 92]
   else if c =? 10 then lit "\n"
   else if c =? 13 then lit "\r"
   else if c =? 9 then lit "\t"
   else if c =? 8 then lit "\b"
   else if c =? 12 then lit "\f"
   else if (32 <=? c) && (c <=? 126) then [c]
   else unicode_escape c)%N.

Definition encode_string (s : str) : str :=
  dquote :: concat (map encode_char s) ++ [dquote].

Definition str_of_Z (z : Z) : str := lit (NilZero.string_of_int (Z.to_int z)).

Definition str_of_nat (n : nat) : str := str_of_Z (Z.of_nat n).

(** A line break followed by the indentation of [level]. *)
Definition newline_indent (level : nat) : str :=
  10%N :: repeat 32%N (2 * level).

Section Encoding.
Context {interp : Interpreter}.

(** A [float] is printed as the interpreter prints the double read
    from its literal. *)
Fixpoint dumps_at (level : nat) (v : json) : str :=
  match v with
  | JNull => lit "null"
  | JBool true => lit "true"
  | JBool false => lit "false"
  | JInt z => str_of_Z z
  | JFloat text => float_repr text
  | JString t => encode_string t
  | JArray [] => lit "[]"
  | JArray items =>
      lit "[" ++ newline_indent (S level)
        ++ join (lit "," ++ newline_indent (S level))
             (map (dumps_at (S level)) items)
        ++ newline_indent level ++ lit "]"
  | JObject [] => lit "{}"
  | JObject members =>
      lit "{" ++ newline_indent (S level)
        ++ join (lit "," ++ newline_indent (S level))
             (map (fun kv => encode_string (fst kv) ++ lit ": "
                               ++ dumps_at (S level) (snd kv)) members)
        ++ newline_indent level ++ lit "}"
  end.

Definition json_dumps (v : json) : str := dumps_at 0 v.

End Encoding.

End Json.

Import Json.

(** ** [diagram_generator.py] (and the same two functions of [app.py]) *)

Module DiagramGenerator.

(** *** The two regular expressions of [validate_json] *)

Local Open Scope N_scope.

(** [\s] on a [str] pattern: the characters for which [isspace] holds. *)
Definition is_space (c : char) : bool :=
  ((9 <=? c) && (c <=? 13)) || ((28 <=? c) && (c <=? 32))
  || (c =? 133) || (c =? 160) || (c =? 5760)
  || ((8192 <=? c) && (c <=? 8202)) || (c =? 8232) || (c =? 8233)
  || (c =? 8239) || (c =? 8287) || (c =? 12288).

Fixpoint skip_space (s : str) : str :=
  match s with
  | c :: s' => if is_space c then skip_space s' else s
  | [] => []
  end.

Definition fence : str := lit "```".
Definition fence_json : str := lit "```json".

(** The lazy group: the shortest text ending in a closing brace that is
    followed by optional whitespace and a fence.  [acc] is the group so
    far, last character first. *)
Fixpoint fenced_body (s : str) (acc : str) : option str :=
  match s with
  | [] => None
  | c :: s' =>
      if (c =? 125) && starts_with fence (skip_space s')
      then Some (rev (c :: acc))
      else fenced_body s' (c :: acc)
  end.

(** A match of the fenced pattern that starts exactly at the head of [s]. *)
Definition match_fenced_at (s : str) : option str :=
  if starts_with fence_json s then
    match skip_space (drop (length fence_json) s) with
    | c :: r => if c =? 123 then fenced_body r [c] else None
    | [] => None
    end
  else None.

(** [re.search] of the fenced pattern under [re.DOTALL]; the result is
    [match.group(1)]. *)
Fixpoint search_fenced (s : str) : option str :=
  match match_fenced_at s with
  | Some g => Some g
  | None =>
      match s with
      | [] => None
      | _ :: s' => search_fenced s'
      end
  end.

(** The prefix of [s] up to and including its last closing brace. *)
Fixpoint up_to_last_close (s : str) : option str :=
  match s with
  | [] => None
  | c :: s' =>
      match up_to_last_close s' with
      | Some t => Some (c :: t)
      | None => if c =? 125 then Some [c] else None
      end
  end.

(** [re.search] of the greedy brace pattern under [re.DOTALL]; the
    result is [match.group(0)]. *)
Fixpoint search_brace (s : str) : option str :=
  match s with
  | [] => None
  | c :: s' =>
      if c =? 123 then
        match up_to_last_close s' with
        | Some t => Some (c :: t)
        | None => search_brace s'
        end
      else search_brace s'
  end.

Local Close Scope N_scope.

(** The text handed to [json.loads]. *)
Definition extract_json (json_str : str) : str :=
  match search_fenced json_str with
  | Some g => g
  | None =>
      match search_brace json_str with
      | Some g => g
      | None => json_str
      end
  end.

(** *** Operators applied to the decoded value *)

(** [key in data]: by key on a [dict], by element on a [list], by
    substring on a [str]; any other value is not iterable. *)
Definition py_in (key : str) (data : json) : py bool :=
  match data with
  | JObject d => ret (dict_in key d)
  | JArray items =>
      ret (existsb (fun x => match x with
                              | JString t => str_eqb t key
                              | _ => false
                              end) items)
  | JString t => ret (str_contains key t)
  | _ => raise TypeError
  end.

(** [data.get(key)]: only a [dict] has the method. *)
Definition py_get (key : str) (data : json) : py (option json) :=
  match data with
  | JObject d => ret (dict_get key d)
  | _ => raise AttributeError
  end.

(** [data[key]] with a string key. *)
Definition py_getitem (key : str) (data : json) : py json :=
  match data with
  | JObject d =>
      match dict_get key d with
      | Some v => ret v
      | None => raise (KeyError key)
      end
  | _ => raise TypeError
  end.

(** The items of a value known to be a list. *)
Definition list_items (v : json) : list json :=
  match v with JArray items => items | _ => [] end.

(** *** [validate_json] *)

Definition required_fields : list str :=
  [lit "nodes"; lit "hierarchy"; lit "edges"].

(** The loop over [required_fields]: [false] after the first missing one. *)
Fixpoint check_required (fields : list str) (data : json) : py bool :=
  match fields with
  | [] => ret true
  | field :: rest =>
      let! present := py_in field data in
      if present then check_required rest data
      else
        let! _ := print (lit "Validation Error: Missing field '" ++ field ++ lit "'") in
        ret false
  end.

(** The loop over [enumerate(data['nodes'])], from index [i]. *)
Fixpoint check_nodes (i : nat) (nodes : list json) : py bool :=
  match nodes with
  | [] => ret true
  | node :: rest =>
      match node with
      | JObject d =>
          if dict_in (lit "id") d then check_nodes (S i) rest
          else
            let! _ := print (lit "Validation Error: Node at index " ++ str_of_nat i
                         ++ lit " missing 'id' or not an object") in
            ret false
      | _ =>
          let! _ := print (lit "Validation Error: Node at index " ++ str_of_nat i
                       ++ lit " missing 'id' or not an object") in
          ret false
      end
  end.

(** The loop over [enumerate(data['edges'])], from index [i]. *)
Fixpoint check_edges (i : nat) (edges : list json) : py bool :=
  match edges with
  | [] => ret true
  | edge :: rest =>
      match edge with
      | JObject d =>
          if dict_in (lit "source") d && dict_in (lit "target") d
          then check_edges (S i) rest
          else
            let! _ := print (lit "Validation Error: Edge at index " ++ str_of_nat i
                         ++ lit " missing source/target") in
            ret false
      | _ =>
          let! _ := print (lit "Validation Error: Edge at index " ++ str_of_nat i
                       ++ lit " missing source/target") in
          ret false
      end
  end.

(** The Sequence branch, entered when both keys are present. *)
Definition validate_sequence (data : json) : py (option json) :=
  let! participants := py_get (lit "participants") data in
  if negb (is_list participants) then
    let! _ := print (lit "Validation Error: 'participants' must be a list") in
    ret None
  else
    let! events := py_get (lit "events") data in
    if negb (is_list events) then
      let! _ := print (lit "Validation Error: 'events' must be a list") in
      ret None
    else ret (Some data).

(** The Graph/Mindmap branch, the fallback. *)
Definition validate_graph (data : json) : py (option json) :=
  let! all_present := check_required required_fields data in
  if negb all_present then ret None
  else
    let! nodes := py_get (lit "nodes") data in
    if negb (is_list nodes) then
      let! _ := print (lit "Validation Error: 'nodes' must be a list") in
      ret None
    else
      let! nodes_v := py_getitem (lit "nodes") data in
      let! nodes_ok := check_nodes 0 (list_items nodes_v) in
      if negb nodes_ok then ret None
      else
        let! edges := py_get (lit "edges") data in
        if negb (is_list edges) then
          let! _ := print (lit "Validation Error: 'edges' must be a list") in
          ret None
        else
          let! edges_v := py_getitem (lit "edges") data in
          let! edges_ok := check_edges 0 (list_items edges_v) in
          if negb edges_ok then ret None
          else ret (Some data).

(** The body of the [try] after [json.loads]: the schema dispatch. *)
Definition validate_data (data : json) : py (option json) :=
  let! has_participants := py_in (lit "participants") data in
  let! is_sequence := (if has_participants then py_in (lit "events") data else ret false) in
  if is_sequence then validate_sequence data
  else
    let! is_timeline := py_in (lit "mermaid_syntax") data in
    if is_timeline then ret (Some data)
    else validate_graph data.

Section Validation.
Context {interp : Interpreter}.

(** [validate_json(json_str)].  Only [json.JSONDecodeError] is caught:
    any other exception of [json.loads] or of the schema dispatch leaves
    the function.  The text of the decoder's message, printed after the
    prefix, is not modelled. *)
Definition validate_json (json_str : str) : py (option json) :=
  catch_decode_error
    (let! data := ([], loads (extract_json json_str)) in
     validate_data data)
    (let! _ := print (lit "JSON Decode Error: ") in
     ret None).

End Validation.

(** *** [inject_data_into_html] *)

Definition start_marker : str := lit "/* [INJECTION_START] */".
Definition end_marker : str := lit "/* [INJECTION_END] */".

(** [json_str.replace("</", "<\\/")]. *)
Fixpoint escape_close_tags (s : str) : str :=
  match s with
  | [] => []
  | c :: s' =>
      match s' with
      | c' :: s'' =>
          if ((c =? 60) && (c' =? 47))%N
          then 60%N :: 92%N :: 47%N :: escape_close_tags s''
          else c :: escape_close_tags s'
      | [] => [c]
      end
  end.

(** The text spliced in as [json_str]. *)
Definition serialize {interp : Interpreter} (json_data : json) : str :=
  escape_close_tags (json_dumps json_data).

(** The two characters the escape is about. *)
Definition close_tag : str := lit "</".

(** The f-string [new_block]. *)
Definition new_block (json_str : str) : str :=
  start_marker ++ [10%N] ++ lit "            const architectureData = "
    ++ json_str ++ lit ";" ++ [10%N] ++ lit "            " ++ end_marker.

(** The fixed text of [new_block] before and after [json_str]. *)
Definition block_head : str :=
  start_marker ++ [10%N] ++ lit "            const architectureData = ".
Definition block_tail : str := lit ";" ++ [10%N] ++ lit "            ".

Definition not_found_message : str :=
  lit "Could not find the insertion point in the HTML template.".

Definition inject_data_into_html {interp : Interpreter}
    (html_content : str) (json_data : json) : py str :=
  let json_str := serialize json_data in
  let start_idx := str_find html_content start_marker in
  let end_idx := str_find html_content end_marker in
  if negb (start_idx =? -1) && negb (end_idx =? -1) then
    let pre_content := slice_to html_content start_idx in
    let post_content := slice_from html_content (end_idx + len end_marker) in
    ret (pre_content ++ new_block json_str ++ post_content)
  else
    let! _ := print not_found_message in
    ret html_content.

End DiagramGenerator.

(** ** [agent/rag_pipeline.py] *)

Module RagPipeline.

(** The metadata [dict] of a document; the two chunk keys are present
    only on the chunks of a split file. *)
Record Metadata := {
  source : str;
  file_type : str;
  size : Z;
  directory : str;
  filename : str;
  chunk_index : option nat;
  total_chunks : option nat
}.

(** A LangChain [Document]. *)
Record Document := {
  page_content : str;
  metadata : Metadata
}.

(** One value of the [files] mapping. *)
Record FileData := {
  content : str;
  file_size : Z
}.

(** The [files] mapping, in insertion order. *)
Definition Files := list (str * FileData).

(** A metadata filter: required values of string-valued keys. *)
Definition Filter := list (str * str).

(** What the pipeline asks of [pathlib], of the LangChain text splitter
    and of the Chroma store.  A similarity search ranks the candidate
    documents, every one of them once, and returns the first [k]. *)
Class Libraries := {
  path_suffix : str -> str;
  path_parent : str -> str;
  path_name : str -> str;
  path_parts : str -> list str;
  str_lower : str -> str;
  split_text : str -> list str;
  rank : str -> list Document -> list Document;
  rank_permutation : forall q docs, Permutation (rank q docs) docs
}.

(** The instance state: [self.vectorstore], [None] before
    [build_index]; the store holds the indexed documents. *)
Record RAGPipeline := {
  vectorstore : option (list Document)
}.

Definition type_mapping : list (string * string) :=
  [ (".py", "python");
    (".js", "javascript"); (".jsx", "javascript");
    (".ts", "typescript"); (".tsx", "typescript");
    (".java", "java");
    (".go", "go");
    (".rs", "rust");
    (".rb", "ruby");
    (".php", "php");
    (".c", "c"); (".cpp", "cpp"); (".h", "c_header"); (".hpp", "cpp_header");
    (".cs", "csharp");
    (".swift", "swift");
    (".kt", "kotlin");
    (".scala", "scala");
    (".html", "html"); (".css", "css"); (".scss", "scss");
    (".json", "json"); (".yaml", "yaml"); (".yml", "yaml"); (".toml", "toml");
    (".md", "markdown"); (".txt", "text"); (".rst", "rst");
    (".sql", "sql");
    (".sh", "shell"); (".bash", "shell");
    (".dockerfile", "dockerfile") ]%string.

(** [table.get(ext, 'unknown')]. *)
Fixpoint lookup_type (table : list (string * string)) (ext : str) : str :=
  match table with
  | [] => lit "unknown"
  | (e, t) :: table' => if str_eqb (lit e) ext then lit t else lookup_type table' ext
  end.

(** [d.metadata.get('chunk_index', 0)]. *)
Definition chunk_key (d : Document) : nat :=
  match chunk_index (metadata d) with Some i => i | None => 0%nat end.

(** The order of [sorted(results, key=...)] in [get_file_context]. *)
Definition key_le (a b : Document) : Prop := (chunk_key a <= chunk_key b)%nat.
Definition key_leb (a b : Document) : bool := (chunk_key a <=? chunk_key b)%nat.

(** [doc.metadata.get('source', ...)]: the key is always present. *)
Definition doc_source (d : Document) : str := source (metadata d).

(** The value of a string-valued metadata key. *)
Definition metadata_str (key : str) (md : Metadata) : option str :=
  if str_eqb key (lit "source") then Some (source md)
  else if str_eqb key (lit "file_type") then Some (file_type md)
  else if str_eqb key (lit "directory") then Some (directory md)
  else if str_eqb key (lit "filename") then Some (filename md)
  else None.

Definition matches (f : Filter) (d : Document) : bool :=
  forallb (fun kv => match metadata_str (fst kv) (metadata d) with
                     | Some v => str_eqb v (snd kv)
                     | None => false
                     end) f.

(** The files and directories of [get_file_structure]: a [dict] whose
    values are [None] for a file and a [dict] for a directory. *)
Inductive tree := Dir (entries : list (str * option tree)).

Definition tree_in (name : str) (t : tree) : bool :=
  let 'Dir es := t in existsb (fun e => str_eqb (fst e) name) es.

Definition tree_get (name : str) (t : tree) : option (option tree) :=
  let 'Dir es := t in
  snd <$> List.find (fun e => str_eqb (fst e) name) es.

(** [current[name] = v]. *)
Definition tree_set (name : str) (v : option tree) (t : tree) : tree :=
  let 'Dir es := t in
  Dir ((fix set (es : list (str * option tree)) :=
          match es with
          | [] => [(name, v)]
          | (k, x) :: es' =>
              if str_eqb k name then (k, v) :: es' else (k, x) :: set es'
          end) es).

(** One round of the loop over [paths]: walk down [parts[:-1]], creating
    directories, then mark [parts[-1]] as a file. *)
Fixpoint insert_parts (parts : list str) (current : tree) : py tree :=
  match parts with
  | [] => raise IndexError
  | [name] => ret (tree_set name None current)
  | part :: rest =>
      let current' :=
        if tree_in part current then current
        else tree_set part (Some (Dir [])) current in
      match tree_get part current' with
      | Some (Some sub) =>
          let! sub' := insert_parts rest sub in
          ret (tree_set part (Some sub') current')
      | Some None => raise TypeError
      | None => raise (KeyError part)
      end
  end.

Definition connector (is_last : bool) : str :=
  if is_last then [9492; 9472; 9472; 32]%N else [9500; 9472; 9472; 32]%N.

Definition extension (is_last : bool) : str :=
  if is_last then lit "    " else [9474; 32; 32; 32]%N.

Fixpoint format_tree (t : tree) (prefix : str) : str :=
  let 'Dir entries := t in
  join [10%N]
    ((fix lines (es : list (str * option tree)) : list str :=
        match es with
        | [] => []
        | (name, subtree) :: es' =>
            let is_last := match es' with [] => true | _ :: _ => false end in
            (prefix ++ connector is_last ++ name)
              :: match subtree with
                 | Some sub => [format_tree sub (prefix ++ extension is_last)]
                 | None => []
                 end
              ++ lines es'
        end) entries).

(** ["=== {source} ===\n{page_content}\n"]. *)
Definition context_block (d : Document) : str :=
  lit "=== " ++ source (metadata d) ++ lit " ===" ++ [10%N]
    ++ page_content d ++ [10%N].

(** The query battery of [get_architecture_context]. *)
Definition architecture_queries : list str :=
  [ lit "main entry point application initialization";
    lit "API routes endpoints handlers";
    lit "database models schema";
    lit "configuration settings environment";
    lit "core business logic services";
    lit "imports dependencies modules" ].

(** The inner loop: append the documents whose source is new. *)
Fixpoint merge_results (results : list Document)
    (acc : list Document * gset str) : list Document * gset str :=
  match results with
  | [] => acc
  | doc :: rest =>
      let '(all_docs, seen_sources) := acc in
      let src := source (metadata doc) in
      if decide (src ∈ seen_sources) then merge_results rest acc
      else merge_results rest (all_docs ++ [doc], {[src]} ∪ seen_sources)
  end.

Section Methods.
Context {libs : Libraries}.

Definition _get_file_type (file_path : str) : str :=
  let ext := str_lower (path_suffix file_path) in
  lookup_type type_mapping ext.

(** The documents of one file. *)
Definition file_documents (file_path : str) (file_data : FileData)
  : list Document :=
  let md := {| source := file_path;
               file_type := _get_file_type file_path;
               size := file_size file_data;
               directory := path_parent file_path;
               filename := path_name file_path;
               chunk_index := None;
               total_chunks := None |} in
  if 1500 <? len (content file_data) then
    let chunks := split_text (content file_data) in
    imap (fun i chunk =>
            {| page_content := chunk;
               metadata := {| source := source md;
                              file_type := file_type md;
                              size := size md;
                              directory := directory md;
                              filename := filename md;
                              chunk_index := Some i;
                              total_chunks := Some (length chunks) |} |})
         chunks
  else [ {| page_content := content file_data; metadata := md |} ].

Definition _create_documents (files : Files) : list Document :=
  flat_map (fun kv => file_documents (fst kv) (snd kv)) files.

Definition no_documents : exn := ValueError (lit "No documents to index").

(** [build_index]: the new state and the number of documents.
    [Chroma.from_documents] opens the collection of the name
    'repo_analysis', which the process shares, and adds the documents to
    it: [held] are the documents that the collection holds before the
    call, none in a fresh process, and the store of the pipeline holds
    them and the new ones. *)
Definition build_index (held : list Document) (self : RAGPipeline)
    (files : Files) : py (RAGPipeline * nat) :=
  let documents := _create_documents files in
  match documents with
  | [] => raise no_documents
  | _ :: _ =>
      ret ({| vectorstore := Some (held ++ documents) |}, length documents)
  end.

(** [vectorstore.similarity_search(query, k, filter)]. *)
Definition similarity_search (store : list Document) (query : str) (k : nat)
    (filter_dict : option Filter) : list Document :=
  let candidates :=
    match filter_dict with
    | Some (c :: f) => List.filter (matches (c :: f)) store
    | _ => store
    end in
  take k (rank query candidates).

(** Everything the query battery returns, query after query. *)
Definition battery_results (store : list Document) (queries : list str) (k : nat)
  : list Document :=
  concat (map (fun q => similarity_search store q k None) queries).

(** The documents of [file_path] held by the store. *)
Definition documents_of (store : list Document) (file_path : str) : list Document :=
  List.filter (matches [(lit "source", file_path)]) store.

Definition query (self : RAGPipeline) (q : str) (k : nat)
    (filter_dict : option Filter) : py (list Document) :=
  match vectorstore self with
  | None => raise (ValueError (lit "Index not built. Call build_index first."))
  | Some store => ret (similarity_search store q k filter_dict)
  end.

Definition get_file_context (self : RAGPipeline) (file_path : str) : py str :=
  let! results := query self (lit "file: " ++ file_path) 20
                    (Some [(lit "source", file_path)]) in
  let sorted_results := py_sorted key_leb results in
  ret (join [10%N] (map page_content sorted_results)).

(** The outer loop of [get_architecture_context] over the queries. *)
Fixpoint collect_documents (self : RAGPipeline) (queries : list str) (k : nat)
    (acc : list Document * gset str) : py (list Document * gset str) :=
  match queries with
  | [] => ret acc
  | q :: rest =>
      let! results := query self q k None in
      collect_documents self rest k (merge_results results acc)
  end.

(** The documents that are formatted: [all_docs[:15]]. *)
Definition architecture_documents (self : RAGPipeline) (k : nat)
  : py (list Document) :=
  let! acc := collect_documents self architecture_queries k ([], ∅) in
  ret (take 15 (fst acc)).

Definition get_architecture_context (self : RAGPipeline) (k : nat) : py str :=
  let! docs := architecture_documents self k in
  ret (join [10%N] (map context_block docs)).

(** The loop of [get_file_structure] over the sorted paths. *)
Fixpoint build_structure (paths : list str) (structure : tree) : py tree :=
  match paths with
  | [] => ret structure
  | path :: rest =>
      let! structure' := insert_parts (path_parts path) structure in
      build_structure rest structure'
  end.

Definition get_file_structure (files : Files) : py str :=
  let paths := py_sorted str_leb (map fst files) in
  let! structure := build_structure paths (Dir []) in
  ret (format_tree structure []).

End Methods.

End RagPipeline.

(** ** [agent/repo_agent.py] *)

Module RepoAgent.
Import DiagramGenerator RagPipeline.

(** The [repo_data] mapping; [description] and [language] are read with
    [.get] and may be absent. *)
Record RepoData := {
  name : str;
  full_name : str;
  description : option str;
  language : option str;
  files : Files
}.

(** A planned diagram; every key is read with [.get]. *)
Record DiagramSpec := {
  spec_type : option str;
  spec_title : option str;
  spec_description : option str;
  spec_generation_prompt : option str
}.

Inductive Message :=
  | SystemMessage (text : str)
  | HumanMessage (text : str).

(** The chat model, whose call is remote and may raise, and the
    templates of [agent/prompts.py]: each [X.format(...)] is a function
    of the keyword arguments, in the order in which the call lists
    them.  [invoke messages] is the [content] of the answer, or the
    exception with which the call ends. *)
Class Services := {
  invoke : list Message -> outcome str;
  ANALYSIS_SYSTEM_PROMPT : str;
  REPO_OVERVIEW_PROMPT : str -> str -> str -> str -> str -> str;
  SEQUENCE_FROM_REPO_PROMPT : str -> str -> str -> str;
  MINDMAP_FROM_REPO_PROMPT : str -> str -> str -> str -> str;
  GRAPH_FROM_REPO_PROMPT : str -> str -> str -> str
}.

(** The instance state. *)
Record RepoAnalysisAgent := {
  rag : RAGPipeline;
  repo_data : option RepoData;
  overview : option json;
  diagram_plan : option json
}.

(** [v if v is present else d], for [.get(key, d)]. *)
Definition get_or {A} (d : A) (v : option A) : A :=
  match v with Some x => x | None => d end.

(** The fallback overview built from the raw response. *)
Definition fallback_overview (response : str) : json :=
  JObject [ (lit "project_type", JString (lit "unknown"));
            (lit "architecture_pattern", JString (lit "unknown"));
            (lit "components", JArray []);
            (lit "raw_analysis", JString response) ].

(** [not v] for an optional decoded value. *)
Definition py_not (v : option json) : bool :=
  match v with
  | None => true
  | Some x => negb (py_truthy x)
  end.

(** [_parse_json_response]: a [JSONDecodeError] ends the attempt with
    [None]; any other exception of [json.loads] leaves the method. *)
Definition _parse_json_response {interp : Interpreter} (response : str)
  : py (option json) :=
  catch_decode_error
    (match search_fenced response with
     | Some g => let! v := ([], loads g) in ret (Some v)
     | None =>
         match search_brace response with
         | Some g => let! v := ([], loads g) in ret (Some v)
         | None => ret None
         end
     end)
    (ret None).

(** [self.repo_data[...]]: [None] is not subscriptable. *)
Definition the_repo_data (self : RepoAnalysisAgent) : py RepoData :=
  match repo_data self with
  | Some rd => ret rd
  | None => raise TypeError
  end.

(** [self.overview.get('components', [])]. *)
Definition overview_components (self : RepoAnalysisAgent) : py json :=
  match overview self with
  | Some (JObject d) => ret (get_or (JArray []) (dict_get (lit "components") d))
  | _ => raise AttributeError
  end.

(** [diagram_data['_meta'] = meta]. *)
Definition set_meta (meta : json) (diagram_data : json) : py json :=
  match diagram_data with
  | JObject d => ret (JObject (dict_set (lit "_meta") meta d))
  | _ => raise TypeError
  end.

(** The state left by [analyze_overview] when it stores [v]. *)
Definition with_overview (self : RepoAnalysisAgent) (v : json) : RepoAnalysisAgent :=
  {| rag := rag self; repo_data := repo_data self;
     overview := Some v; diagram_plan := diagram_plan self |}.

(** The end of [generate_diagram_data]: a value that is not empty
    gets its ['_meta'], and the value is returned. *)
Definition attach_meta (diagram_type : str) (diagram_spec : DiagramSpec)
    (diagram_data : option json) : py (option json) :=
  match diagram_data with
  | Some data =>
      if py_truthy data then
        let meta :=
          JObject [ (lit "type", JString diagram_type);
                    (lit "title",
                     JString (get_or (lit "Untitled") (spec_title diagram_spec)));
                    (lit "description",
                     JString (get_or [] (spec_description diagram_spec))) ] in
        let! data' := set_meta meta data in
        ret (Some data')
      else ret (Some data)
  | None => ret None
  end.

Section Methods.
Context {interp : Interpreter} {libs : Libraries} {services : Services}.

Definition _call_llm (prompt : str) (system_prompt : option str) : py str :=
  let system :=
    match system_prompt with
    | Some (c :: t) => [SystemMessage (c :: t)]
    | _ => []
    end in
  ([], invoke (system ++ [HumanMessage prompt])).

(** The first half of [analyze_overview]: the prompt. *)
Definition overview_prompt (self : RepoAnalysisAgent) (rd : RepoData) : py str :=
  let! file_structure := get_file_structure (files rd) in
  let! code_context := get_architecture_context (rag self) 8 in
  ret (REPO_OVERVIEW_PROMPT (full_name rd)
         (get_or (lit "No description") (description rd))
         (get_or (lit "Unknown") (language rd))
         (slice_to file_structure 3000)
         (slice_to code_context 8000)).

(** [analyze_overview]: the new state and the overview returned. *)
Definition analyze_overview (self : RepoAnalysisAgent)
  : py (RepoAnalysisAgent * json) :=
  match repo_data self with
  | None =>
      raise (ValueError (lit "No repository data. Call ingest_repository first."))
  | Some rd =>
      let! prompt := overview_prompt self rd in
      let! response := _call_llm prompt (Some ANALYSIS_SYSTEM_PROMPT) in
      let! parsed := _parse_json_response response in
      let result :=
        if py_not parsed then fallback_overview response
        else get_or JNull parsed in
      ret (with_overview self result, result)
  end.

(** ["=== {source} ===\n{page_content}"] of [generate_diagram_data]. *)
Definition code_block (d : Document) : str :=
  lit "=== " ++ source (metadata d) ++ lit " ===" ++ [10%N] ++ page_content d.

(** ["[{source}]\n{page_content}"]. *)
Definition import_block (d : Document) : str :=
  lit "[" ++ source (metadata d) ++ lit "]" ++ [10%N] ++ page_content d.

(** The Sequence prompt, built in the first and in the last branch. *)
Definition sequence_prompt (self : RepoAnalysisAgent) (focus_area code_context : str)
  : py str :=
  let! rd := the_repo_data self in
  ret (SEQUENCE_FROM_REPO_PROMPT (full_name rd) focus_area
         (slice_to code_context 10000)).

(** The [if]/[elif]/[else] chain on [diagram_type]. *)
Definition diagram_prompt (self : RepoAnalysisAgent) (diagram_type : str)
    (focus_area code_context : str) : py str :=
  if str_eqb diagram_type (lit "Sequence") then
    sequence_prompt self focus_area code_context
  else if str_eqb diagram_type (lit "Mindmap") then
    let! rd := the_repo_data self in
    let! file_structure := get_file_structure (files rd) in
    let! components_v := overview_components self in
    let components := json_dumps components_v in
    ret (MINDMAP_FROM_REPO_PROMPT (full_name rd)
           (get_or [] (description rd))
           (slice_to file_structure 3000)
           components)
  else if str_eqb diagram_type (lit "Graph") then
    let! import_docs :=
      query (rag self) (lit "import require from dependencies") 15 None in
    let import_context := join [10%N; 10%N] (map import_block import_docs) in
    let! rd := the_repo_data self in
    ret (GRAPH_FROM_REPO_PROMPT (full_name rd)
           (slice_to import_context 5000)
           (slice_to code_context 5000))
  else
    sequence_prompt self focus_area code_context.

Definition generate_diagram_data (self : RepoAnalysisAgent)
    (diagram_spec : DiagramSpec) : py (option json) :=
  let diagram_type := get_or (lit "Sequence") (spec_type diagram_spec) in
  let focus_area :=
    get_or (get_or [] (spec_title diagram_spec))
           (spec_generation_prompt diagram_spec) in
  let! relevant_docs := query (rag self) focus_area 10 None in
  let code_context := join [10%N; 10%N] (map code_block relevant_docs) in
  let! prompt := diagram_prompt self diagram_type focus_area code_context in
  let! response := _call_llm prompt (Some ANALYSIS_SYSTEM_PROMPT) in
  let! diagram_data := _parse_json_response response in
  attach_meta diagram_type diagram_spec diagram_data.

(** The Sequence route, as the specification words it for a spec whose
    type is not recognised; written apart from the code, for a store and
    repository data at hand: the Sequence prompt is built from the
    documents found for the focus area, the chat model is asked that
    prompt, and its parsed answer is tagged with [diagram_type]. *)
Definition sequence_route_prompt (store : list Document) (rd : RepoData)
    (diagram_spec : DiagramSpec) : str :=
  let focus_area :=
    get_or (get_or [] (spec_title diagram_spec))
           (spec_generation_prompt diagram_spec) in
  let relevant_docs := similarity_search store focus_area 10 None in
  let code_context := join [10%N; 10%N] (map code_block relevant_docs) in
  SEQUENCE_FROM_REPO_PROMPT (full_name rd) focus_area
    (slice_to code_context 10000).

Definition sequence_route (store : list Document) (rd : RepoData)
    (diagram_type : str) (diagram_spec : DiagramSpec) : py (option json) :=
  let! response :=
    _call_llm (sequence_route_prompt store rd diagram_spec)
      (Some ANALYSIS_SYSTEM_PROMPT) in
  let! diagram_data := _parse_json_response response in
  attach_meta diagram_type diagram_spec diagram_data.

End Methods.

End RepoAgent.

(** ** Sample inputs *)

Module Samples.
Import DiagramGenerator RagPipeline RepoAgent.

(** Path components: the text between slashes. *)
Fixpoint split_slash (s : str) (current : str) : list str :=
  match s with
  | [] => [rev current]
  | c :: s' =>
      if (c =? 47)%N then rev current :: split_slash s' []
      else split_slash s' (c :: current)
  end.

(** The suffix of a file name: from its last dot. *)
Fixpoint last_dot_suffix (s : str) : str :=
  match s with
  | [] => []
  | c :: s' =>
      match last_dot_suffix s' with
      | [] => if (c =? 46)%N then s else []
      | t => t
      end
  end.

Definition ascii_lower (s : str) : str :=
  map (fun c => if ((65 <=? c) && (c <=? 90))%N then (c + 32)%N else c) s.

(** Windows of [width] characters, each starting [step] after the one
    before: what the splitter yields on a text without separators. *)
Fixpoint windows (fuel width step : nat) (s : str) : list str :=
  match fuel with
  | O => []
  | S fuel' =>
      if (length s <=? width)%nat then [s]
      else take width s :: windows fuel' width step (drop step s)
  end.

(** A stand-in for the libraries: the ranking puts the last candidate
    first. *)
#[export] Instance sample_libraries : Libraries := {|
  path_suffix := fun p => last_dot_suffix (List.last (split_slash p []) []);
  path_parent := fun p => join (lit "/") (removelast (split_slash p []));
  path_name := fun p => List.last (split_slash p []) [];
  path_parts := fun p => split_slash p [];
  str_lower := ascii_lower;
  split_text := fun s => windows (length s) 1500 1300 s;
  rank := fun _ docs => rev docs;
  rank_permutation := fun _ docs => Permutation_sym (Permutation_rev docs)
|}.

(** The length of the longest run of decimal digits of a text. *)
Fixpoint longest_digit_run (s : str) (current longest : Z) : Z :=
  match s with
  | [] => Z.max current longest
  | c :: s' =>
      if ((48 <=? c) && (c <=? 57))%N
      then longest_digit_run s' (current + 1) longest
      else longest_digit_run s' 0 (Z.max current longest)
  end.

(** A sample interpreter, for the sample texts: the [ValueError] of the
    default limit of 4300 digits for every text with a longer run of
    digits, wherever the run stands; no limit on nesting; and a float
    printed as it is written. *)
#[export] Instance sample_interpreter : Interpreter := {|
  loads_limit := fun s =>
    if 4300 <? longest_digit_run s 0 0
    then Some (ValueError
                 (lit "Exceeds the limit (4300 digits) for integer string conversion"))
    else None;
  float_repr := fun t => t
|}.

(** A chat model that answers every prompt with [answer]. *)
Definition constant_services (answer : str) : Services := {|
  invoke := fun _ => Return answer;
  ANALYSIS_SYSTEM_PROMPT := lit "You are an expert software architect.";
  REPO_OVERVIEW_PROMPT := fun repo_name description language file_structure
                              code_context =>
    lit "Analyze " ++ repo_name ++ [10%N] ++ description ++ [10%N] ++ language
      ++ [10%N] ++ file_structure ++ [10%N] ++ code_context;
  SEQUENCE_FROM_REPO_PROMPT := fun repo_name focus_area code_context =>
    lit "Sequence for " ++ repo_name ++ [10%N] ++ focus_area ++ [10%N]
      ++ code_context;
  MINDMAP_FROM_REPO_PROMPT := fun repo_name description file_structure
                                  components =>
    lit "Mindmap for " ++ repo_name ++ [10%N] ++ description ++ [10%N]
      ++ file_structure ++ [10%N] ++ components;
  GRAPH_FROM_REPO_PROMPT := fun repo_name import_context module_structure =>
    lit "Graph for " ++ repo_name ++ [10%N] ++ import_context ++ [10%N]
      ++ module_structure
|}.

(** A template with both markers, and two payloads. *)
Definition sample_template : str :=
  lit "<script>/* [INJECTION_START] */ const architectureData = null; /* [INJECTION_END] */</script>".

Definition sample_data : json :=
  JObject [(lit "nodes", JArray [JInt 1]); (lit "title", JString (lit "</b>"))].

Definition other_data : json :=
  JObject [(lit "mermaid_syntax", JString (lit "timeline"))].

(** A template whose end marker comes first. *)
Definition reversed_template : str := end_marker ++ lit " " ++ start_marker.

(** A Sequence payload that also carries 'mermaid_syntax', inside a
    fenced block. *)
Definition sequence_and_timeline_text : str :=
  lit "Here it is: ```json {" ++ quoted "mermaid_syntax" ++ lit ": "
    ++ quoted "timeline" ++ lit ", " ++ quoted "participants" ++ lit ": [], "
    ++ quoted "events" ++ lit ": []} ``` done".

Definition timeline_text : str :=
  lit "{" ++ quoted "mermaid_syntax" ++ lit ": " ++ quoted "timeline"
    ++ lit ", " ++ quoted "participants" ++ lit ": 3}".

Definition graph_text : str :=
  lit "{" ++ quoted "nodes" ++ lit ": [{" ++ quoted "id" ++ lit ": 1}], "
    ++ quoted "hierarchy" ++ lit ": {}, " ++ quoted "edges" ++ lit ": []}".

Definition decoded (json_str : str) : dict :=
  match json_loads (extract_json json_str) with
  | Some (JObject d) => d
  | _ => []
  end.

Definition fresh_pipeline : RAGPipeline := {| vectorstore := None |}.

(** A mapping of two files without content. *)
Definition empty_files : Files :=
  [ (lit "pkg/__init__.py", {| content := []; file_size := 0 |});
    (lit "README.md", {| content := []; file_size := 0 |}) ].

(** The corpus of the end-to-end scenario. *)
Definition small_files : Files :=
  [ (lit "main.py", {| content := lit "class Foo: pass"; file_size := 15 |});
    (lit "docs/guide.md", {| content := lit "# Guide"; file_size := 7 |}) ].

(** A file of 27500 characters without separators: 21 stretches of
    1300 equal letters, a to u, and 200 more of the letter v. *)
Definition big_content : str :=
  flat_map (fun k => repeat (97 + N.of_nat k)%N 1300) (seq 0 21)
    ++ repeat 118%N 200.

Definition big_files : Files :=
  [ (lit "src/big.py", {| content := big_content; file_size := 27500 |}) ].

(** The state after a successful [build_index] in a fresh process, or
    [self] unchanged. *)
Definition indexed (self : RAGPipeline) (files : Files) : RAGPipeline :=
  match build_index [] self files with
  | (_, Return (self', _)) => self'
  | (_, Raise _) => self
  end.

(** Six documents of four sources, ranked last first by the sample
    store. *)
Definition mixed_store : list Document :=
  _create_documents
    (small_files ++ [ (lit "app/routes.py", {| content := lit "routes"; file_size := 6 |});
                      (lit "app/models.py", {| content := lit "models"; file_size := 6 |}) ]).

(** An answer without JSON. *)
Definition refusal : str := lit "I cannot answer with JSON.".

(** An agent after [ingest_repository] of the small corpus. *)
Definition small_repo : RepoData := {|
  name := lit "demo";
  full_name := lit "octo/demo";
  description := Some (lit "A demo");
  language := Some (lit "Python");
  files := small_files
|}.

Definition small_agent : RepoAnalysisAgent := {|
  rag := indexed fresh_pipeline small_files;
  repo_data := Some small_repo;
  overview := None;
  diagram_plan := None
|}.

(** A planned diagram of the declared type Timeline. *)
Definition timeline_spec : DiagramSpec := {|
  spec_type := Some (lit "Timeline");
  spec_title := Some (lit "Releases");
  spec_description := Some (lit "Release history");
  spec_generation_prompt := None
|}.

End Samples.

(** ** The schemas in words *)

Module Schema.
Import DiagramGenerator.

(** A node is an object bearing an 'id'; an edge is an object bearing a
    'source' and a 'target'. *)
Definition node_ok (node : json) : bool :=
  match node with
  | JObject d => dict_in (lit "id") d
  | _ => false
  end.

Definition edge_ok (edge : json) : bool :=
  match edge with
  | JObject d => dict_in (lit "source") d && dict_in (lit "target") d
  | _ => false
  end.

(** The Graph/Mindmap shape: the three fields are present, 'nodes' is a
    list of nodes and 'edges' a list of edges.  Of 'hierarchy' only the
    presence counts. *)
Definition graph_ok (d : dict) : bool :=
  forallb (fun f => dict_in f d) required_fields
  && match dict_get (lit "nodes") d with
     | Some (JArray nodes) => forallb node_ok nodes
     | _ => false
     end
  && match dict_get (lit "edges") d with
     | Some (JArray edges) => forallb edge_ok edges
     | _ => false
     end.

(** The decoded values that are not iterable, and those that are
    iterable without being a [dict]. *)
Definition is_scalar (v : json) : bool :=
  match v with
  | JNull | JBool _ | JInt _ | JFloat _ => true
  | _ => false
  end.

Definition is_text_or_list (v : json) : bool :=
  match v with
  | JString _ | JArray _ => true
  | _ => false
  end.

(** The value of [key in v] when the test raises nothing. *)
Definition contains (key : str) (v : json) : bool :=
  match result (py_in key v) with
  | Return b => b
  | Raise _ => false
  end.

(** [try: json.loads(text) except json.JSONDecodeError: None], as a
    value. *)
Definition decode_or_none {interp : Interpreter} (text : str)
  : py (option json) :=
  match loads text with
  | Return v => ret (Some v)
  | Raise e => if is_decode_error e then ret None else raise e
  end.

(** There is a fenced block or a brace span for the extraction to take. *)
Definition has_json_span (text : str) : bool :=
  match search_fenced text, search_brace text with
  | None, None => false
  | _, _ => true
  end.

End Schema.

(** ** [agent/repo_agent.py]: ingestion and planning *)

Module Stages.
Import Py DiagramGenerator RagPipeline RepoAgent.

(** The template of [plan_diagrams], from [agent/prompts.py]:
    [DIAGRAM_DECISION_PROMPT.format(overview_json=..., additional_context=...)]. *)
Class PlanServices := {
  DIAGRAM_DECISION_PROMPT : str -> str -> str
}.

(** The ['_meta'] entry that [generate_diagram_data] attaches. *)
Definition meta_of (diagram_spec : DiagramSpec) : json :=
  JObject [ (lit "type", JString (get_or (lit "Sequence") (spec_type diagram_spec)));
            (lit "title",
             JString (get_or (lit "Untitled") (spec_title diagram_spec)));
            (lit "description",
             JString (get_or [] (spec_description diagram_spec))) ].

(** Assignments to one attribute of the instance. *)
Definition with_repo_data (self : RepoAnalysisAgent) (rd : RepoData)
  : RepoAnalysisAgent :=
  {| rag := rag self; repo_data := Some rd;
     overview := overview self; diagram_plan := diagram_plan self |}.

Definition with_rag (self : RepoAnalysisAgent) (r : RAGPipeline)
  : RepoAnalysisAgent :=
  {| rag := r; repo_data := repo_data self;
     overview := overview self; diagram_plan := diagram_plan self |}.

Definition with_diagram_plan (self : RepoAnalysisAgent) (v : json)
  : RepoAnalysisAgent :=
  {| rag := rag self; repo_data := repo_data self;
     overview := overview self; diagram_plan := Some v |}.

Definition additional_queries : list str :=
  [ lit "API routes endpoints request response";
    lit "authentication login session token";
    lit "database queries models data access";
    lit "error handling exceptions" ].

(** ["[{source}]\n{page_content[:500]}"]. *)
Definition context_part (doc : Document) : str :=
  lit "[" ++ source (metadata doc) ++ lit "]" ++ [10%N]
    ++ slice_to (page_content doc) 500.

(** The default plan, built around [self.repo_data['name']]. *)
Definition fallback_plan (repo_name : str) : json :=
  JObject
    [ (lit "diagrams",
       JArray
         [ JObject
             [ (lit "type", JString (lit "Sequence"));
               (lit "title", JString (repo_name ++ lit " Main Flow"));
               (lit "description", JString (lit "Main application flow"));
               (lit "generation_prompt",
                JString (lit "Main request/response flow in " ++ repo_name)) ] ]);
      (lit "reasoning", JString (lit "Default diagram plan (LLM parsing failed)")) ].

Section Methods.
Context {interp : Interpreter} {libs : Libraries} {services : Services}
        {plan_services : PlanServices}.

(** [ingest_repository]: the instance it leaves, also when
    [build_index] raises, and how the call ends.  The repository data
    are assigned before the index is built; [held] are the documents of
    the collection before the call, as for [build_index]. *)
Definition ingest_repository (held : list Document) (self : RepoAnalysisAgent)
    (rd : RepoData) : RepoAnalysisAgent * py nat :=
  let self1 := with_repo_data self rd in
  match build_index held (rag self1) (files rd) with
  | (out, Return (rag', n)) => (with_rag self1 rag', (out, Return n))
  | (out, Raise e) => (self1, (out, Raise e))
  end.

(** The loop of [plan_diagrams] over the additional queries. *)
Fixpoint additional_parts (self : RepoAnalysisAgent) (queries : list str)
  : py (list str) :=
  match queries with
  | [] => ret []
  | q :: rest =>
      let! results := query (rag self) q 3 None in
      let! parts := additional_parts self rest in
      ret (map context_part results ++ parts)
  end.

(** The prompt of [plan_diagrams], built once an overview is held. *)
Definition plan_prompt (self : RepoAnalysisAgent) : py str :=
  let! parts := additional_parts self additional_queries in
  let additional_context := join [10%N; 10%N] (take 6 parts) in
  ret (DIAGRAM_DECISION_PROMPT (json_dumps (get_or JNull (overview self)))
         (slice_to additional_context 5000)).

(** From the prompt on: the answer is parsed, and replaced by the
    default plan when it is [None] or empty. *)
Definition plan_from (self : RepoAnalysisAgent) (prompt : str)
  : py (RepoAnalysisAgent * json) :=
  let! response := _call_llm prompt (Some ANALYSIS_SYSTEM_PROMPT) in
  let! parsed := _parse_json_response response in
  if py_not parsed then
    let! rd := the_repo_data self in
    let plan := fallback_plan (name rd) in
    ret (with_diagram_plan self plan, plan)
  else
    let plan := get_or JNull parsed in
    ret (with_diagram_plan self plan, plan).

(** [plan_diagrams]: the new state and the plan returned.  The state
    is given for a call that returns; a call that raises after its
    [analyze_overview] has returned leaves the overview assigned. *)
Definition plan_diagrams (self : RepoAnalysisAgent)
  : py (RepoAnalysisAgent * json) :=
  let! self1 :=
    if py_not (overview self)
    then let! r := analyze_overview self in ret (fst r)
    else ret self in
  let! prompt := plan_prompt self1 in
  plan_from self1 prompt.

End Methods.

End Stages.

(** ** [diagram_generator.py]: the class [DiagramGenerator] *)

Module Renderer.
Import Py DiagramGenerator.

(** What the class asks of its host: [os.path.join]; the text of a file,
    [None] when [open] raises [FileNotFoundError] (the one failure that
    [load_template] and [load_prompt] catch; no other failure of the
    file system is modelled); the text of the answer of the Gemini model
    or the exception raised on the way to it; and [str(e)]. *)
Class Host := {
  path_join : str -> str -> str;
  read_text : str -> option str;
  generate_content : str -> outcome str;
  exception_text : exn -> str
}.

(** One entry of [DIAGRAM_CONFIG]. *)
Record Config := {
  prompt : string;
  template : string;
  modification_prompt : string
}.

Definition DIAGRAM_CONFIG : list (string * Config) :=
  [ ("Graph", {| prompt := "json_only_prompt.txt";
                 template := "template.html";
                 modification_prompt := "modification_prompt.txt" |});
    ("Mindmap", {| prompt := "mindmap_prompt.txt";
                   template := "template.html";
                   modification_prompt := "mindmap_modification_prompt.txt" |});
    ("Sequence", {| prompt := "sequence_prompt.txt";
                    template := "sequence_template.html";
                    modification_prompt := "modification_prompt.txt" |});
    ("Timeline", {| prompt := "timeline_prompt.txt";
                    template := "timeline_template.html";
                    modification_prompt := "modification_prompt.txt" |}) ]%string.

(** [table.get(diagram_type)]. *)
Fixpoint config_get (table : list (string * Config)) (diagram_type : str)
  : option Config :=
  match table with
  | [] => None
  | (k, c) :: table' =>
      if str_eqb (lit k) diagram_type then Some c else config_get table' diagram_type
  end.

(** The instance: of its attributes only [base_path] is read. *)
Record Generator := {
  base_path : str
}.

(** [try: body except Exception as e: handler(e)]. *)
Definition try_except {A} (body : py A) (handler : exn -> py A) : py A :=
  match body with
  | (out, Return a) => (out, Return a)
  | (out, Raise e) => let '(out', r) := handler e in (out ++ out', r)
  end.

(** [s.replace(old, new)] for a non-empty [old]: the occurrences are
    taken from the left and do not overlap; [skip] counts the characters
    of the occurrence being replaced that are still to pass. *)
Fixpoint replace_from (old new : str) (skip : nat) (s : str) : str :=
  match s with
  | [] => []
  | c :: s' =>
      match skip with
      | S n => replace_from old new n s'
      | O =>
          if starts_with old s
          then new ++ replace_from old new (length old - 1) s'
          else c :: replace_from old new 0 s'
      end
  end.

Definition str_replace (s old new : str) : str := replace_from old new 0 s.

(** [not t] for the text of a file that may be missing. *)
Definition no_text (t : option str) : bool :=
  match t with
  | Some (_ :: _) => false
  | _ => true
  end.

(** [diagram_data.get('_meta', {}).get('type', 'Sequence')], as
    [repo_analyzer.py] reads the type back before rendering. *)
Definition meta_type (diagram_data : json) : py json :=
  let! meta := py_get (lit "_meta") diagram_data in
  let! t := py_get (lit "type")
              (match meta with Some m => m | None => JObject [] end) in
  ret (match t with Some v => v | None => JString (lit "Sequence") end).

Section Methods.
Context {interp : Interpreter} {host : Host}.

Definition load_template (template_path : str) : option str :=
  read_text template_path.

Definition load_prompt (prompt_path : str) : option str :=
  read_text prompt_path.

Definition _get_path (self : Generator) (filename : str) : str :=
  path_join (base_path self) filename.

(** [generate_from_json]: the pair [(html_content, error_message)]. *)
Definition generate_from_json (self : Generator) (json_data : json)
    (diagram_type : str) : py (option str * option str) :=
  match config_get DIAGRAM_CONFIG diagram_type with
  | None => ret (None, Some (lit "Unknown diagram type: " ++ diagram_type))
  | Some config =>
      let html_template := load_template (_get_path self (lit (template config))) in
      if no_text html_template then
        ret (None, Some (lit "HTML template not found: " ++ lit (template config)))
      else
        try_except
          (let! html_content :=
             inject_data_into_html
               (match html_template with Some t => t | None => [] end) json_data in
           ret (Some html_content, None))
          (fun e => ret (None, Some (lit "Error injecting data: " ++ exception_text e)))
  end.

(** [generate_from_topic]: the triple
    [(html_content, json_data, error_message)]. *)
Definition generate_from_topic (self : Generator) (topic diagram_type : str)
  : py (option str * option json * option str) :=
  match config_get DIAGRAM_CONFIG diagram_type with
  | None => ret (None, None, Some (lit "Unknown diagram type: " ++ diagram_type))
  | Some config =>
      let prompt_template := load_prompt (_get_path self (lit (prompt config))) in
      if no_text prompt_template then
        ret (None, None,
             Some (lit "Prompt template not found: " ++ lit (prompt config)))
      else
        let final_prompt :=
          str_replace (match prompt_template with Some t => t | None => [] end)
            (lit "[INSERT TOPIC HERE]") topic in
        try_except
          (let! text := ([], generate_content final_prompt) in
           let! json_data := validate_json text in
           match json_data with
           | Some data =>
               if py_truthy data then
                 let html_template :=
                   load_template (_get_path self (lit (template config))) in
                 if no_text html_template then
                   ret (None, Some data,
                        Some (lit "HTML template not found: "
                                ++ lit (template config)))
                 else
                   let! new_html :=
                     inject_data_into_html
                       (match html_template with Some t => t | None => [] end)
                       data in
                   ret (Some new_html, Some data, None)
               else
                 let raw_snippet := str_replace (slice_to text 500) [10%N] (lit " ") in
                 ret (None, None,
                      Some (lit "Failed to generate valid JSON. Model output: "
                              ++ raw_snippet ++ lit "..."))
           | None =>
               let raw_snippet := str_replace (slice_to text 500) [10%N] (lit " ") in
               ret (None, None,
                    Some (lit "Failed to generate valid JSON. Model output: "
                            ++ raw_snippet ++ lit "..."))
           end)
          (fun e => ret (None, None, Some (lit "Exception: " ++ exception_text e)))
  end.

End Methods.

End Renderer.

(** ** [repo_analyzer.py]: the file filter *)

Module RepoAnalyzer.
Import Py RagPipeline.

Definition INCLUDED_EXTENSIONS : list string :=
  [ ".py"; ".js"; ".ts"; ".tsx"; ".jsx"; ".java"; ".go"; ".rs"; ".rb"; ".php";
    ".c"; ".cpp"; ".h"; ".hpp"; ".cs"; ".swift"; ".kt"; ".scala"; ".clj";
    ".html"; ".css"; ".scss"; ".sass"; ".less";
    ".json"; ".yaml"; ".yml"; ".toml"; ".xml"; ".ini"; ".cfg";
    ".md"; ".txt"; ".rst";
    ".sql"; ".graphql";
    ".sh"; ".bash"; ".zsh"; ".ps1";
    ".dockerfile"; ".docker-compose.yml" ]%string.

Definition IGNORED_DIRS : list string :=
  [ "node_modules"; ".git"; "__pycache__"; ".venv"; "venv"; "env";
    ".idea"; ".vscode"; "dist"; "build"; "target"; "out"; "bin"; "obj";
    ".next"; ".nuxt"; "coverage"; ".pytest_cache"; ".mypy_cache";
    "vendor"; "packages"; ".gradle"; ".maven" ]%string.

Definition IGNORED_FILES : list string :=
  [ "package-lock.json"; "yarn.lock"; "pnpm-lock.yaml"; "Cargo.lock";
    "poetry.lock"; "Gemfile.lock"; "composer.lock" ]%string.

Definition MAX_FILE_SIZE : Z := 100 * 1024.

(** The names admitted without an extension. *)
Definition CONFIG_NAMES : list string :=
  [ "dockerfile"; "makefile"; "rakefile"; "gemfile"; "procfile";
    "vagrantfile"; "jenkinsfile"; ".gitignore"; ".env.example" ]%string.

(** [x in S] for a set of string literals. *)
Definition member (x : str) (S : list string) : bool :=
  existsb (fun e => str_eqb (lit e) x) S.

Section Methods.
Context {libs : Libraries}.

Definition should_include_file (file_path : str) (file_size : Z) : bool :=
  if existsb (fun part => member part IGNORED_DIRS) (path_parts file_path)
  then false
  else if member (path_name file_path) IGNORED_FILES then false
  else if MAX_FILE_SIZE <? file_size then false
  else
    let ext := str_lower (path_suffix file_path) in
    let name := str_lower (path_name file_path) in
    if member ext INCLUDED_EXTENSIONS then true
    else if member name CONFIG_NAMES then true
    else false.

End Methods.

End RepoAnalyzer.

(** ** More sample inputs *)

Module Samples2.
Import Py DiagramGenerator RagPipeline RepoAgent Stages Renderer Samples.

(** A Timeline payload spoilt by a 'participants' that is no list. *)
Definition spoilt_timeline_text : str :=
  lit "{" ++ quoted "mermaid_syntax" ++ lit ": " ++ quoted "timeline"
    ++ lit ", " ++ quoted "participants" ++ lit ": 3, "
    ++ quoted "events" ++ lit ": []}".

(** A graph whose second node has no 'id'. *)
Definition bad_graph_text : str :=
  lit "{" ++ quoted "nodes" ++ lit ": [{" ++ quoted "id" ++ lit ": 1}, {}], "
    ++ quoted "hierarchy" ++ lit ": {}, " ++ quoted "edges" ++ lit ": []}".

(** Prose around an object, without a fence. *)
Definition prose_text : str :=
  lit "Sure } here {" ++ quoted "mermaid_syntax" ++ lit ": " ++ quoted "x"
    ++ lit "} and more } text".

(** A file just over the splitting threshold. *)
Definition long_content : str := repeat 97%N 1600.

Definition two_files : Files :=
  [ (lit "main.py", {| content := lit "class Foo: pass"; file_size := 15 |});
    (lit "src/long.py", {| content := long_content; file_size := 1600 |}) ].

(** An answer of the chat model with an integer of 4301 digits. *)
Definition oversized_reply : str :=
  lit "{" ++ quoted "files" ++ lit ": " ++ repeat 57%N 4301 ++ lit "}".

(** What an earlier build of another repository has left in the
    collection. *)
Definition guide_files : Files :=
  [ (lit "docs/guide.md", {| content := lit "# Guide"; file_size := 7 |}) ].

(** Answers of the chat model: an empty object and a small overview. *)
Definition empty_object_reply : str := lit "{}".

Definition object_reply : str :=
  lit "Here: {" ++ quoted "project_type" ++ lit ": " ++ quoted "web" ++ lit "}".

(** A chat model that answers with the small overview when it is asked
    a Sequence prompt, and refuses otherwise. *)
Definition sequence_only_services : Services := {|
  invoke := fun messages =>
    match List.last messages (HumanMessage []) with
    | HumanMessage text =>
        if starts_with (lit "Sequence for ") text then Return object_reply
        else Return refusal
    | SystemMessage _ => Return refusal
    end;
  ANALYSIS_SYSTEM_PROMPT :=
    ANALYSIS_SYSTEM_PROMPT (Services := constant_services []);
  REPO_OVERVIEW_PROMPT :=
    REPO_OVERVIEW_PROMPT (Services := constant_services []);
  SEQUENCE_FROM_REPO_PROMPT :=
    SEQUENCE_FROM_REPO_PROMPT (Services := constant_services []);
  MINDMAP_FROM_REPO_PROMPT :=
    MINDMAP_FROM_REPO_PROMPT (Services := constant_services []);
  GRAPH_FROM_REPO_PROMPT :=
    GRAPH_FROM_REPO_PROMPT (Services := constant_services [])
|}.

(** An agent before [ingest_repository]. *)
Definition bare_agent : RepoAnalysisAgent := {|
  rag := fresh_pipeline;
  repo_data := None;
  overview := None;
  diagram_plan := None
|}.

(** An agent whose index is built but that holds no repository data. *)
Definition index_only_agent : RepoAnalysisAgent := {|
  rag := indexed fresh_pipeline small_files;
  repo_data := None;
  overview := None;
  diagram_plan := None
|}.

Definition mindmap_spec : DiagramSpec := {|
  spec_type := Some (lit "Mindmap");
  spec_title := Some (lit "Modules");
  spec_description := None;
  spec_generation_prompt := None
|}.

(** A repository without files. *)
Definition hollow_repo : RepoData := {|
  name := lit "hollow";
  full_name := lit "octo/hollow";
  description := None;
  language := None;
  files := []
|}.

(** The small agent once an overview is held. *)
Definition analysed_agent : RepoAnalysisAgent :=
  with_overview small_agent (fallback_overview refusal).

#[export] Instance sample_plan_services : PlanServices := {|
  DIAGRAM_DECISION_PROMPT := fun overview_json additional_context =>
    lit "Plan for " ++ overview_json ++ [10%N] ++ additional_context
|}.

(** A host with the Sequence template and prompt and a Timeline
    template without markers; its chat model answers with a graph. *)
#[export] Instance sample_host : Host := {|
  path_join := fun a b => a ++ lit "/" ++ b;
  read_text := fun p =>
    if str_eqb p (lit "./sequence_template.html") then Some sample_template
    else if str_eqb p (lit "./timeline_template.html")
         then Some (lit "<html></html>")
    else if str_eqb p (lit "./sequence_prompt.txt")
         then Some (lit "Topic: [INSERT TOPIC HERE].")
    else None;
  generate_content := fun _ => Return graph_text;
  exception_text := fun e =>
    match e with
    | TypeError => lit "TypeError"
    | AttributeError => lit "AttributeError"
    | IndexError => lit "IndexError"
    | KeyError key => key
    | ValueError msg => msg
    | JSONDecodeError => lit "JSONDecodeError"
    | RecursionError => lit "maximum recursion depth exceeded"
    end
|}.

Definition sample_generator : Generator := {| base_path := lit "." |}.

(** A spec of a type that [DIAGRAM_CONFIG] does not know. *)
Definition flowchart_spec : DiagramSpec := {|
  spec_type := Some (lit "Flowchart");
  spec_title := Some (lit "Build");
  spec_description := None;
  spec_generation_prompt := None
|}.



End Samples2.

(** ** Orders *)

Module Orders.
Import Py.

(** [a <= b] on strings, as a proposition. *)
Definition str_le (a b : str) : Prop := str_leb a b = true.

End Orders.

(** * Properties *)

(** ** Occurrences of a substring *)

Module PyFacts.

Lemma starts_with_app (p x : str) : starts_with p (p ++ x) = true.
Proof.
  induction p as [|a p IH]; simpl; [reflexivity|].
  rewrite N.eqb_refl. exact IH.
Qed.

Lemma starts_with_split (p s : str) :
  starts_with p s = true -> s = p ++ drop (length p) s.
Proof.
  revert s. induction p as [|a p IH]; intros [|b s] H; simpl in *;
    try reflexivity; try discriminate.
  apply andb_true_iff in H as [Hab Hps].
  apply N.eqb_eq in Hab. subst b. f_equal. apply IH. exact Hps.
Qed.

(** Only the first [length p] characters of a text decide whether it
    starts with [p]. *)
Lemma starts_with_app_long (p a x : str) :
  (length p <= length a)%nat -> starts_with p (a ++ x) = starts_with p a.
Proof.
  revert a. induction p as [|c p IH]; intros [|b a] Hlen; simpl in *;
    try reflexivity; try lia.
  rewrite IH by lia. reflexivity.
Qed.

(** If [p] starts [u ++ c :: x] then it already starts [u], or it runs
    over the character [c]. *)
Lemma starts_with_over (p u : str) (c : char) (x : str) :
  starts_with p (u ++ c :: x) = true -> starts_with p u = true \/ In c p.
Proof.
  revert u. induction p as [|a p IH]; intros u H; [left; reflexivity|].
  destruct u as [|b u]; simpl in *.
  - apply andb_true_iff in H as [Hac _]. apply N.eqb_eq in Hac.
    right. left. exact Hac.
  - apply andb_true_iff in H as [Hab Hrest].
    destruct (IH u Hrest) as [Hu | Hin].
    + left. rewrite Hab, Hu. reflexivity.
    + right. right. exact Hin.
Qed.

Lemma index_of_first (sub s : str) (n : nat) :
  index_of sub s = Some n -> first_occurrence sub s n.
Proof.
  revert n. induction s as [|c s IH]; intros n H; simpl in H.
  - destruct (starts_with sub []) eqn:E; [|discriminate].
    injection H as <-. repeat split; [exact E | simpl; lia | intros k Hk; lia].
  - destruct (starts_with sub (c :: s)) eqn:E.
    + injection H as <-. repeat split; [exact E | simpl; lia | intros k Hk; lia].
    + destruct (index_of sub s) as [m|] eqn:Em; [|discriminate].
      injection H as <-. destruct (IH m eq_refl) as (H1 & H2 & H3).
      repeat split; [exact H1 | simpl; lia |].
      intros [|k] Hk; [exact E | simpl; apply H3; lia].
Qed.

Lemma first_index_of (sub s : str) (n : nat) :
  first_occurrence sub s n -> index_of sub s = Some n.
Proof.
  revert n. induction s as [|c s IH]; intros n (H1 & H2 & H3); simpl in *.
  - assert (n = 0%nat) as -> by lia. simpl in H1. rewrite H1. reflexivity.
  - destruct n as [|n].
    + simpl in H1. rewrite H1. reflexivity.
    + pose proof (H3 0%nat ltac:(lia)) as E0. simpl in E0. rewrite E0.
      rewrite (IH n); [reflexivity|].
      repeat split; [exact H1 | lia |].
      intros k Hk. apply (H3 (S k)). lia.
Qed.

Lemma index_of_none (sub s : str) :
  index_of sub s = None -> forall k, starts_with sub (drop k s) = false.
Proof.
  induction s as [|c s IH]; intros H k; simpl in H.
  - destruct (starts_with sub []) eqn:E; [discriminate|].
    destruct k; exact E.
  - destruct (starts_with sub (c :: s)) eqn:E; [discriminate|].
    destruct (index_of sub s) eqn:Em; [discriminate|].
    destruct k as [|k]; [exact E | simpl; apply IH; reflexivity].
Qed.

Lemma str_find_absent (s sub : str) :
  str_find s sub = -1 <-> index_of sub s = None.
Proof.
  unfold str_find. destruct (index_of sub s); split; intros H;
    try reflexivity; try discriminate; lia.
Qed.

Lemma str_find_present (s sub : str) :
  str_find s sub <> -1 ->
  index_of sub s = Some (Z.to_nat (str_find s sub)).
Proof.
  unfold str_find. destruct (index_of sub s) as [n|]; intros H;
    [|congruence].
  rewrite Nat2Z.id. reflexivity.
Qed.

Lemma slice_to_nat (s : str) (n : nat) : slice_to s (Z.of_nat n) = take n s.
Proof.
  unfold slice_to. destruct (Z.ltb_spec (Z.of_nat n) 0); [lia|].
  rewrite Nat2Z.id. reflexivity.
Qed.

Lemma slice_from_nat (s : str) (n : nat) :
  slice_from s (Z.of_nat n) = drop n s.
Proof.
  unfold slice_from. destruct (Z.ltb_spec (Z.of_nat n) 0); [lia|].
  rewrite Nat2Z.id. reflexivity.
Qed.

End PyFacts.

(** ** Calls *)

Module CallFacts.

Lemma bind_ret_l {A B} (a : A) (k : A -> py B) : bind (ret a) k = k a.
Proof. unfold bind, ret. destruct (k a). reflexivity. Qed.

Lemma result_bind {A B} (m : py A) (k : A -> py B) :
  result (bind m k) =
    match result m with
    | Return a => result (k a)
    | Raise e => Raise e
    end.
Proof.
  destruct m as [out [a|e]]; unfold bind; simpl; [|reflexivity].
  destruct (k a). reflexivity.
Qed.

Lemma returns_ret {A} (a : A) : returns (ret a).
Proof. exists [], a. reflexivity. Qed.

Lemma returns_print (line : str) : returns (print line).
Proof. exists [line], tt. reflexivity. Qed.

Lemma returns_bind {A B} (m : py A) (k : A -> py B) :
  returns m -> (forall a, returns (k a)) -> returns (bind m k).
Proof.
  intros (out & a & ->) Hk. destruct (Hk a) as (out' & b & Hb).
  exists (out ++ out'), b. unfold bind. rewrite Hb. reflexivity.
Qed.

Lemma returns_result {A} (m : py A) :
  returns m -> exists a, result m = Return a.
Proof. intros (out & a & ->). exists a. reflexivity. Qed.

Lemma bind_result_inv {A B} (m : py A) (k : A -> py B) (x : B) :
  result (bind m k) = Return x ->
  exists a, result m = Return a /\ result (k a) = Return x.
Proof.
  rewrite result_bind. destruct (result m) as [a|e]; [eauto | discriminate].
Qed.

(** A call that has returned, followed by one that prints nothing. *)
Lemma bind_returned_pure {A B} (out : list str) (a : A) (k : A -> py B)
    (r : outcome B) :
  k a = ([], r) -> bind (out, Return a) k = (out, r).
Proof. intros H. unfold bind. rewrite H, app_nil_r. reflexivity. Qed.

(** *** Calls that raise no [JSONDecodeError] *)

Lemma no_decode_error_ret {A} (a : A) : no_decode_error (ret a).
Proof. intros e H. discriminate H. Qed.

Lemma no_decode_error_print (line : str) : no_decode_error (print line).
Proof. intros e H. discriminate H. Qed.

Lemma no_decode_error_raise {A} (e : exn) :
  e <> JSONDecodeError -> no_decode_error (raise (A := A) e).
Proof. intros He e' H. injection H as <-. exact He. Qed.

Lemma no_decode_error_bind {A B} (m : py A) (k : A -> py B) :
  no_decode_error m -> (forall a, no_decode_error (k a)) ->
  no_decode_error (bind m k).
Proof.
  intros Hm Hk e H. change (result (bind m k) = Raise e) in H.
  rewrite result_bind in H. destruct (result m) as [a|e'] eqn:Em.
  - apply (Hk a e H).
  - injection H as <-. apply (Hm e' Em).
Qed.

(** The handler is not entered by a body of that kind. *)
Lemma catch_decode_error_skip {A} (body handler : py A) :
  no_decode_error body -> catch_decode_error body handler = body.
Proof.
  intros Hb. destruct body as [out [a|e]]; [reflexivity|].
  destruct e; try reflexivity. exfalso. apply (Hb JSONDecodeError); reflexivity.
Qed.

Lemma catch_decode_error_caught {A} (out : list str) (handler : py A) :
  catch_decode_error (out, Raise JSONDecodeError) handler
  = (out ++ fst handler, snd handler).
Proof. unfold catch_decode_error. destruct handler. reflexivity. Qed.

Ltac no_decode_error_step :=
  first [ apply no_decode_error_ret
        | apply no_decode_error_print
        | apply no_decode_error_raise; discriminate
        | apply no_decode_error_bind; [|intros] ].

End CallFacts.

(** ** Validation *)

Module ValidateFacts.
Import CallFacts DiagramGenerator Samples.

(** *** The schema dispatch raises no [JSONDecodeError] *)

Lemma check_required_no_decode_error (fields : list str) (data : json) :
  no_decode_error (check_required fields data).
Proof.
  induction fields as [|f fields IH]; cbn [check_required];
    [apply no_decode_error_ret|].
  apply no_decode_error_bind.
  - unfold py_in. destruct data; no_decode_error_step.
  - intros [|]; [exact IH|]. repeat no_decode_error_step.
Qed.

Lemma check_nodes_no_decode_error (i : nat) (nodes : list json) :
  no_decode_error (check_nodes i nodes).
Proof.
  revert i. induction nodes as [|node nodes IH]; intros i; cbn [check_nodes];
    [apply no_decode_error_ret|].
  destruct node; try (repeat no_decode_error_step).
  destruct (dict_in (lit "id") members); [apply IH|].
  repeat no_decode_error_step.
Qed.

Lemma check_edges_no_decode_error (i : nat) (edges : list json) :
  no_decode_error (check_edges i edges).
Proof.
  revert i. induction edges as [|edge edges IH]; intros i; cbn [check_edges];
    [apply no_decode_error_ret|].
  destruct edge; try (repeat no_decode_error_step).
  destruct (dict_in (lit "source") members && dict_in (lit "target") members);
    [apply IH|].
  repeat no_decode_error_step.
Qed.

Lemma py_in_no_decode_error (key : str) (data : json) :
  no_decode_error (py_in key data).
Proof. unfold py_in. destruct data; no_decode_error_step. Qed.

Lemma py_get_no_decode_error (key : str) (data : json) :
  no_decode_error (py_get key data).
Proof. unfold py_get. destruct data; no_decode_error_step. Qed.

Lemma py_getitem_no_decode_error (key : str) (data : json) :
  no_decode_error (py_getitem key data).
Proof.
  unfold py_getitem. destruct data; try no_decode_error_step.
  destruct (dict_get key members); no_decode_error_step.
Qed.

Ltac dispatch_step :=
  first [ apply py_in_no_decode_error
        | apply py_get_no_decode_error
        | apply py_getitem_no_decode_error
        | apply check_required_no_decode_error
        | apply check_nodes_no_decode_error
        | apply check_edges_no_decode_error
        | no_decode_error_step
        | match goal with
          | |- no_decode_error (if ?b then _ else _) => destruct b
          end ].

Lemma validate_sequence_no_decode_error (data : json) :
  no_decode_error (validate_sequence data).
Proof. unfold validate_sequence. repeat dispatch_step. Qed.

Lemma validate_graph_no_decode_error (data : json) :
  no_decode_error (validate_graph data).
Proof. unfold validate_graph. repeat dispatch_step. Qed.

Lemma validate_data_no_decode_error (data : json) :
  no_decode_error (validate_data data).
Proof.
  unfold validate_data. repeat dispatch_step;
    first [apply validate_sequence_no_decode_error
          | apply validate_graph_no_decode_error].
Qed.

Section Decoded.
Context {interp : Interpreter}.

Lemma json_loads_returned (s : str) (v : json) :
  json_loads s = Some v <-> loads s = Return v.
Proof.
  unfold json_loads. destruct (loads s); split; congruence.
Qed.

(** On a text that decodes, [validate_json] is the schema dispatch. *)
Lemma validate_json_decoded (json_str : str) (data : json) :
  json_loads (extract_json json_str) = Some data ->
  validate_json json_str = validate_data data.
Proof.
  intros Hload. apply json_loads_returned in Hload.
  unfold validate_json. rewrite Hload.
  change (@pair (list str) (outcome json) [] (Return data)) with (ret data).
  rewrite bind_ret_l. apply catch_decode_error_skip.
  apply validate_data_no_decode_error.
Qed.

(** On a text for which [json.loads] raises, the [JSONDecodeError] is
    printed and gives [None]; any other exception leaves the function. *)
Lemma validate_json_raised (json_str : str) (e : exn) :
  loads (extract_json json_str) = Raise e ->
  validate_json json_str =
    if is_decode_error e then ([lit "JSON Decode Error: "], Return None)
    else ([], Raise e).
Proof.
  intros Hload. unfold validate_json. rewrite Hload.
  destruct e; reflexivity.
Qed.

End Decoded.

(** On a [dict] the schema dispatch is a three-way choice, taken in
    this order. *)
Lemma validate_data_object (d : dict) :
  validate_data (JObject d) =
    if dict_in (lit "participants") d && dict_in (lit "events") d
    then validate_sequence (JObject d)
    else if dict_in (lit "mermaid_syntax") d
         then ([], Return (Some (JObject d)))
         else validate_graph (JObject d).
Proof.
  unfold validate_data, py_in.
  destruct (dict_in (lit "participants") d),
    (dict_in (lit "events") d), (dict_in (lit "mermaid_syntax") d);
    simpl andb; rewrite ?bind_ret_l; reflexivity.
Qed.

Lemma validate_sequence_lists (d : dict) :
  is_list (dict_get (lit "participants") d) = true ->
  is_list (dict_get (lit "events") d) = true ->
  validate_sequence (JObject d) = ([], Return (Some (JObject d))).
Proof.
  intros Hp He. unfold validate_sequence, py_get.
  rewrite bind_ret_l, Hp. simpl negb. cbv iota.
  rewrite bind_ret_l, He. reflexivity.
Qed.

Lemma check_required_object (fields : list str) (d : dict) :
  result (check_required fields (JObject d)) =
    Return (forallb (fun f => dict_in f d) fields).
Proof.
  induction fields as [|f fields IH]; [reflexivity|].
  simpl. rewrite bind_ret_l. destruct (dict_in f d); [exact IH|].
  reflexivity.
Qed.

(** The Graph/Mindmap branch accepts only with all required fields. *)
Lemma validate_graph_requires (d : dict) (v : json) :
  result (validate_graph (JObject d)) = Return (Some v) ->
  forallb (fun f => dict_in f d) required_fields = true.
Proof.
  unfold validate_graph. rewrite result_bind, check_required_object.
  destruct (forallb _ required_fields); [reflexivity|].
  simpl. discriminate.
Qed.

Lemma check_nodes_returns (i : nat) (nodes : list json) :
  returns (check_nodes i nodes).
Proof.
  revert i. induction nodes as [|node nodes IH]; intros i; simpl.
  - apply returns_ret.
  - destruct node; try (apply returns_bind;
      [apply returns_print | intros; apply returns_ret]).
    destruct (dict_in (lit "id") members); [apply IH|].
    apply returns_bind; [apply returns_print | intros; apply returns_ret].
Qed.

Lemma check_edges_returns (i : nat) (edges : list json) :
  returns (check_edges i edges).
Proof.
  revert i. induction edges as [|edge edges IH]; intros i; simpl.
  - apply returns_ret.
  - destruct edge; try (apply returns_bind;
      [apply returns_print | intros; apply returns_ret]).
    destruct (dict_in (lit "source") members && dict_in (lit "target") members);
      [apply IH|].
    apply returns_bind; [apply returns_print | intros; apply returns_ret].
Qed.

Lemma check_required_returns (fields : list str) (d : dict) :
  returns (check_required fields (JObject d)).
Proof.
  induction fields as [|f fields IH]; simpl; [apply returns_ret|].
  rewrite bind_ret_l. destruct (dict_in f d); [exact IH|].
  apply returns_bind; [apply returns_print | intros; apply returns_ret].
Qed.

Lemma py_getitem_list (key : str) (d : dict) :
  is_list (dict_get key d) = true -> returns (py_getitem key (JObject d)).
Proof.
  unfold py_getitem. destruct (dict_get key d); [|discriminate].
  intros _. apply returns_ret.
Qed.

Ltac returns_step :=
  first [ apply returns_ret
        | apply returns_print
        | apply check_nodes_returns
        | apply check_edges_returns
        | apply check_required_returns
        | apply returns_bind; [|intros] ].

Lemma validate_graph_returns (d : dict) : returns (validate_graph (JObject d)).
Proof.
  unfold validate_graph.
  apply returns_bind; [apply check_required_returns|]. intros [|]; simpl;
    [|apply returns_ret].
  unfold py_get. rewrite bind_ret_l.
  destruct (is_list (dict_get (lit "nodes") d)) eqn:Hn; simpl;
    [|repeat returns_step].
  apply returns_bind; [apply py_getitem_list; exact Hn|]. intros nodes_v.
  apply returns_bind; [apply check_nodes_returns|]. intros [|]; simpl;
    [|apply returns_ret].
  rewrite bind_ret_l.
  destruct (is_list (dict_get (lit "edges") d)) eqn:He; simpl;
    [|repeat returns_step].
  apply returns_bind; [apply py_getitem_list; exact He|]. intros edges_v.
  apply returns_bind; [apply check_edges_returns|]. intros [|]; simpl;
    apply returns_ret.
Qed.

Lemma validate_sequence_returns (d : dict) :
  returns (validate_sequence (JObject d)).
Proof.
  unfold validate_sequence, py_get. rewrite bind_ret_l.
  destruct (is_list (dict_get (lit "participants") d)); simpl;
    [|repeat returns_step].
  rewrite bind_ret_l.
  destruct (is_list (dict_get (lit "events") d)); simpl;
    repeat returns_step.
Qed.

Section Dispatch.
Context {interp : Interpreter}.

(** Where [validate_json] does end by returning: on a text for which
    [json.loads] raises [JSONDecodeError], and on a text whose decoded
    value is a [dict]. *)
Lemma validate_json_returns (json_str : str) :
  loads (extract_json json_str) = Raise JSONDecodeError
  \/ (exists d, json_loads (extract_json json_str) = Some (JObject d)) ->
  returns (validate_json json_str).
Proof.
  intros [Hraise | [d Hload]].
  - rewrite (validate_json_raised _ _ Hraise). eexists _, _. reflexivity.
  - rewrite (validate_json_decoded _ _ Hload), validate_data_object.
    destruct (_ && _); [apply validate_sequence_returns|].
    destruct (dict_in _ d); [apply returns_ret | apply validate_graph_returns].
Qed.

(** C1.  Schema dispatch priority: when the extracted text decodes to a
    [dict], [validate_json] takes the Sequence schema as soon as both
    'participants' and 'events' are keys, whether or not 'mermaid_syntax'
    is one too, and returns the [dict] when both are lists; without both
    keys, a [dict] with 'mermaid_syntax' is returned as it is, with no
    further check; only in the remaining case does the Graph/Mindmap
    schema decide, which accepts nothing that lacks one of 'nodes',
    'hierarchy', 'edges'. *)
Theorem validate_json_dispatch_priority (json_str : str) (d : dict) :
  json_loads (extract_json json_str) = Some (JObject d) ->
  let data := JObject d in
  let sequence_keys :=
    dict_in (lit "participants") d && dict_in (lit "events") d in
  (sequence_keys = true ->
     validate_json json_str = validate_sequence data /\
     (is_list (dict_get (lit "participants") d) = true ->
      is_list (dict_get (lit "events") d) = true ->
      validate_json json_str = ([], Return (Some data))))
  /\ (sequence_keys = false ->
      dict_in (lit "mermaid_syntax") d = true ->
      validate_json json_str = ([], Return (Some data)))
  /\ (sequence_keys = false ->
      dict_in (lit "mermaid_syntax") d = false ->
      validate_json json_str = validate_graph data /\
      forall v, result (validate_json json_str) = Return (Some v) ->
                forallb (fun f => dict_in f d) required_fields = true).
Proof.
  intros Hload data sequence_keys.
  assert (Hv : validate_json json_str = validate_data data)
    by (apply validate_json_decoded; exact Hload).
  rewrite Hv. unfold data. rewrite validate_data_object.
  fold sequence_keys. split; [|split].
  - intros ->. split; [reflexivity|].
    intros Hp He. apply validate_sequence_lists; assumption.
  - intros -> ->. reflexivity.
  - intros -> ->. split; [reflexivity|].
    intros v. apply validate_graph_requires.
Qed.

End Dispatch.

Lemma validate_json_dispatch_priority_witness :
  validate_json sequence_and_timeline_text
    = ([], Return (Some (JObject (decoded sequence_and_timeline_text))))
  /\ validate_json timeline_text
    = ([], Return (Some (JObject (decoded timeline_text))))
  /\ validate_json graph_text = validate_graph (JObject (decoded graph_text)).
Proof.
  split; [|split].
  - assert (Hload : json_loads (extract_json sequence_and_timeline_text)
                    = Some (JObject (decoded sequence_and_timeline_text)))
      by (vm_compute; reflexivity).
    destruct (validate_json_dispatch_priority _ _ Hload) as (H & _ & _).
    destruct H as [_ H]; [vm_compute; reflexivity|].
    apply H; vm_compute; reflexivity.
  - assert (Hload : json_loads (extract_json timeline_text)
                    = Some (JObject (decoded timeline_text)))
      by (vm_compute; reflexivity).
    destruct (validate_json_dispatch_priority _ _ Hload) as (_ & H & _).
    apply H; vm_compute; reflexivity.
  - assert (Hload : json_loads (extract_json graph_text)
                    = Some (JObject (decoded graph_text)))
      by (vm_compute; reflexivity).
    destruct (validate_json_dispatch_priority _ _ Hload) as (_ & _ & H).
    destruct H as [H _]; [vm_compute; reflexivity ..|].
    exact H.
Defined.

(** C2.  [validate_json] does raise on some texts: a text without braces
    that decodes to a number, to [null] or to a boolean makes the test
    ['participants' in data] raise [TypeError]; a decoded string holding
    both words, or a decoded list holding both, reaches [data.get] and
    raises [AttributeError].  Only [json.JSONDecodeError] is caught. *)
Theorem validate_json_raises_on_non_object :
  validate_json (lit "123") = ([], Raise TypeError)
  /\ validate_json (lit "null") = ([], Raise TypeError)
  /\ validate_json (lit "true") = ([], Raise TypeError)
  /\ validate_json (quoted "participants and events")
     = ([], Raise AttributeError)
  /\ validate_json (lit "[" ++ quoted "participants" ++ lit ", "
                      ++ quoted "events" ++ lit "]")
     = ([], Raise AttributeError).
Proof. repeat split; vm_compute; reflexivity. Qed.

End ValidateFacts.

(** ** Template injection *)

Module InjectFacts.
Import PyFacts DiagramGenerator Samples.

Lemma clash_starts_with (p a x : str) :
  clash p a = true -> starts_with p (a ++ x) = false.
Proof.
  revert a. induction p as [|c p IH]; intros [|b a] H; simpl in *;
    try discriminate.
  destruct (N.eqb c b); simpl in *; [apply IH; exact H | reflexivity].
Qed.

Lemma new_block_parts (js : str) :
  new_block js = block_head ++ js ++ block_tail ++ end_marker.
Proof.
  unfold new_block, block_head, block_tail.
  repeat rewrite <- app_assoc. reflexivity.
Qed.

Lemma new_block_starts (js x : str) :
  starts_with start_marker (new_block js ++ x) = true.
Proof.
  unfold new_block. rewrite <- app_assoc. apply starts_with_app.
Qed.

(** Both markers present: the result is assembled from three parts. *)
Lemma inject_found {interp : Interpreter}
    (T : str) (D : json) (i j : nat) :
  index_of start_marker T = Some i ->
  index_of end_marker T = Some j ->
  inject_data_into_html T D =
    ([], Return (take i T ++ new_block (serialize D)
                   ++ drop (j + length end_marker) T)).
Proof.
  intros Hi Hj. unfold inject_data_into_html, str_find. rewrite Hi, Hj.
  destruct (Z.eqb_spec (Z.of_nat i) (-1)); [lia|].
  destruct (Z.eqb_spec (Z.of_nat j) (-1)); [lia|]. simpl negb. simpl andb.
  cbv iota. unfold len. rewrite <- Nat2Z.inj_add.
  rewrite slice_to_nat, slice_from_nat. reflexivity.
Qed.

(** A marker absent: the template comes back as it was. *)
Lemma inject_not_found {interp : Interpreter}
    (T : str) (D : json) :
  index_of start_marker T = None \/ index_of end_marker T = None ->
  inject_data_into_html T D = ([not_found_message], Return T).
Proof.
  intros H. unfold inject_data_into_html, str_find.
  destruct H as [H | H]; rewrite H.
  - reflexivity.
  - destruct (index_of start_marker T); [|reflexivity].
    rewrite andb_false_r. reflexivity.
Qed.

Lemma index_of_none_occurrences (sub s : str) :
  index_of sub s = None -> occurrences sub s = 0%nat.
Proof.
  induction s as [|c s IH]; simpl; intros H.
  - destruct (starts_with sub []); [discriminate | reflexivity].
  - destruct (starts_with sub (c :: s)); [discriminate|].
    destruct (index_of sub s); [discriminate|]. rewrite IH; reflexivity.
Qed.

Lemma occurs_once_found (sub s : str) :
  occurrences sub s = 1%nat -> exists n, index_of sub s = Some n.
Proof.
  intros H. destruct (index_of sub s) as [n|] eqn:E; [eauto|].
  rewrite (index_of_none_occurrences _ _ E) in H. discriminate.
Qed.

(** No end marker begins inside the fixed text around the payload. *)
Lemma end_marker_clashes_head :
  forallb (fun k => clash end_marker (drop k block_head))
    (seq 0 (length block_head)) = true.
Proof. vm_compute. reflexivity. Qed.

Lemma end_marker_clashes_tail :
  forallb (fun k => clash end_marker (drop k block_tail))
    (seq 0 (length block_tail)) = true.
Proof. vm_compute. reflexivity. Qed.

Lemma semicolon_not_in_end_marker : ~ In 59%N end_marker.
Proof. vm_compute. intuition discriminate. Qed.

Lemma clash_at (fixed : str) (k : nat) :
  forallb (fun k => clash end_marker (drop k fixed))
    (seq 0 (length fixed)) = true ->
  (k < length fixed)%nat -> clash end_marker (drop k fixed) = true.
Proof.
  intros H Hk. rewrite forallb_forall in H. apply H.
  apply in_seq. lia.
Qed.

(** In a block whose payload holds no end marker, the first end marker
    is the block's own. *)
Lemma end_marker_of_block (js post : str) :
  index_of end_marker js = None ->
  first_occurrence end_marker (new_block js ++ post)
    (length block_head + length js + length block_tail).
Proof.
  intros Hjs. rewrite new_block_parts.
  repeat rewrite <- app_assoc.
  repeat split.
  - rewrite <- Nat.add_assoc, !drop_app_add, drop_app_length.
    apply starts_with_app.
  - rewrite !length_app. lia.
  - intros k Hk.
    destruct (Nat.lt_ge_cases k (length block_head)) as [Hh | Hh].
    { rewrite drop_app_le by lia. apply clash_starts_with.
      apply clash_at; [exact end_marker_clashes_head | exact Hh]. }
    rewrite drop_app_ge by lia.
    destruct (Nat.lt_ge_cases (k - length block_head) (length js)) as [Hm | Hm].
    { rewrite drop_app_le by lia.
      destruct (starts_with end_marker _) eqn:E; [|reflexivity].
      change (block_tail ++ end_marker ++ post)
        with (59%N :: (drop 1 block_tail ++ end_marker ++ post)) in E.
      apply starts_with_over in E as [E | E].
      - rewrite (index_of_none _ _ Hjs) in E. discriminate.
      - destruct (semicolon_not_in_end_marker E). }
    rewrite drop_app_ge by lia.
    rewrite drop_app_le by lia. apply clash_starts_with.
    apply clash_at; [exact end_marker_clashes_tail | lia].
Qed.

(** Before the start marker, a template and any text that agrees with
    it up to the end of that marker hold the same occurrences. *)
Lemma same_occurrences_before (p T x : str) (i k : nat) :
  first_occurrence start_marker T i ->
  (length p <= length start_marker)%nat ->
  (k < i)%nat ->
  starts_with p (drop k (take i T ++ start_marker ++ x)) =
    starts_with p (drop k T).
Proof.
  intros (Hs & Hle & _) Hp Hk.
  assert (Hlen : length (take i T) = i) by (rewrite length_take; lia).
  assert (Hlong : (length p <= length (drop k (take i T) ++ start_marker))%nat)
    by (rewrite length_app, length_drop; lia).
  transitivity (starts_with p (drop k (take i T) ++ start_marker)).
  - rewrite drop_app_le by lia. rewrite app_assoc.
    apply starts_with_app_long. exact Hlong.
  - replace (drop k T)
      with ((drop k (take i T) ++ start_marker)
              ++ drop (length start_marker) (drop i T)).
    + symmetry. apply starts_with_app_long. exact Hlong.
    + rewrite <- app_assoc, <- (starts_with_split _ _ Hs).
      rewrite <- drop_app_le by lia. rewrite take_drop. reflexivity.
Qed.

Lemma new_block_length (js : str) :
  length (new_block js) =
    (length block_head + length js + length block_tail + length end_marker)%nat.
Proof. rewrite new_block_parts, !length_app. lia. Qed.

Lemma end_marker_shorter : (length end_marker <= length start_marker)%nat.
Proof. vm_compute. lia. Qed.

(** Injecting into an injected artifact finds the markers of the block
    written by the first injection, and replaces exactly that block. *)
Lemma reinject {interp : Interpreter}
    (T : str) (D1 D2 : json) (i j : nat) :
  index_of start_marker T = Some i ->
  index_of end_marker T = Some j ->
  (i <= j)%nat ->
  index_of end_marker (serialize D1) = None ->
  let R1 := take i T ++ new_block (serialize D1)
              ++ drop (j + length end_marker) T in
  index_of start_marker R1 = Some i /\
  index_of end_marker R1 =
    Some (i + (length block_head + length (serialize D1)
               + length block_tail))%nat /\
  inject_data_into_html R1 D2 = inject_data_into_html T D2.
Proof.
  intros Hi Hj Hij Hjs R1.
  pose proof (index_of_first _ _ _ Hi) as Fi.
  pose proof (index_of_first _ _ _ Hj) as Fj.
  assert (Hlen : length (take i T) = i).
  { destruct Fi as (_ & Hle & _). rewrite length_take. lia. }
  set (post := drop (j + length end_marker) T) in *.
  set (js := serialize D1) in *.
  assert (HR1 : exists x, R1 = take i T ++ start_marker ++ x).
  { exists (drop (length start_marker) (new_block js ++ post)).
    reflexivity. }
  destruct HR1 as [x HR1].
  assert (S1 : index_of start_marker R1 = Some i).
  { apply first_index_of. repeat split.
    - unfold R1. rewrite drop_app_length' by (symmetry; exact Hlen).
      apply new_block_starts.
    - unfold R1. rewrite length_app. lia.
    - intros k Hk. rewrite HR1.
      rewrite (same_occurrences_before _ T x i k Fi); [|lia|exact Hk].
      destruct Fi as (_ & _ & Hno). now apply Hno. }
  pose proof (end_marker_of_block js post Hjs) as (B1 & B2 & B3).
  assert (S2 : index_of end_marker R1 =
               Some (i + (length block_head + length js + length block_tail))%nat).
  { apply first_index_of. repeat split.
    - unfold R1. rewrite <- Hlen at 1. rewrite drop_app_add. exact B1.
    - unfold R1. rewrite length_app. lia.
    - intros k Hk. destruct (Nat.lt_ge_cases k i) as [Hki | Hki].
      + rewrite HR1.
        rewrite (same_occurrences_before _ T x i k Fi);
          [|exact end_marker_shorter|exact Hki].
        destruct Fj as (_ & _ & Hno). apply Hno; lia.
      + unfold R1. rewrite drop_app_ge by lia. rewrite Hlen.
        apply B3; lia. }
  split; [exact S1|]. split; [exact S2|].
  rewrite (inject_found R1 D2 _ _ S1 S2), (inject_found T D2 _ _ Hi Hj).
  f_equal. f_equal. f_equal.
  - unfold R1. apply take_app_length'. symmetry. exact Hlen.
  - f_equal. unfold R1. rewrite <- Hlen at 1.
    rewrite <- !Nat.add_assoc, drop_app_add.
    rewrite !Nat.add_assoc, <- new_block_length.
    apply drop_app_length.
Qed.

(** C3.  Marker preservation: when both markers occur in the template,
    the result of [inject_data_into_html] is the template's text before
    the first start marker, then the new block, then the template's text
    after the first end marker.  So, whatever the order of the two
    markers, the result agrees with the template before the span that
    runs from the one marker to the other and after it; with the start
    marker not after the end marker, the block takes the place of
    exactly that span. *)
Theorem inject_marker_preservation {interp : Interpreter}
    (T : str) (D : json) :
  str_find T start_marker <> -1 ->
  str_find T end_marker <> -1 ->
  let i := Z.to_nat (str_find T start_marker) in
  let j := Z.to_nat (str_find T end_marker) in
  let span_start := Nat.min i j in
  let span_end := Nat.max (i + length start_marker) (j + length end_marker) in
  first_occurrence start_marker T i /\
  first_occurrence end_marker T j /\
  inject_data_into_html T D =
    ([], Return (take i T ++ new_block (serialize D)
                   ++ drop (j + length end_marker) T)) /\
  (exists replacement : str,
     inject_data_into_html T D =
       ([], Return (take span_start T ++ replacement ++ drop span_end T))) /\
  ((i <= j)%nat ->
   T = take i T ++ take (j + length end_marker - i) (drop i T)
         ++ drop (j + length end_marker) T).
Proof.
  intros Hs He i j span_start span_end.
  pose proof (str_find_present _ _ Hs) as Hi.
  pose proof (str_find_present _ _ He) as Hj.
  fold i in Hi. fold j in Hj.
  split; [apply index_of_first; exact Hi|].
  split; [apply index_of_first; exact Hj|].
  split; [apply inject_found; assumption|].
  split.
  - exists (drop span_start (take i T) ++ new_block (serialize D)
              ++ take (span_end - (j + length end_marker))
                   (drop (j + length end_marker) T)).
    rewrite (inject_found T D i j Hi Hj). do 2 f_equal.
    rewrite <- (take_drop span_start (take i T)) at 1.
    rewrite take_take, (Nat.min_l span_start i) by (unfold span_start; lia).
    rewrite <- !app_assoc. do 3 f_equal.
    rewrite <- (take_drop (span_end - (j + length end_marker))
                  (drop (j + length end_marker) T)) at 1.
    f_equal. rewrite drop_drop. f_equal. unfold span_end. lia.
  - intros Hij.
    rewrite <- (take_drop i T) at 1. f_equal.
    rewrite <- (take_drop (j + length end_marker - i) (drop i T)) at 1.
    f_equal. rewrite drop_drop. f_equal. lia.
Qed.

Lemma inject_marker_preservation_witness :
  inject_data_into_html sample_template sample_data =
    ([], Return (lit "<script>" ++ new_block (serialize sample_data)
                   ++ lit "</script>")).
Proof.
  assert (Hs : str_find sample_template start_marker <> -1)
    by (vm_compute; discriminate).
  assert (He : str_find sample_template end_marker <> -1)
    by (vm_compute; discriminate).
  destruct (inject_marker_preservation sample_template sample_data Hs He)
    as (_ & _ & H & _ & _).
  exact H.
Defined.

(** *** Escaping does not bring a marker in *)

Lemma escape_prefix (n : nat) (p s : str) :
  (length s <= n)%nat ->
  ~ In 92%N p ->
  starts_with p (escape_close_tags s) = true -> starts_with p s = true.
Proof.
  revert p s. induction n as [|n IH]; intros p s Hn Hp.
  { destruct s; [simpl; auto | simpl in Hn; lia]. }
  destruct s as [|c [|c' s2]]; try (simpl; auto; fail).
  cbn [escape_close_tags].
  destruct ((c =? 60)%N && (c' =? 47)%N) eqn:E.
  - apply andb_true_iff in E as [Ec Ec'].
    apply N.eqb_eq in Ec, Ec'. subst c c'.
    destruct p as [|a [|b p']]; [reflexivity | |].
    + simpl. rewrite !andb_true_r. auto.
    + simpl. intros H. apply andb_true_iff in H as [_ H].
      apply andb_true_iff in H as [H _]. apply N.eqb_eq in H. subst b.
      exfalso. apply Hp. right. left. reflexivity.
  - destruct p as [|a p']; [reflexivity|].
    cbn [starts_with]. intros H. apply andb_true_iff in H as [Ha H].
    rewrite Ha. simpl andb. apply (IH p' (c' :: s2)).
    + simpl in *. lia.
    + intros Hin. apply Hp. right. exact Hin.
    + exact H.
Qed.

(** A text without backslash that does not occur in [s] does not occur
    in [s] escaped. *)
Lemma escape_keeps_out (n : nat) (p s : str) :
  (length s <= n)%nat ->
  ~ In 92%N p ->
  (forall k, starts_with p (drop k s) = false) ->
  forall k, starts_with p (drop k (escape_close_tags s)) = false.
Proof.
  revert s. induction n as [|n IH]; intros s Hn Hp Hs k.
  { destruct s; [|simpl in Hn; lia]. specialize (Hs 0%nat).
    destruct k; exact Hs. }
  assert (Hhead : starts_with p (escape_close_tags s) = false).
  { destruct (starts_with p (escape_close_tags s)) eqn:E; [|reflexivity].
    apply (escape_prefix (length s)) in E; [|lia|exact Hp].
    rewrite <- (Hs 0%nat). symmetry. exact E. }
  destruct k as [|k]; [exact Hhead|].
  destruct s as [|c [|c' s2]].
  - exact (Hs (S k)).
  - exact (Hs (S k)).
  - revert Hhead. cbn [escape_close_tags].
    destruct ((c =? 60)%N && (c' =? 47)%N) eqn:E; intros Hhead.
    + apply andb_true_iff in E as [Ec Ec'].
      apply N.eqb_eq in Ec, Ec'. subst c c'.
      destruct k as [|[|k]].
      * (* at the backslash *)
        simpl. destruct p as [|a p']; [exact (Hs 0%nat)|].
        cbn [starts_with]. destruct (N.eqb_spec a 92) as [-> | _]; [|reflexivity].
        exfalso. apply Hp. left. reflexivity.
      * (* at the slash *)
        change (drop 2 (60%N :: 92%N :: 47%N :: escape_close_tags s2))
          with (47%N :: escape_close_tags s2).
        specialize (Hs 1%nat). simpl in Hs.
        destruct p as [|a p']; [exact Hs|].
        cbn [starts_with] in *. destruct (N.eqb a 47); [|reflexivity].
        simpl andb in *. destruct (starts_with p' (escape_close_tags s2)) eqn:E';
          [|reflexivity].
        apply (escape_prefix (length s2)) in E'; [congruence | lia |].
        intros Hin. apply Hp. right. exact Hin.
      * change (drop (S (S (S k))) (60%N :: 92%N :: 47%N :: escape_close_tags s2))
          with (drop k (escape_close_tags s2)).
        apply (IH s2); [simpl in Hn; lia | exact Hp |].
        intros j. exact (Hs (S (S j))).
    + change (drop (S k) (c :: escape_close_tags (c' :: s2)))
        with (drop k (escape_close_tags (c' :: s2))).
      apply (IH (c' :: s2)); [simpl in *; lia | exact Hp |].
      intros j. exact (Hs (S j)).
Qed.

Lemma markers_without_backslash :
  ~ In 92%N start_marker /\ ~ In 92%N end_marker.
Proof. split; vm_compute; intuition discriminate. Qed.

(** The payload as [json.dumps] gives it holds no end marker: nor does
    the escaped text that is spliced in. *)
Lemma serialize_keeps_marker_out {interp : Interpreter}
    (json_data : json) :
  str_find (json_dumps json_data) end_marker = -1 ->
  str_find (serialize json_data) end_marker = -1.
Proof.
  intros Hraw. apply str_find_absent in Hraw. apply str_find_absent.
  destruct (index_of end_marker (serialize json_data)) as [n|] eqn:E;
    [|reflexivity].
  apply index_of_first in E as (E & _ & _). unfold serialize in E.
  rewrite (escape_keeps_out (length (json_dumps json_data)) end_marker
             (json_dumps json_data) (le_n _)
             (proj2 markers_without_backslash)
             (index_of_none _ _ Hraw) n) in E.
  discriminate E.
Qed.

(** C4, as stated, fails: with each marker occurring once but the end
    marker before the start marker, a second injection keeps the block
    of the first. *)
Lemma reinjection_fails_when_end_marker_first :
  ~ (forall (T : str) (D1 D2 : json),
       occurrences start_marker T = 1%nat ->
       occurrences end_marker T = 1%nat ->
       str_find (serialize D1) start_marker = -1 ->
       str_find (serialize D1) end_marker = -1 ->
       str_find (serialize D2) start_marker = -1 ->
       str_find (serialize D2) end_marker = -1 ->
       result (let! r := inject_data_into_html T D1 in
               inject_data_into_html r D2)
       = result (inject_data_into_html T D2)).
Proof.
  intros H.
  specialize (H reversed_template (JObject []) (JObject [])
                eq_refl eq_refl eq_refl eq_refl eq_refl eq_refl).
  vm_compute in H. discriminate H.
Qed.

(** C4, amended.  Re-injection round trip: for a template in which each
    marker occurs exactly once, the start marker before the end marker,
    and payloads whose serialized text holds neither marker, injecting
    into the already injected artifact succeeds (both markers are found
    again) and yields exactly what injecting the second payload into the
    template yields. *)
Theorem reinjection_round_trip {interp : Interpreter}
    (T : str) (D1 D2 : json) :
  occurrences start_marker T = 1%nat ->
  occurrences end_marker T = 1%nat ->
  str_find T start_marker < str_find T end_marker ->
  str_find (serialize D1) start_marker = -1 ->
  str_find (serialize D1) end_marker = -1 ->
  str_find (serialize D2) start_marker = -1 ->
  str_find (serialize D2) end_marker = -1 ->
  exists R1 : str,
    inject_data_into_html T D1 = ([], Return R1) /\
    str_find R1 start_marker <> -1 /\
    str_find R1 end_marker <> -1 /\
    (let! r := inject_data_into_html T D1 in inject_data_into_html r D2)
    = inject_data_into_html T D2.
Proof.
  intros Hs He Hlt _ HE1 _ _.
  destruct (occurs_once_found _ _ Hs) as [i Hi].
  destruct (occurs_once_found _ _ He) as [j Hj].
  assert (Hij : (i <= j)%nat).
  { unfold str_find in Hlt. rewrite Hi, Hj in Hlt. lia. }
  apply str_find_absent in HE1.
  destruct (reinject T D1 D2 i j Hi Hj Hij HE1) as (S1 & S2 & Heq).
  eexists. split; [apply (inject_found T D1 i j Hi Hj)|].
  split; [unfold str_find; rewrite S1; lia|].
  split; [unfold str_find; rewrite S2; lia|].
  rewrite (inject_found T D1 i j Hi Hj). unfold bind.
  rewrite Heq. destruct (inject_data_into_html T D2) as [out r].
  reflexivity.
Qed.

Lemma reinjection_round_trip_witness :
  (let! r := inject_data_into_html sample_template sample_data in
   inject_data_into_html r other_data)
  = inject_data_into_html sample_template other_data.
Proof.
  assert (H1 : occurrences start_marker sample_template = 1%nat)
    by (vm_compute; reflexivity).
  assert (H2 : occurrences end_marker sample_template = 1%nat)
    by (vm_compute; reflexivity).
  assert (H3 : str_find sample_template start_marker
               < str_find sample_template end_marker)
    by (vm_compute; reflexivity).
  assert (H4 : str_find (serialize sample_data) start_marker = -1)
    by (vm_compute; reflexivity).
  assert (H5 : str_find (serialize sample_data) end_marker = -1)
    by (vm_compute; reflexivity).
  assert (H6 : str_find (serialize other_data) start_marker = -1)
    by (vm_compute; reflexivity).
  assert (H7 : str_find (serialize other_data) end_marker = -1)
    by (vm_compute; reflexivity).
  destruct (reinjection_round_trip sample_template sample_data other_data
              H1 H2 H3 H4 H5 H6 H7) as (R1 & _ & _ & _ & H).
  exact H.
Defined.

(** C5, as stated, fails: without the markers no error is raised. *)
Lemma inject_without_markers_raises_nothing :
  ~ (forall (T : str) (D : json),
       str_find T start_marker = -1 \/ str_find T end_marker = -1 ->
       exists e, result (inject_data_into_html T D) = Raise e).
Proof.
  intros H.
  destruct (H (lit "<html></html>") (JObject [])) as [e He].
  - left. reflexivity.
  - vm_compute in He. discriminate He.
Qed.

(** C5, amended.  For a template from which either marker is absent,
    [inject_data_into_html] raises nothing: it writes the line "Could
    not find the insertion point in the HTML template." and returns the
    template unchanged. *)
Theorem inject_without_markers_unchanged {interp : Interpreter}
    (T : str) (D : json) :
  str_find T start_marker = -1 \/ str_find T end_marker = -1 ->
  inject_data_into_html T D = ([not_found_message], Return T).
Proof.
  intros H. apply inject_not_found.
  destruct H as [H | H]; apply str_find_absent in H; auto.
Qed.

Lemma inject_without_markers_unchanged_witness :
  inject_data_into_html (lit "<html>/* [INJECTION_START] */</html>") sample_data
  = ([not_found_message], Return (lit "<html>/* [INJECTION_START] */</html>")).
Proof.
  apply inject_without_markers_unchanged. right. vm_compute. reflexivity.
Defined.

End InjectFacts.

(** ** Indexing and retrieval *)

Module RagFacts.
Import CallFacts RagPipeline Samples.

Section WithLibraries.
Context {libs : Libraries}.

(** A file of at most 1500 characters is one document. *)
Lemma file_documents_small (file_path : str) (file_data : FileData) :
  len (content file_data) <= 1500 ->
  exists d, file_documents file_path file_data = [d]
            /\ page_content d = content file_data
            /\ source (metadata d) = file_path.
Proof.
  intros Hlen. unfold file_documents.
  destruct (Z.ltb_spec 1500 (len (content file_data))); [lia|].
  eexists. split; [reflexivity|]. split; reflexivity.
Qed.

Lemma build_index_result (held : list Document) (self : RAGPipeline)
    (files : Files) :
  build_index held self files =
    match _create_documents files with
    | [] => ([], Raise no_documents)
    | d :: docs =>
        ([], Return ({| vectorstore := Some (held ++ d :: docs) |},
                     length (d :: docs)))
    end.
Proof. unfold build_index. destruct (_create_documents files); reflexivity. Qed.

(** A file gives no document only when it is split and the splitter
    returns no chunk. *)
Lemma file_documents_nil (file_path : str) (file_data : FileData) :
  file_documents file_path file_data = [] <->
  1500 < len (content file_data) /\ split_text (content file_data) = [].
Proof.
  unfold file_documents.
  destruct (Z.ltb_spec 1500 (len (content file_data))) as [Hlong | Hshort].
  - destruct (split_text (content file_data)) as [|chunk chunks].
    + split; [intros _; split; [exact Hlong | reflexivity] | reflexivity].
    + split; [discriminate | intros [_ H]; discriminate H].
  - split; [discriminate | intros [H _]; lia].
Qed.

Lemma create_documents_nil (files : Files) :
  _create_documents files = [] <->
  Forall (fun kv => 1500 < len (content (snd kv))
                    /\ split_text (content (snd kv)) = []) files.
Proof.
  unfold _create_documents. induction files as [|[p fd] files IH]; simpl.
  - split; [constructor | reflexivity].
  - split.
    + intros H. apply app_eq_nil in H as [Hfile Hrest]. constructor.
      * apply file_documents_nil in Hfile. exact Hfile.
      * apply IH. exact Hrest.
    + intros H. apply Forall_cons in H as [Hfile Hrest]. simpl in Hfile.
      rewrite (proj2 (file_documents_nil p fd) Hfile).
      apply IH. exact Hrest.
Qed.

End WithLibraries.

(** C6, as stated, fails: a mapping whose files are all empty is not an
    empty corpus. *)
Lemma build_index_accepts_empty_files :
  ~ (forall (L : Libraries) (held : list Document) (self : RAGPipeline)
            (files : Files),
       files = [] \/ Forall (fun kv => content (snd kv) = []) files ->
       result (build_index held self files) = Raise no_documents).
Proof.
  intros H.
  specialize (H sample_libraries [] fresh_pipeline empty_files).
  assert (Hempty : Forall (fun kv : str * FileData => content (snd kv) = [])
                     empty_files)
    by (repeat constructor).
  specialize (H (or_intror Hempty)). vm_compute in H. discriminate H.
Qed.

(** C6, amended.  [build_index] raises [ValueError("No documents to
    index")] exactly when no document is created, that is, exactly when
    every file of the mapping is longer than 1500 characters and is
    given no chunk by the splitter; an empty mapping is such a mapping;
    a mapping with a file of at most 1500 characters, an empty file
    included, is not.  Whenever a document is created, [build_index]
    returns the number of documents created by this call, and the store
    holds them beside the documents that the collection held before. *)
Theorem build_index_empty_corpus {libs : Libraries} (held : list Document)
    (self : RAGPipeline) (files : Files) :
  (result (build_index held self files) = Raise no_documents
   <-> _create_documents files = [])
  /\ (_create_documents files = []
      <-> Forall (fun kv => 1500 < len (content (snd kv))
                            /\ split_text (content (snd kv)) = []) files)
  /\ (files = [] -> _create_documents files = [])
  /\ ((exists file_path file_data,
         In (file_path, file_data) files /\ len (content file_data) <= 1500) ->
      _create_documents files <> [])
  /\ (_create_documents files <> [] ->
      build_index held self files =
        ([], Return ({| vectorstore := Some (held ++ _create_documents files) |},
                     length (_create_documents files)))).
Proof.
  rewrite build_index_result. split_and!.
  - split.
    + destruct (_create_documents files); [reflexivity | discriminate].
    + intros ->. reflexivity.
  - apply create_documents_nil.
  - intros ->. reflexivity.
  - intros (file_path & file_data & Hin & Hlen) Hnil.
    apply create_documents_nil in Hnil. rewrite Forall_forall in Hnil.
    assert (Hlong : 1500 < len (content file_data)).
    { apply (Hnil (file_path, file_data)). apply list_elem_of_In. exact Hin. }
    lia.
  - intros Hne. destruct (_create_documents files); [congruence | reflexivity].
Qed.

Lemma build_index_empty_corpus_witness :
  build_index (_create_documents small_files) fresh_pipeline empty_files =
    ([], Return ({| vectorstore :=
                      Some (_create_documents small_files
                              ++ _create_documents empty_files) |}, 2%nat))
  /\ result (build_index [] fresh_pipeline []) = Raise no_documents.
Proof.
  destruct (build_index_empty_corpus (_create_documents small_files)
              fresh_pipeline empty_files)
    as (_ & _ & _ & Hsome & Hret).
  destruct (build_index_empty_corpus [] fresh_pipeline [])
    as (Hraise & _ & Hnil & _).
  split.
  - apply Hret. apply Hsome.
    exists (lit "README.md"), {| content := []; file_size := 0 |}.
    split; [right; left; reflexivity | vm_compute; discriminate].
  - apply Hraise. apply Hnil. reflexivity.
Defined.

Lemma merge_results_app (a b : list Document) (acc : list Document * gset str) :
  merge_results (a ++ b) acc = merge_results b (merge_results a acc).
Proof.
  revert acc. induction a as [|doc a IH]; intros [all seen]; [reflexivity|].
  simpl. destruct (decide _); apply IH.
Qed.

(** The inner loop keeps the invariant "the sources seen are those of
    the documents kept, each once", and what it appends is, in order,
    the first document of every source not met before. *)
Lemma merge_results_spec (results all : list Document) (seen : gset str) :
  (forall s, (s ∈ seen) <-> (s ∈ map doc_source all)) ->
  NoDup (map doc_source all) ->
  exists new seen',
    merge_results results (all, seen) = (all ++ new, seen')
    /\ (forall s, (s ∈ seen') <-> (s ∈ map doc_source (all ++ new)))
    /\ NoDup (map doc_source (all ++ new))
    /\ sublist new results
    /\ (forall d, d ∈ results -> doc_source d ∈ map doc_source (all ++ new))
    /\ (forall d, d ∈ new ->
          (doc_source d ∉ map doc_source all)
          /\ List.find (fun x => bool_decide (doc_source x = doc_source d)) results
             = Some d).
Proof.
  revert all seen. induction results as [|doc rest IH]; intros all seen Hseen Hnd.
  - exists [], seen. rewrite app_nil_r.
    split_and!; [reflexivity | exact Hseen | exact Hnd | constructor | |];
      intros d Hd; inversion Hd.
  - simpl. fold (doc_source doc).
    destruct (decide (doc_source doc ∈ seen)) as [Hin | Hout].
    + destruct (IH all seen Hseen Hnd) as (new & seen' & E & I1 & I2 & I3 & I4 & I5).
      exists new, seen'. split_and!; [exact E | exact I1 | exact I2 | | |].
      * apply sublist_cons. exact I3.
      * intros d Hd. apply elem_of_cons in Hd as [-> | Hd]; [|apply I4; exact Hd].
        rewrite map_app. apply elem_of_app. left. apply Hseen. exact Hin.
      * intros d Hd. destruct (I5 d Hd) as [Hfresh Hfind].
        split; [exact Hfresh|]. simpl.
        rewrite bool_decide_eq_false_2; [exact Hfind|].
        intros Heq. apply Hfresh. rewrite <- Heq. apply Hseen. exact Hin.
    + assert (Hseen' : forall s, (s ∈ ({[doc_source doc]} ∪ seen))
                                 <-> (s ∈ map doc_source (all ++ [doc]))).
      { intros s. rewrite map_app, elem_of_app, elem_of_union, elem_of_singleton.
        simpl. rewrite list_elem_of_singleton, Hseen. tauto. }
      assert (Hnd' : NoDup (map doc_source (all ++ [doc]))).
      { rewrite map_app. apply NoDup_app. split; [exact Hnd|]. split.
        - intros s Hs Hs'. simpl in Hs'. apply list_elem_of_singleton in Hs'.
          subst s. apply Hout. apply Hseen. exact Hs.
        - simpl. apply NoDup_singleton. }
      destruct (IH _ _ Hseen' Hnd') as (new & seen' & E & I1 & I2 & I3 & I4 & I5).
      exists (doc :: new), seen'.
      replace (all ++ doc :: new) with ((all ++ [doc]) ++ new)
        by (rewrite <- app_assoc; reflexivity).
      split_and!; [exact E | exact I1 | exact I2 | | |].
      * apply sublist_skip. exact I3.
      * intros d Hd. apply elem_of_cons in Hd as [-> | Hd]; [|apply I4; exact Hd].
        rewrite !map_app, !elem_of_app. left. right. simpl.
        apply list_elem_of_singleton. reflexivity.
      * intros d Hd. apply elem_of_cons in Hd as [-> | Hd]; simpl.
        -- split; [|rewrite bool_decide_eq_true_2; reflexivity].
           intros Hs. apply Hout. apply Hseen. exact Hs.
        -- destruct (I5 d Hd) as [Hfresh Hfind]. split.
           ++ intros Hs. apply Hfresh.
              rewrite map_app. apply elem_of_app. left. exact Hs.
           ++ rewrite bool_decide_eq_false_2; [exact Hfind|].
              intros Heq. apply Hfresh. rewrite map_app. apply elem_of_app.
              right. simpl. rewrite Heq. apply list_elem_of_singleton.
              reflexivity.
Qed.

Section Retrieval.
Context {libs : Libraries}.

Lemma query_built (self : RAGPipeline) (store : list Document) (q : str)
    (k : nat) (f : option Filter) :
  vectorstore self = Some store ->
  query self q k f = ret (similarity_search store q k f).
Proof. intros Hs. unfold query. rewrite Hs. reflexivity. Qed.

Lemma collect_documents_built (self : RAGPipeline) (store : list Document)
    (queries : list str) (k : nat) (acc : list Document * gset str) :
  vectorstore self = Some store ->
  collect_documents self queries k acc =
    ret (merge_results (battery_results store queries k) acc).
Proof.
  intros Hs. revert acc. induction queries as [|q queries IH]; intros acc.
  - reflexivity.
  - simpl. rewrite (query_built _ _ _ _ _ Hs), bind_ret_l, IH.
    unfold battery_results. simpl. rewrite merge_results_app. reflexivity.
Qed.

Lemma architecture_documents_built (self : RAGPipeline)
    (store : list Document) (k : nat) :
  vectorstore self = Some store ->
  architecture_documents self k =
    ret (take 15 (fst (merge_results
                         (battery_results store architecture_queries k)
                         ([], ∅)))).
Proof.
  intros Hs. unfold architecture_documents.
  rewrite (collect_documents_built _ _ _ _ _ Hs), bind_ret_l. reflexivity.
Qed.

Lemma get_architecture_context_returns (self : RAGPipeline)
    (store : list Document) (k : nat) :
  vectorstore self = Some store -> returns (get_architecture_context self k).
Proof.
  intros Hs. unfold get_architecture_context.
  rewrite (architecture_documents_built _ _ _ Hs), bind_ret_l.
  apply returns_ret.
Qed.

(** C9.  Dedup invariant: on a built index, for every [k], the
    documents formatted by [get_architecture_context] have pairwise
    different sources and are at most 15; they are the first 15 of the
    documents kept from the results of the six queries, taken in order,
    where a document is kept exactly when it is the first of its source;
    the returned text is their blocks joined by line breaks. *)
Theorem architecture_context_dedup (self : RAGPipeline)
    (store : list Document) (k : nat) :
  vectorstore self = Some store ->
  let results := battery_results store architecture_queries k in
  exists all_docs : list Document,
    architecture_documents self k = ([], Return (take 15 all_docs))
    /\ get_architecture_context self k =
         ([], Return (join [10%N] (map context_block (take 15 all_docs))))
    /\ NoDup (map doc_source (take 15 all_docs))
    /\ (length (take 15 all_docs) <= 15)%nat
    /\ NoDup (map doc_source all_docs)
    /\ sublist all_docs results
    /\ (forall d, d ∈ results -> doc_source d ∈ map doc_source all_docs)
    /\ (forall d, d ∈ all_docs ->
          List.find (fun x => bool_decide (doc_source x = doc_source d)) results
          = Some d).
Proof.
  intros Hs results.
  destruct (merge_results_spec results [] ∅) as (all_docs & seen & E & I1 & I2 & I3 & I4 & I5).
  { intros s. simpl. rewrite elem_of_nil. set_solver. }
  { simpl. constructor. }
  simpl in *. exists all_docs.
  assert (Hdocs : architecture_documents self k = ([], Return (take 15 all_docs))).
  { rewrite (architecture_documents_built _ _ _ Hs).
    fold results. rewrite E. reflexivity. }
  split_and!; auto.
  - unfold get_architecture_context. rewrite Hdocs. reflexivity.
  - rewrite <- (take_drop 15 all_docs), map_app in I2.
    apply NoDup_app in I2 as [I2 _]. exact I2.
  - rewrite length_take. lia.
  - intros d Hd. apply (I5 d Hd).
Qed.

End Retrieval.

Lemma architecture_context_dedup_witness :
  exists docs : list Document,
    architecture_documents {| vectorstore := Some mixed_store |} 3
      = ([], Return docs)
    /\ NoDup (map doc_source docs)
    /\ map doc_source docs
       = [lit "app/models.py"; lit "app/routes.py"; lit "docs/guide.md"].
Proof.
  destruct (architecture_context_dedup {| vectorstore := Some mixed_store |}
              mixed_store 3 eq_refl)
    as (all_docs & Hdocs & _ & Hnd & _).
  remember (take 15 all_docs) as docs eqn:Edocs. clear Edocs.
  exists docs. split; [exact Hdocs|]. split; [exact Hnd|].
  assert (E : Return docs
              = result (architecture_documents
                          {| vectorstore := Some mixed_store |} 3))
    by (rewrite Hdocs; reflexivity).
  vm_compute in E. injection E as ->. vm_compute. reflexivity.
Defined.

(** *** Sorting by chunk index *)

#[local] Instance key_le_transitive : Transitive key_le.
Proof. intros a b c. unfold key_le. lia. Qed.

Lemma insert_sorted_permutation (x : Document) (l : list Document) :
  Permutation (insert_sorted key_leb x l) (x :: l).
Proof.
  induction l as [|y l IH]; simpl; [reflexivity|].
  destruct (key_leb x y); [reflexivity|].
  rewrite IH. apply perm_swap.
Qed.

Lemma py_sorted_permutation (l : list Document) :
  Permutation (py_sorted key_leb l) l.
Proof.
  induction l as [|x l IH]; simpl; [reflexivity|].
  rewrite insert_sorted_permutation, IH. reflexivity.
Qed.

Lemma insert_sorted_sorted (x : Document) (l : list Document) :
  Sorted key_le l -> Sorted key_le (insert_sorted key_leb x l).
Proof.
  induction l as [|y l IH]; intros Hl; simpl.
  - repeat constructor.
  - unfold key_leb at 1. destruct (Nat.leb_spec (chunk_key x) (chunk_key y)) as [Hxy | Hxy].
    + constructor; [exact Hl|]. constructor. exact Hxy.
    + apply Sorted_inv in Hl as [Hl Hhd]. constructor; [apply IH; exact Hl|].
      destruct l as [|z l]; simpl.
      * constructor. unfold key_le. lia.
      * destruct (key_leb x z); constructor.
        -- unfold key_le. lia.
        -- apply HdRel_inv in Hhd. exact Hhd.
Qed.

Lemma py_sorted_sorted (l : list Document) : Sorted key_le (py_sorted key_leb l).
Proof.
  induction l as [|x l IH]; simpl; [constructor|].
  apply insert_sorted_sorted. exact IH.
Qed.

Lemma seq_sorted (docs : list Document) (n : nat) :
  map chunk_key docs = seq n (length docs) -> Sorted key_le docs.
Proof.
  revert n. induction docs as [|d docs IH]; intros n Hk; [constructor|].
  simpl in Hk. injection Hk as Hd Hk. constructor; [apply (IH (S n)); exact Hk|].
  destruct docs as [|d' docs]; constructor.
  simpl in Hk. injection Hk as Hd' _. unfold key_le. lia.
Qed.

(** Sorting any ranking of documents that carry the indexes 0..N-1
    gives them back in index order. *)
Lemma py_sorted_restores_order (docs ranked : list Document) :
  map chunk_key docs = seq 0 (length docs) ->
  Permutation ranked docs ->
  py_sorted key_leb ranked = docs.
Proof.
  intros Hkeys Hperm.
  assert (Hinj : forall a b, a ∈ docs -> b ∈ docs ->
                             chunk_key a = chunk_key b -> a = b).
  { assert (Hnd : NoDup (map chunk_key docs)) by (rewrite Hkeys; apply NoDup_seq).
    intros a b Ha Hb Hab.
    apply list_elem_of_lookup in Ha as [i Hi]. apply list_elem_of_lookup in Hb as [j Hj].
    assert (i = j).
    { apply (NoDup_lookup _ i j (chunk_key a) Hnd).
      - rewrite list_lookup_fmap, Hi. reflexivity.
      - rewrite list_lookup_fmap, Hj, Hab. reflexivity. }
    subst j. congruence. }
  apply (Sorted_unique_strong key_le).
  - intros x1 x2 H1 H2 H12 H21. unfold key_le in *.
    apply Hinj; [| exact H2 | lia].
    rewrite <- Hperm, <- (py_sorted_permutation ranked). exact H1.
  - apply py_sorted_sorted.
  - apply (seq_sorted _ 0). exact Hkeys.
  - rewrite py_sorted_permutation. exact Hperm.
Qed.

Section FileContext.
Context {libs : Libraries}.

(** What holds of C7: a file of at most 20 documents, carrying the
    indexes 0..N-1, is given back in index order whatever the ranking. *)
Lemma get_file_context_in_order (self : RAGPipeline) (store : list Document)
    (file_path : str) :
  vectorstore self = Some store ->
  let docs := documents_of store file_path in
  map chunk_key docs = seq 0 (length docs) ->
  (length docs <= 20)%nat ->
  get_file_context self file_path =
    ([], Return (join [10%N] (map page_content docs))).
Proof.
  intros Hs docs Hkeys Hlen. unfold get_file_context.
  rewrite (query_built _ _ _ _ _ Hs), bind_ret_l.
  unfold similarity_search. fold (documents_of store file_path). fold docs.
  pose proof (rank_permutation (lit "file: " ++ file_path) docs) as Hperm.
  rewrite take_ge by (rewrite (Permutation_length Hperm); exact Hlen).
  rewrite (py_sorted_restores_order docs _ Hkeys Hperm).
  reflexivity.
Qed.

(** Whatever the file, at most 20 documents reach the sort, all of them
    documents of the file. *)
Lemma get_file_context_at_most_20 (self : RAGPipeline) (store : list Document)
    (file_path : str) :
  vectorstore self = Some store ->
  exists results : list Document,
    get_file_context self file_path =
      ([], Return (join [10%N] (map page_content (py_sorted key_leb results))))
    /\ (length results <= 20)%nat
    /\ forall d, d ∈ results -> d ∈ documents_of store file_path.
Proof.
  intros Hs. unfold get_file_context.
  rewrite (query_built _ _ _ _ _ Hs), bind_ret_l.
  eexists. split; [reflexivity|]. unfold similarity_search.
  fold (documents_of store file_path). split.
  - rewrite length_take. lia.
  - intros d Hd. apply elem_of_take in Hd as (i & Hd & _).
    rewrite <- (rank_permutation (lit "file: " ++ file_path)).
    apply list_elem_of_lookup. eauto.
Qed.

End FileContext.

Lemma returned_len (a b : str) :
  ([], Return a) = ([], Return b) :> py str -> len a = len b.
Proof. intros Heq. injection Heq as ->. reflexivity. Qed.

(** C7.  A file of 21 chunks: the store is asked for 20 documents only,
    so one chunk never reaches the sort.  With the sample ranking (last
    candidate first) the text returned is that of the chunks 1..20: the
    beginning of the file is missing, and the result differs from the
    chunks of the file joined in order. *)
Theorem get_file_context_loses_chunks :
  let self := indexed fresh_pipeline big_files in
  let chunks := split_text big_content in
  length chunks = 21%nat
  /\ map page_content (documents_of (_create_documents big_files) (lit "src/big.py"))
     = chunks
  /\ map chunk_key (documents_of (_create_documents big_files) (lit "src/big.py"))
     = seq 0 21
  /\ get_file_context self (lit "src/big.py")
     = ([], Return (join [10%N] (drop 1 chunks)))
  /\ get_file_context self (lit "src/big.py")
     <> ([], Return (join [10%N] chunks)).
Proof.
  assert (E : get_file_context (indexed fresh_pipeline big_files) (lit "src/big.py")
              = ([], Return (join [10%N] (drop 1 (split_text big_content)))))
    by (unfold py; compute_done).
  assert (L1 : len (join [10%N] (drop 1 (split_text big_content))) = 30019)
    by compute_done.
  assert (L2 : len (join [10%N] (split_text big_content)) = 31520)
    by compute_done.
  cbv zeta. split_and!; [compute_done .. | exact E |].
  rewrite E. intros Heq. apply returned_len in Heq.
  rewrite L1, L2 in Heq. discriminate Heq.
Qed.

End RagFacts.

(** ** Decoded objects *)

Module JsonFacts.
Import DiagramGenerator.

(** The object loop yields an object. *)
Lemma parse_members_object (fuel : nat) (s : str) (acc : list (str * json))
    (v : json) (r : str) :
  parse_members fuel s acc = POk v r -> exists d, v = JObject d.
Proof.
  revert s acc. induction fuel as [|f IH]; intros s acc Hp; [discriminate|].
  simpl in Hp.
  destruct s as [|q s1]; [discriminate|].
  destruct (N.eqb q 34); [|discriminate].
  destruct (scan_string s1 []) as [key r0| |]; try discriminate.
  destruct (skip_ws r0) as [|colon r1]; [discriminate|].
  destruct (N.eqb colon 58); [|discriminate].
  destruct (parse_value f (skip_ws r1)) as [v0 r2| |]; try discriminate.
  destruct (skip_ws r2) as [|c r3]; [discriminate|].
  destruct (N.eqb c 125).
  - injection Hp as <- _. eauto.
  - destruct (N.eqb c 44); [|discriminate]. apply (IH _ _ Hp).
Qed.

(** A text that begins with an opening brace denotes an object, if
    it is a JSON text at all. *)
Lemma parse_json_brace (t : str) (v : json) :
  parse_json (123%N :: t) = Some v -> exists d, v = JObject d.
Proof.
  unfold parse_json. generalize (loads_fuel (123%N :: t)). intros fuel.
  change (skip_ws (123%N :: t)) with (123%N :: t).
  destruct fuel as [|f]; [discriminate|].
  change (parse_value (S f) (123%N :: t)) with
    (match skip_ws t with
     | c' :: s2 =>
         if N.eqb c' 125 then POk (JObject []) s2
         else parse_members f (c' :: s2) []
     | [] => PErr
     end).
  destruct (skip_ws t) as [|c' s2]; [discriminate|].
  destruct (N.eqb c' 125).
  - destruct (skip_ws s2); [|discriminate]. intros [= <-]. eauto.
  - destruct (parse_members f (c' :: s2) []) as [v0 r| |] eqn:E; try discriminate.
    destruct (skip_ws r); [|discriminate]. intros [= <-].
    apply (parse_members_object _ _ _ _ _ E).
Qed.

Lemma loads_brace {interp : Interpreter} (t : str) (v : json) :
  loads (123%N :: t) = Return v -> exists d, v = JObject d.
Proof.
  unfold loads. destruct (loads_limit (123%N :: t)); [discriminate|].
  destruct (parse_json (123%N :: t)) as [v0|] eqn:E; [|discriminate].
  intros [= <-]. apply (parse_json_brace _ _ E).
Qed.

Lemma json_loads_brace {interp : Interpreter} (t : str) (v : json) :
  json_loads (123%N :: t) = Some v -> exists d, v = JObject d.
Proof.
  unfold json_loads. destruct (loads (123%N :: t)) as [v0|] eqn:E;
    [|discriminate].
  intros [= <-]. apply (loads_brace _ _ E).
Qed.

Lemma search_brace_starts (s g : str) :
  search_brace s = Some g -> exists t, g = 123%N :: t.
Proof.
  induction s as [|c s IH]; simpl; [discriminate|].
  destruct (N.eqb_spec c 123) as [-> | _]; [|exact IH].
  destruct (up_to_last_close s); [|exact IH].
  intros [= <-]. eauto.
Qed.

Lemma fenced_body_starts (s acc g : str) :
  fenced_body s acc = Some g -> exists t, g = rev acc ++ t.
Proof.
  revert acc. induction s as [|c s IH]; intros acc; simpl; [discriminate|].
  destruct (_ && _).
  - intros [= <-]. simpl. eauto.
  - intros Hb. destruct (IH _ Hb) as [t ->]. simpl.
    rewrite <- app_assoc. eauto.
Qed.

Lemma search_fenced_starts (s g : str) :
  search_fenced s = Some g -> exists t, g = 123%N :: t.
Proof.
  assert (Hat : forall s, match_fenced_at s = Some g -> exists t, g = 123%N :: t).
  { intros s0. unfold match_fenced_at.
    destruct (starts_with fence_json s0); [|discriminate].
    destruct (skip_space _) as [|c r]; [discriminate|].
    destruct (N.eqb_spec c 123) as [-> | _]; [|discriminate].
    intros Hb. destruct (fenced_body_starts _ _ _ Hb) as [t ->]. simpl. eauto. }
  induction s as [|c s IH]; cbn [search_fenced].
  - destruct (match_fenced_at []) eqn:E; [|discriminate].
    intros [= <-]. apply (Hat _ E).
  - destruct (match_fenced_at (c :: s)) eqn:E.
    + intros [= <-]. apply (Hat _ E).
    + exact IH.
Qed.

(** *** The decoder never runs out of fuel *)

Lemma progresses_err {A} (s : str) : progresses (A := A) s PErr.
Proof. split; [discriminate | intros a r; discriminate]. Qed.

Lemma progresses_ok {A} (s : str) (a : A) (r : str) :
  (length r < length s)%nat -> progresses s (POk a r).
Proof. intros Hlt. split; [discriminate | intros a' r' [= <- <-]; exact Hlt]. Qed.

Lemma progresses_weaken {A} (s s' : str) (p : presult A) :
  (length s <= length s')%nat -> progresses s p -> progresses s' p.
Proof.
  intros Hle [H1 H2]. split; [exact H1|].
  intros a r Hp. specialize (H2 a r Hp). lia.
Qed.

Lemma skip_ws_length (s : str) : (length (skip_ws s) <= length s)%nat.
Proof.
  induction s as [|c s IH]; simpl; [lia|].
  destruct (is_json_ws c); simpl; lia.
Qed.

Lemma scan_string_progresses (n : nat) (s acc : str) :
  (length s <= n)%nat -> progresses (34%N :: s) (scan_string s acc).
Proof.
  revert s acc. induction n as [|n IH]; intros s acc Hn.
  - destruct s; [apply progresses_err | simpl in Hn; lia].
  - destruct s as [|c s1]; [apply progresses_err|].
    cbn [scan_string].
    repeat case_match; subst;
      try apply progresses_err;
      try (apply progresses_ok; simpl; lia);
      match goal with
      | |- progresses _ (scan_string ?s' ?a) =>
          apply (progresses_weaken (34%N :: s'));
            [simpl in *; lia | apply IH; simpl in *; lia]
      end.
Qed.

Lemma take_digits_length (s : str) :
  (length (snd (take_digits s)) <= length s)%nat.
Proof.
  induction s as [|c s IH]; simpl; [lia|].
  destruct (is_digit c); [|simpl; lia].
  destruct (take_digits s). simpl in *. lia.
Qed.

Lemma scan_int_part_length (s i r : str) :
  scan_int_part s = Some (i, r) -> (length r < length s)%nat.
Proof.
  unfold scan_int_part. intros Hs.
  repeat case_match; simplify_eq; simpl in *;
    try match goal with
        | H : take_digits ?x = (_, _) |- _ =>
            pose proof (take_digits_length x) as Hd; rewrite H in Hd; simpl in Hd
        end; lia.
Qed.

Lemma scan_frac_length (s : str) : (length (snd (scan_frac s)) <= length s)%nat.
Proof.
  unfold scan_frac. repeat case_match; simpl; try lia.
  match goal with
  | H : take_digits ?x = (_, _) |- _ =>
      pose proof (take_digits_length x) as Hd; rewrite H in Hd; simpl in Hd
  end. lia.
Qed.

Lemma scan_exp_length (s : str) : (length (snd (scan_exp s)) <= length s)%nat.
Proof.
  unfold scan_exp. repeat case_match; simplify_eq; simpl; try lia;
  match goal with
  | H : take_digits ?x = (_, _) |- _ =>
      pose proof (take_digits_length x) as Hd; rewrite H in Hd; simpl in *
  end; lia.
Qed.

Lemma scan_number_length (s : str) (v : json) (r : str) :
  scan_number s = Some (v, r) -> (length r < length s)%nat.
Proof.
  unfold scan_number. destruct (scan_int_part s) as [[i r0]|] eqn:Ei; [|discriminate].
  pose proof (scan_int_part_length _ _ _ Ei) as H0.
  pose proof (scan_frac_length r0) as H1.
  destruct (scan_frac r0) as [f r1]. simpl in H1.
  pose proof (scan_exp_length r1) as H2.
  destruct (scan_exp r1) as [e r2]. simpl in H2.
  destruct f, e; intros [= _ <-]; lia.
Qed.

Lemma scan_const_progresses (text : string) (v : json) (s : str) :
  (0 < length (lit text))%nat -> progresses s (scan_const text v s).
Proof.
  intros Hpos. unfold scan_const.
  destruct (starts_with (lit text) s) eqn:E; [|apply progresses_err].
  apply progresses_ok. rewrite length_drop.
  apply PyFacts.starts_with_split in E. apply (f_equal length) in E.
  rewrite length_app in E. lia.
Qed.

Lemma skip_ws_cons_length (s : str) (c : char) (r : str) :
  skip_ws s = c :: r -> (length r < length s)%nat.
Proof.
  intros E. pose proof (skip_ws_length s) as Hl. rewrite E in Hl.
  simpl in Hl. lia.
Qed.

Lemma parse_progresses (fuel : nat) :
  (forall s, (2 * length s + 1 <= fuel)%nat -> progresses s (parse_value fuel s))
  /\ (forall s acc, (2 * length s + 2 <= fuel)%nat ->
        progresses s (parse_elements fuel s acc))
  /\ (forall s acc, (2 * length s + 2 <= fuel)%nat ->
        progresses s (parse_members fuel s acc)).
Proof.
  induction fuel as [|f (IHv & IHe & IHm)].
  { split_and!; intros; lia. }
  split_and!.
  - intros s Hf. cbn [parse_value].
    destruct s as [|c s1]; [apply progresses_err|]. simpl in Hf.
    destruct (N.eqb c 34).
    { destruct (scan_string_progresses (length s1) s1 [] (le_n _)) as [Hn Hs].
      destruct (scan_string s1 []) as [t r| |] eqn:E; [|apply progresses_err|congruence].
      apply progresses_ok. specialize (Hs t r eq_refl). simpl in *. lia. }
    destruct (N.eqb c 123).
    { destruct (skip_ws s1) as [|c' s2] eqn:E; [apply progresses_err|].
      pose proof (skip_ws_cons_length _ _ _ E) as Hl.
      destruct (N.eqb c' 125); [apply progresses_ok; simpl; lia|].
      apply (progresses_weaken (c' :: s2)); [simpl; lia|].
      apply IHm. simpl. lia. }
    destruct (N.eqb c 91).
    { destruct (skip_ws s1) as [|c' s2] eqn:E; [apply progresses_err|].
      pose proof (skip_ws_cons_length _ _ _ E) as Hl.
      destruct (N.eqb c' 93); [apply progresses_ok; simpl; lia|].
      apply (progresses_weaken (c' :: s2)); [simpl; lia|].
      apply IHe. simpl. lia. }
    destruct (N.eqb c 110); [apply scan_const_progresses; simpl; lia|].
    destruct (N.eqb c 116); [apply scan_const_progresses; simpl; lia|].
    destruct (N.eqb c 102); [apply scan_const_progresses; simpl; lia|].
    destruct (scan_number (c :: s1)) as [[v r]|] eqn:E.
    { apply progresses_ok. apply (scan_number_length _ _ _ E). }
    destruct (N.eqb c 78); [apply scan_const_progresses; simpl; lia|].
    destruct (N.eqb c 73); [apply scan_const_progresses; simpl; lia|].
    destruct (N.eqb c 45); [apply scan_const_progresses; simpl; lia|].
    apply progresses_err.
  - intros s acc Hf. cbn [parse_elements].
    destruct (IHv s ltac:(lia)) as [Hn Hs].
    destruct (parse_value f s) as [v r| |]; [|apply progresses_err|congruence].
    specialize (Hs v r eq_refl).
    destruct (skip_ws r) as [|c r1] eqn:E; [apply progresses_err|].
    pose proof (skip_ws_cons_length _ _ _ E) as Hl.
    destruct (N.eqb c 93); [apply progresses_ok; lia|].
    destruct (N.eqb c 44); [|apply progresses_err].
    pose proof (skip_ws_length r1) as Hl1.
    apply (progresses_weaken (skip_ws r1)); [lia|].
    apply IHe. lia.
  - intros s acc Hf. cbn [parse_members].
    destruct s as [|q s1]; [apply progresses_err|]. simpl in Hf.
    destruct (N.eqb q 34); [|apply progresses_err].
    destruct (scan_string_progresses (length s1) s1 [] (le_n _)) as [Hn Hs].
    destruct (scan_string s1 []) as [key r| |]; [|apply progresses_err|congruence].
    specialize (Hs key r eq_refl). simpl in Hs.
    destruct (skip_ws r) as [|colon r1] eqn:E; [apply progresses_err|].
    pose proof (skip_ws_cons_length _ _ _ E) as Hl.
    destruct (N.eqb colon 58); [|apply progresses_err].
    pose proof (skip_ws_length r1) as Hl1.
    destruct (IHv (skip_ws r1) ltac:(lia)) as [Hn2 Hs2].
    destruct (parse_value f (skip_ws r1)) as [v r2| |];
      [|apply progresses_err|congruence].
    specialize (Hs2 v r2 eq_refl).
    destruct (skip_ws r2) as [|c r3] eqn:E2; [apply progresses_err|].
    pose proof (skip_ws_cons_length _ _ _ E2) as Hl2.
    destruct (N.eqb c 125); [apply progresses_ok; simpl; lia|].
    destruct (N.eqb c 44); [|apply progresses_err].
    pose proof (skip_ws_length r3) as Hl3.
    apply (progresses_weaken (skip_ws r3)); [simpl; lia|].
    apply IHm. lia.
Qed.

(** [parse_json] decides every text: its fuel is never exhausted. *)
Lemma json_loads_fuel (s : str) :
  parse_value (loads_fuel s) (skip_ws s) <> PFuel.
Proof.
  destruct (parse_progresses (loads_fuel s)) as (Hv & _ & _).
  apply Hv. pose proof (skip_ws_length s). unfold loads_fuel. lia.
Qed.

End JsonFacts.

(** ** The agent's stages *)

Module AgentFacts.
Import CallFacts JsonFacts DiagramGenerator RagPipeline RepoAgent RagFacts.
Import Schema Stages Samples Samples2.

Section Parsing.
Context {interp : Interpreter}.

(** The parser of the agent decodes the extracted text, when there is a
    fenced block or a brace span, and catches the [JSONDecodeError]. *)
Lemma parse_json_response_result (response : str) :
  _parse_json_response response
  = if has_json_span response then decode_or_none (extract_json response)
    else ret None.
Proof.
  assert (Hg : forall g,
            catch_decode_error
              (let! v := ([], loads g) in ret (Some v)) (ret None)
            = decode_or_none g).
  { intros g. unfold decode_or_none. destruct (loads g) as [v|e];
      [reflexivity | destruct e; reflexivity]. }
  unfold _parse_json_response, has_json_span, extract_json.
  destruct (search_fenced response); [apply Hg|].
  destruct (search_brace response); [apply Hg | reflexivity].
Qed.

Lemma parse_json_response_prints_nothing (response : str) :
  _parse_json_response response = ([], result (_parse_json_response response)).
Proof.
  rewrite parse_json_response_result. unfold decode_or_none.
  destruct (has_json_span response); [|reflexivity].
  destruct (loads _) as [v|e]; [reflexivity|].
  destruct (is_decode_error e); reflexivity.
Qed.

(** What [_parse_json_response] returns is an object. *)
Lemma parse_json_response_object (response : str) (v : json) :
  result (_parse_json_response response) = Return (Some v) ->
  exists d, v = JObject d.
Proof.
  assert (Hg : forall t,
            result (decode_or_none (123%N :: t)) = Return (Some v) ->
            exists d, v = JObject d).
  { intros t. unfold decode_or_none.
    destruct (loads (123%N :: t)) as [v0|e] eqn:E.
    - intros [= <-]. apply (loads_brace _ _ E).
    - destruct (is_decode_error e); discriminate. }
  rewrite parse_json_response_result. unfold has_json_span, extract_json.
  destruct (search_fenced response) as [g|] eqn:Ef.
  - destruct (search_fenced_starts _ _ Ef) as [t ->]. apply Hg.
  - destruct (search_brace response) as [g|] eqn:Eb; [|discriminate].
    destruct (search_brace_starts _ _ Eb) as [t ->]. apply Hg.
Qed.

Lemma parse_json_response_returned (response : str) (parsed : option json) :
  result (_parse_json_response response) = Return parsed ->
  _parse_json_response response = ret parsed.
Proof.
  intros H. rewrite parse_json_response_prints_nothing, H. reflexivity.
Qed.

End Parsing.

Section WithServices.
Context {interp : Interpreter} {libs : Libraries} {services : Services}.

Lemma call_llm_returned (prompt : str) (system_prompt : option str)
    (response : str) :
  result (_call_llm prompt system_prompt) = Return response ->
  _call_llm prompt system_prompt = ret response.
Proof.
  unfold _call_llm, result, ret. cbn [snd]. intros ->. reflexivity.
Qed.

(** With the index built, the prompt of the overview stage is built as
    soon as the file tree is. *)
Lemma overview_prompt_returns (self : RepoAnalysisAgent) (rd : RepoData)
    (store : list Document) :
  vectorstore (rag self) = Some store ->
  returns (get_file_structure (files rd)) ->
  returns (overview_prompt self rd).
Proof.
  intros Hs Hfs. unfold overview_prompt.
  apply returns_bind; [exact Hfs|]. intros fs.
  apply returns_bind; [apply (get_architecture_context_returns _ store); exact Hs|].
  intros ctx. apply returns_ret.
Qed.

(** From the prompt on: the chat model has answered and the parser has
    returned. *)
Lemma analyze_overview_answered (self : RepoAnalysisAgent) (rd : RepoData)
    (out : list str) (prompt response : str) (parsed : option json) :
  repo_data self = Some rd ->
  overview_prompt self rd = (out, Return prompt) ->
  _call_llm prompt (Some ANALYSIS_SYSTEM_PROMPT) = ret response ->
  _parse_json_response response = ret parsed ->
  analyze_overview self =
    (out, Return (with_overview self
                    (if py_not parsed then fallback_overview response
                     else get_or JNull parsed),
                  if py_not parsed then fallback_overview response
                  else get_or JNull parsed)).
Proof.
  intros Hrd Hprompt Hcall Hparse. unfold analyze_overview.
  rewrite Hrd, Hprompt. apply bind_returned_pure.
  rewrite Hcall, bind_ret_l, Hparse, bind_ret_l. reflexivity.
Qed.

(** C8, amended.  Overview degrade-not-fail: once the prompt is built
    and the chat model has answered, for every response on which the
    parser returns [None] (no fenced block and no brace span, or a
    [JSONDecodeError] on the text taken), [analyze_overview] raises
    nothing; it stores and returns the [dict] with project_type
    "unknown", architecture_pattern "unknown", components the empty list
    and raw_analysis the raw response, which is non-empty whenever the
    response is. *)
Theorem analyze_overview_degrades (self : RepoAnalysisAgent) (rd : RepoData)
    (out : list str) (prompt response : str) :
  repo_data self = Some rd ->
  overview_prompt self rd = (out, Return prompt) ->
  _call_llm prompt (Some ANALYSIS_SYSTEM_PROMPT) = ret response ->
  _parse_json_response response = ret None ->
  exists d : dict,
    analyze_overview self = (out, Return (with_overview self (JObject d), JObject d))
    /\ dict_get (lit "project_type") d = Some (JString (lit "unknown"))
    /\ dict_get (lit "architecture_pattern") d = Some (JString (lit "unknown"))
    /\ dict_get (lit "components") d = Some (JArray [])
    /\ dict_get (lit "raw_analysis") d = Some (JString response)
    /\ (response <> [] -> dict_get (lit "raw_analysis") d <> Some (JString [])).
Proof.
  intros Hrd Hprompt Hcall Hparse.
  eexists. split.
  - rewrite (analyze_overview_answered _ _ _ _ _ _ Hrd Hprompt Hcall Hparse).
    reflexivity.
  - split_and!; try reflexivity.
    intros Hne Heq. apply Hne. injection Heq as Heq. exact Heq.
Qed.

Lemma sequence_prompt_built (self : RepoAnalysisAgent) (rd : RepoData)
    (focus_area code_context : str) :
  repo_data self = Some rd ->
  sequence_prompt self focus_area code_context =
    ([], Return (SEQUENCE_FROM_REPO_PROMPT (full_name rd) focus_area
                   (slice_to code_context 10000))).
Proof.
  intros Hrd. unfold sequence_prompt, the_repo_data. rewrite Hrd.
  rewrite bind_ret_l. reflexivity.
Qed.

(** A type that is neither "Mindmap" nor "Graph" takes the Sequence
    route. *)
Lemma generate_diagram_data_route (self : RepoAnalysisAgent)
    (diagram_spec : DiagramSpec) (store : list Document) (rd : RepoData) :
  vectorstore (rag self) = Some store ->
  repo_data self = Some rd ->
  get_or (lit "Sequence") (spec_type diagram_spec) <> lit "Mindmap" ->
  get_or (lit "Sequence") (spec_type diagram_spec) <> lit "Graph" ->
  generate_diagram_data self diagram_spec
  = sequence_route store rd (get_or (lit "Sequence") (spec_type diagram_spec))
      diagram_spec.
Proof.
  intros Hs Hrd Hmind Hgraph. unfold generate_diagram_data.
  rewrite (query_built _ _ _ _ _ Hs), bind_ret_l.
  assert (Hprompt : forall focus_area code_context,
            diagram_prompt self (get_or (lit "Sequence") (spec_type diagram_spec))
              focus_area code_context
            = ret (SEQUENCE_FROM_REPO_PROMPT (full_name rd) focus_area
                     (slice_to code_context 10000))).
  { intros focus_area code_context. unfold diagram_prompt.
    destruct (str_eqb _ (lit "Sequence"));
      [apply sequence_prompt_built; exact Hrd|].
    unfold str_eqb. rewrite !bool_decide_eq_false_2 by assumption.
    apply sequence_prompt_built. exact Hrd. }
  rewrite Hprompt, bind_ret_l. reflexivity.
Qed.

Lemma attach_meta_returns (diagram_type : str) (diagram_spec : DiagramSpec)
    (response : str) (parsed : option json) :
  result (_parse_json_response response) = Return parsed ->
  returns (attach_meta diagram_type diagram_spec parsed).
Proof.
  intros Hparse. unfold attach_meta.
  destruct parsed as [data|]; [|apply returns_ret].
  destruct (parse_json_response_object _ _ Hparse) as [d ->].
  destruct (py_truthy (JObject d)); [|apply returns_ret].
  unfold set_meta. rewrite bind_ret_l. apply returns_ret.
Qed.

(** C10.  On an agent that holds repository data and a built index, a
    spec whose type is none of "Sequence", "Mindmap", "Graph" (the
    declared "Timeline" included) and a spec without the key 'type'
    take the Sequence route: the chat model is asked the Sequence
    prompt built for the spec, and its parsed answer is tagged, with the
    type of the spec in the first case and with "Sequence" in the
    second.  No error is raised for the type: an exception that leaves
    [generate_diagram_data] is one raised by the call of the chat model
    on that prompt or by the parsing of its answer, and once these two
    have returned, [generate_diagram_data] returns. *)
Theorem generate_diagram_data_defaults_to_sequence (self : RepoAnalysisAgent)
    (diagram_spec : DiagramSpec) (store : list Document) (rd : RepoData) :
  vectorstore (rag self) = Some store ->
  repo_data self = Some rd ->
  let prompt := sequence_route_prompt store rd diagram_spec in
  (forall diagram_type,
     spec_type diagram_spec = Some diagram_type ->
     diagram_type <> lit "Sequence" ->
     diagram_type <> lit "Mindmap" ->
     diagram_type <> lit "Graph" ->
     generate_diagram_data self diagram_spec
     = sequence_route store rd diagram_type diagram_spec)
  /\ (spec_type diagram_spec = None ->
      generate_diagram_data self diagram_spec
      = sequence_route store rd (lit "Sequence") diagram_spec)
  /\ (get_or (lit "Sequence") (spec_type diagram_spec) <> lit "Mindmap" ->
      get_or (lit "Sequence") (spec_type diagram_spec) <> lit "Graph" ->
      (forall e,
         result (generate_diagram_data self diagram_spec) = Raise e ->
         result (_call_llm prompt (Some ANALYSIS_SYSTEM_PROMPT)) = Raise e
         \/ exists response,
              _call_llm prompt (Some ANALYSIS_SYSTEM_PROMPT) = ret response
              /\ result (_parse_json_response response) = Raise e)
      /\ (forall response parsed,
            _call_llm prompt (Some ANALYSIS_SYSTEM_PROMPT) = ret response ->
            _parse_json_response response = ret parsed ->
            generate_diagram_data self diagram_spec
            = attach_meta (get_or (lit "Sequence") (spec_type diagram_spec))
                diagram_spec parsed
            /\ returns (generate_diagram_data self diagram_spec))).
Proof.
  intros Hs Hrd prompt. split_and!.
  - intros diagram_type Htype _ Hmind Hgraph.
    rewrite (generate_diagram_data_route _ _ _ _ Hs Hrd);
      rewrite Htype; [reflexivity | exact Hmind | exact Hgraph].
  - intros Htype.
    rewrite (generate_diagram_data_route _ _ _ _ Hs Hrd);
      rewrite Htype; [reflexivity | vm_compute; discriminate ..].
  - intros Hmind Hgraph.
    rewrite (generate_diagram_data_route _ _ _ _ Hs Hrd Hmind Hgraph).
    unfold sequence_route. fold prompt. split.
    + intros e H. rewrite result_bind in H.
      destruct (_call_llm prompt (Some ANALYSIS_SYSTEM_PROMPT))
        as [out [response|e']] eqn:Ecall.
      * right. exists response.
        assert (out = []) by (unfold _call_llm in Ecall; congruence).
        subst out. split; [reflexivity|].
        cbn [result snd] in H. rewrite result_bind in H.
        destruct (result (_parse_json_response response)) as [parsed|e'] eqn:Ep;
          [|exact H].
        destruct (attach_meta_returns
                    (get_or (lit "Sequence") (spec_type diagram_spec))
                    diagram_spec response parsed Ep) as (o & r & Hr).
        rewrite Hr in H. discriminate H.
      * left. cbn [result snd] in H |- *. congruence.
    + intros response parsed Hcall Hparse.
      assert (Hrun : (let! response := _call_llm prompt (Some ANALYSIS_SYSTEM_PROMPT) in
                      let! diagram_data := _parse_json_response response in
                      attach_meta (get_or (lit "Sequence") (spec_type diagram_spec))
                        diagram_spec diagram_data)
                     = attach_meta (get_or (lit "Sequence") (spec_type diagram_spec))
                         diagram_spec parsed)
        by (rewrite Hcall, bind_ret_l, Hparse, bind_ret_l; reflexivity).
      rewrite Hrun. split; [reflexivity|].
      apply (attach_meta_returns _ _ response). rewrite Hparse. reflexivity.
Qed.

End WithServices.

(** C8, as stated, fails: the chat model may answer with the empty
    string, and then raw_analysis is empty. *)
Lemma analyze_overview_raw_analysis_may_be_empty :
  ~ (forall (I : Interpreter) (L : Libraries) (S : Services)
            (self : RepoAnalysisAgent) (rd : RepoData) (out : list str)
            (prompt response : str),
       repo_data self = Some rd ->
       overview_prompt self rd = (out, Return prompt) ->
       _call_llm prompt (Some ANALYSIS_SYSTEM_PROMPT) = ret response ->
       _parse_json_response response = ret None ->
       exists (self' : RepoAnalysisAgent) (d : dict) (raw : str),
         analyze_overview self = (out, Return (self', JObject d))
         /\ dict_get (lit "project_type") d = Some (JString (lit "unknown"))
         /\ dict_get (lit "architecture_pattern") d = Some (JString (lit "unknown"))
         /\ dict_get (lit "components") d = Some (JArray [])
         /\ dict_get (lit "raw_analysis") d = Some (JString raw)
         /\ raw = response
         /\ raw <> []).
Proof.
  intros Hclaim.
  destruct (overview_prompt (services := constant_services []) small_agent small_repo)
    as [out [prompt | e]] eqn:Ep; [|vm_compute in Ep; discriminate Ep].
  destruct (Hclaim sample_interpreter sample_libraries (constant_services [])
              small_agent small_repo out prompt [] eq_refl Ep eq_refl eq_refl)
    as (self' & d & raw & _ & _ & _ & _ & _ & Hraw & Hne).
  apply Hne. rewrite Hraw. reflexivity.
Qed.

Lemma analyze_overview_degrades_witness :
  exists (out : list str) (d : dict),
    analyze_overview (services := constant_services refusal) small_agent =
      (out, Return (with_overview small_agent (JObject d), JObject d))
    /\ dict_get (lit "project_type") d = Some (JString (lit "unknown"))
    /\ dict_get (lit "raw_analysis") d = Some (JString refusal).
Proof.
  destruct (overview_prompt (services := constant_services refusal) small_agent small_repo)
    as [out [prompt | e]] eqn:Ep; [|vm_compute in Ep; discriminate Ep].
  assert (Hparse : _parse_json_response refusal = ret None)
    by (vm_compute; reflexivity).
  destruct (analyze_overview_degrades (services := constant_services refusal)
              small_agent small_repo out prompt refusal eq_refl Ep eq_refl Hparse)
    as (d & Hrun & Htype & _ & _ & Hraw & _).
  exists out, d. split; [exact Hrun|]. split; [exact Htype | exact Hraw].
Defined.

Lemma generate_diagram_data_defaults_to_sequence_witness :
  generate_diagram_data (services := sequence_only_services)
    small_agent timeline_spec
  = ret (Some (JObject
                 (dict_set (lit "_meta") (meta_of timeline_spec)
                    [(lit "project_type", JString (lit "web"))]))).
Proof.
  destruct (generate_diagram_data_defaults_to_sequence
              (services := sequence_only_services) small_agent timeline_spec
              (_create_documents small_files) small_repo eq_refl eq_refl)
    as (Hroute & _ & _).
  rewrite (Hroute (lit "Timeline") eq_refl);
    [vm_compute; reflexivity | vm_compute; discriminate ..].
Defined.

End AgentFacts.

(** ** More on validation *)

Module ValidateMore.
Import CallFacts DiagramGenerator Schema ValidateFacts Samples Samples2.

Lemma check_nodes_result (i : nat) (nodes : list json) :
  result (check_nodes i nodes) = Return (forallb node_ok nodes).
Proof.
  revert i. induction nodes as [|node nodes IH]; intros i; [reflexivity|].
  cbn [check_nodes forallb]. destruct node; try reflexivity.
  cbn [node_ok]. destruct (dict_in (lit "id") members); [apply IH | reflexivity].
Qed.

Lemma check_edges_result (i : nat) (edges : list json) :
  result (check_edges i edges) = Return (forallb edge_ok edges).
Proof.
  revert i. induction edges as [|edge edges IH]; intros i; [reflexivity|].
  cbn [check_edges forallb]. destruct edge; try reflexivity.
  cbn [edge_ok].
  destruct (dict_in (lit "source") members && dict_in (lit "target") members);
    [apply IH | reflexivity].
Qed.

(** The Graph/Mindmap branch accepts exactly the dicts of that shape. *)
Lemma validate_graph_result (d : dict) :
  result (validate_graph (JObject d)) =
    Return (if graph_ok d then Some (JObject d) else None).
Proof.
  unfold validate_graph, graph_ok.
  rewrite result_bind, check_required_object.
  destruct (forallb (fun f => dict_in f d) required_fields); [|reflexivity].
  cbn [negb andb]. unfold py_get, py_getitem. rewrite bind_ret_l.
  destruct (dict_get (lit "nodes") d) as [[]|]; try reflexivity.
  cbn [is_list negb]. rewrite bind_ret_l. cbn [list_items].
  rewrite result_bind, check_nodes_result.
  destruct (forallb node_ok items); [|reflexivity].
  cbn [negb andb]. rewrite bind_ret_l.
  destruct (dict_get (lit "edges") d) as [[]|]; try reflexivity.
  cbn [is_list negb]. rewrite bind_ret_l. cbn [list_items].
  rewrite result_bind, check_edges_result.
  destruct (forallb edge_ok items0); reflexivity.
Qed.

Ltac bind_inv H :=
  let a := fresh "a" in
  let Ha := fresh "Ha" in
  apply bind_result_inv in H as (a & Ha & H).

Ltac not_some H :=
  solve [ unfold bind, print, ret in H; simpl in H; discriminate H ].

Lemma validate_sequence_some (data v : json) :
  result (validate_sequence data) = Return (Some v) -> v = data.
Proof.
  unfold validate_sequence. intros H. bind_inv H.
  destruct (negb (is_list a)); [not_some H|]. bind_inv H.
  destruct (negb (is_list a0)); [not_some H|].
  injection H as <-. reflexivity.
Qed.

Lemma validate_graph_some (data v : json) :
  result (validate_graph data) = Return (Some v) -> v = data.
Proof.
  unfold validate_graph. intros H. bind_inv H.
  destruct (negb a); [not_some H|]. bind_inv H.
  destruct (negb (is_list a0)); [not_some H|]. bind_inv H. bind_inv H.
  destruct (negb a2); [not_some H|]. bind_inv H.
  destruct (negb (is_list a3)); [not_some H|]. bind_inv H. bind_inv H.
  destruct (negb a5); [not_some H|].
  injection H as <-. reflexivity.
Qed.

Lemma validate_data_some (data v : json) :
  result (validate_data data) = Return (Some v) -> v = data.
Proof.
  unfold validate_data. intros H. bind_inv H. bind_inv H.
  destruct a0; [apply validate_sequence_some; exact H|]. bind_inv H.
  destruct a0; [injection H as <-; reflexivity|].
  apply validate_graph_some. exact H.
Qed.

(** X1.  [validate_json] raises nothing when the extracted text decodes
    to an object, whatever the object holds: every check of the three
    schemas ends by returning. *)
Theorem validate_json_ends_without_exception {interp : Interpreter}
    (json_str : str) (d : dict) :
  json_loads (extract_json json_str) = Some (JObject d) ->
  returns (validate_json json_str).
Proof.
  intros Hd. apply validate_json_returns. right. eauto.
Qed.

Lemma validate_json_ends_without_exception_witness :
  returns (validate_json bad_graph_text).
Proof.
  apply (validate_json_ends_without_exception bad_graph_text
           (decoded bad_graph_text)).
  vm_compute. reflexivity.
Defined.

(** X2.  What [validate_json] returns on success is the decoded value
    itself: nothing is added, dropped or coerced. *)
Theorem validate_json_returns_decoded_value {interp : Interpreter}
    (json_str : str) (v : json) :
  result (validate_json json_str) = Return (Some v) ->
  json_loads (extract_json json_str) = Some v.
Proof.
  destruct (loads (extract_json json_str)) as [data|e] eqn:E.
  - apply json_loads_returned in E.
    rewrite (validate_json_decoded _ _ E).
    intros H. apply validate_data_some in H. congruence.
  - rewrite (validate_json_raised _ _ E).
    destruct (is_decode_error e); discriminate.
Qed.

Lemma validate_json_returns_decoded_value_witness :
  json_loads (extract_json graph_text) = Some (JObject (decoded graph_text)).
Proof.
  apply validate_json_returns_decoded_value. vm_compute. reflexivity.
Defined.

(** X3.  When the Graph/Mindmap schema decides (a decoded object without
    both Sequence keys and without 'mermaid_syntax'), the object is
    returned exactly when 'nodes', 'hierarchy' and 'edges' are present,
    'nodes' is a list of objects each bearing 'id' and 'edges' a list of
    objects each bearing 'source' and 'target'; otherwise [None] is
    returned.  The value of 'hierarchy' is never looked at. *)
Theorem validate_json_graph_schema {interp : Interpreter}
    (json_str : str) (d : dict) :
  json_loads (extract_json json_str) = Some (JObject d) ->
  dict_in (lit "participants") d && dict_in (lit "events") d = false ->
  dict_in (lit "mermaid_syntax") d = false ->
  result (validate_json json_str) =
    Return (if graph_ok d then Some (JObject d) else None).
Proof.
  intros Hd Hseq Htl. rewrite (validate_json_decoded _ _ Hd).
  rewrite validate_data_object, Hseq, Htl. apply validate_graph_result.
Qed.

Lemma validate_json_graph_schema_witness :
  result (validate_json graph_text) = Return (Some (JObject (decoded graph_text)))
  /\ result (validate_json bad_graph_text) = Return None.
Proof.
  split.
  - etrans;
      [apply (validate_json_graph_schema graph_text (decoded graph_text))
      |]; vm_compute; reflexivity.
  - etrans;
      [apply (validate_json_graph_schema bad_graph_text
                (decoded bad_graph_text))
      |]; vm_compute; reflexivity.
Defined.

(** X4.  An object with both 'participants' and 'events' is judged as a
    Sequence and as nothing else: if one of the two is not a list, the
    object is rejected with the matching message, even when it also
    holds 'mermaid_syntax' or a complete Graph. *)
Theorem validate_json_sequence_rejects {interp : Interpreter}
    (json_str : str) (d : dict) :
  json_loads (extract_json json_str) = Some (JObject d) ->
  dict_in (lit "participants") d = true ->
  dict_in (lit "events") d = true ->
  (is_list (dict_get (lit "participants") d) = false ->
   validate_json json_str =
     ([lit "Validation Error: 'participants' must be a list"], Return None))
  /\ (is_list (dict_get (lit "participants") d) = true ->
      is_list (dict_get (lit "events") d) = false ->
      validate_json json_str =
        ([lit "Validation Error: 'events' must be a list"], Return None)).
Proof.
  intros Hd Hp He. rewrite (validate_json_decoded _ _ Hd).
  rewrite validate_data_object, Hp, He. cbn [andb].
  unfold validate_sequence, py_get. rewrite bind_ret_l. split.
  - intros ->. reflexivity.
  - intros -> Hne. cbn [negb]. rewrite bind_ret_l, Hne. reflexivity.
Qed.

Lemma validate_json_sequence_rejects_witness :
  validate_json spoilt_timeline_text =
    ([lit "Validation Error: 'participants' must be a list"], Return None).
Proof.
  assert (Hd : json_loads (extract_json spoilt_timeline_text)
               = Some (JObject (decoded spoilt_timeline_text)))
    by (vm_compute; reflexivity).
  assert (Hp : dict_in (lit "participants") (decoded spoilt_timeline_text) = true)
    by (vm_compute; reflexivity).
  assert (He : dict_in (lit "events") (decoded spoilt_timeline_text) = true)
    by (vm_compute; reflexivity).
  destruct (validate_json_sequence_rejects _ _ Hd Hp He) as [H _].
  apply H. vm_compute. reflexivity.
Defined.

End ValidateMore.

(** ** The extraction *)

Module ExtractFacts.
Import PyFacts DiagramGenerator Schema Samples Samples2.

Lemma up_to_last_close_none (s : str) :
  up_to_last_close s = None -> ~ In 125%N s.
Proof.
  induction s as [|c s IH]; simpl; [tauto|].
  destruct (up_to_last_close s); [discriminate|].
  destruct (N.eqb_spec c 125); [discriminate|].
  intros _ [Hc | Hin]; [congruence | exact (IH eq_refl Hin)].
Qed.

Lemma up_to_last_close_some (s : str) :
  In 125%N s -> up_to_last_close s <> None.
Proof.
  induction s as [|c s IH]; simpl; [tauto|].
  intros [-> | Hin].
  - destruct (up_to_last_close s); discriminate.
  - destruct (up_to_last_close s); [discriminate | tauto].
Qed.

Lemma up_to_last_close_spec (s t : str) :
  up_to_last_close s = Some t ->
  exists body post, t = body ++ [125%N] /\ s = t ++ post /\ ~ In 125%N post.
Proof.
  revert t. induction s as [|c s IH]; intros t; simpl; [discriminate|].
  destruct (up_to_last_close s) as [t'|] eqn:E.
  - intros [= <-]. destruct (IH t' eq_refl) as (body & post & -> & Hs & Hp).
    exists (c :: body), post. split; [reflexivity|]. split; [|exact Hp].
    simpl. f_equal. exact Hs.
  - destruct (N.eqb_spec c 125) as [-> | _]; [|discriminate].
    intros [= <-]. exists [], s. split; [reflexivity|]. split; [reflexivity|].
    apply up_to_last_close_none. exact E.
Qed.

Lemma search_brace_needs_close (s : str) :
  ~ In 125%N s -> search_brace s = None.
Proof.
  induction s as [|c s IH]; simpl; [reflexivity|]. intros Hn.
  assert (Hs : ~ In 125%N s) by tauto.
  destruct (N.eqb c 123); [|apply IH; exact Hs].
  destruct (up_to_last_close s) eqn:E; [|apply IH; exact Hs].
  exfalso. apply (up_to_last_close_some s); [|].
  - destruct (up_to_last_close_spec _ _ E) as (body & post & -> & -> & _).
    rewrite !in_app_iff. left. right. left. reflexivity.
  - destruct (up_to_last_close_spec _ _ E) as (body & post & -> & Hs' & _).
    exfalso. apply Hs. rewrite Hs', !in_app_iff. left. right. left. reflexivity.
Qed.

Lemma search_brace_parts (text : str) :
  match search_brace text with
  | Some g => exists pre post, text = pre ++ g ++ post
  | None => True
  end.
Proof.
  destruct (search_brace text) as [g|] eqn:E; [|exact I].
  revert g E. induction text as [|c s IH]; intros g; simpl; [discriminate|].
  assert (Hrec : search_brace s = Some g -> exists pre post, c :: s = pre ++ g ++ post).
  { intros Hg. destruct (IH g Hg) as (pre & post & ->).
    exists (c :: pre), post. reflexivity. }
  destruct (N.eqb c 123); [|exact Hrec].
  destruct (up_to_last_close s) as [t|] eqn:Et; [|exact Hrec].
  intros [= <-]. destruct (up_to_last_close_spec _ _ Et) as (body & post & _ & Hs & _).
  exists [], post. simpl. f_equal. exact Hs.
Qed.

Lemma search_brace_found (text g : str) :
  search_brace text = Some g ->
  exists pre body post,
    text = pre ++ g ++ post /\ g = 123%N :: body ++ [125%N]
    /\ ~ In 123%N pre /\ ~ In 125%N post.
Proof.
  revert g. induction text as [|c s IH]; intros g; simpl; [discriminate|].
  destruct (N.eqb_spec c 123) as [-> | Hc].
  - destruct (up_to_last_close s) as [t|] eqn:Et.
    + intros [= <-].
      destruct (up_to_last_close_spec _ _ Et) as (body & post & -> & Hs & Hp).
      exists [], body, post. split; [simpl; f_equal; exact Hs|].
      split; [reflexivity|]. split; [intros []| exact Hp].
    + intros Hg. rewrite search_brace_needs_close in Hg; [discriminate|].
      apply up_to_last_close_none. exact Et.
  - intros Hg. destruct (IH g Hg) as (pre & body & post & -> & -> & Hpre & Hpost).
    exists (c :: pre), body, post. split; [reflexivity|].
    split; [reflexivity|]. split; [|exact Hpost].
    intros [Heq | Hin]; [congruence | tauto].
Qed.

Lemma search_brace_not_found (text : str) :
  search_brace text = None ->
  forall a b c, text <> a ++ 123%N :: b ++ 125%N :: c.
Proof.
  intros E a. revert text E. induction a as [|x a IH]; intros text E b c ->;
    simpl in E.
  - destruct (up_to_last_close (b ++ 125%N :: c)) eqn:Et; [discriminate|].
    apply (up_to_last_close_some (b ++ 125%N :: c)); [|exact Et].
    rewrite in_app_iff. right. left. reflexivity.
  - destruct (N.eqb x 123).
    + destruct (up_to_last_close (a ++ 123%N :: b ++ 125%N :: c)) eqn:Et;
        [discriminate|].
      apply (up_to_last_close_some (a ++ 123%N :: b ++ 125%N :: c)); [|exact Et].
      rewrite !in_app_iff. right. right. rewrite in_app_iff. right. left.
      reflexivity.
    + apply (IH _ E b c). reflexivity.
Qed.

(** The part before the first occurrence of a character, and the part
    after its last occurrence, are determined by the text. *)
Lemma first_occurrence_unique (x : char) (l1 r1 l2 r2 : str) :
  l1 ++ x :: r1 = l2 ++ x :: r2 -> ~ In x l1 -> ~ In x l2 ->
  l1 = l2 /\ r1 = r2.
Proof.
  revert l2. induction l1 as [|a l1 IH]; intros [|b l2]; simpl.
  - intros [= ->]. split; reflexivity.
  - intros [= <- _] _ Hn. tauto.
  - intros [= -> _] Hn _. tauto.
  - intros [= -> H] Hn1 Hn2.
    destruct (IH l2 H) as [-> ->]; [tauto | tauto | split; reflexivity].
Qed.

Lemma last_occurrence_unique (x : char) (l1 r1 l2 r2 : str) :
  l1 ++ x :: r1 = l2 ++ x :: r2 -> ~ In x r1 -> ~ In x r2 ->
  l1 = l2 /\ r1 = r2.
Proof.
  intros H Hn1 Hn2.
  assert (Hrev : rev r1 ++ x :: rev l1 = rev r2 ++ x :: rev l2).
  { apply (f_equal (@rev char)) in H. rewrite !rev_app_distr in H.
    simpl in H. rewrite <- !app_assoc in H. exact H. }
  destruct (first_occurrence_unique _ _ _ _ _ Hrev) as [Hr Hl];
    [rewrite <- in_rev; exact Hn1 | rewrite <- in_rev; exact Hn2 |].
  split.
  - rewrite <- (rev_involutive l1), Hl. apply rev_involutive.
  - rewrite <- (rev_involutive r1), Hr. apply rev_involutive.
Qed.

(** The brace span is the text between the first opening brace and the
    last closing brace, however the text is cut. *)
Lemma search_brace_unique (pre body post : str) :
  ~ In 123%N pre -> ~ In 125%N post ->
  search_brace (pre ++ 123%N :: body ++ 125%N :: post)
  = Some (123%N :: body ++ [125%N]).
Proof.
  intros Hpre Hpost.
  destruct (search_brace (pre ++ 123%N :: body ++ 125%N :: post)) as [g|] eqn:E.
  - destruct (search_brace_found _ _ E)
      as (pre' & body' & post' & Htext & -> & Hpre' & Hpost').
    f_equal. f_equal.
    assert (H1 : pre ++ 123%N :: (body ++ 125%N :: post)
                 = pre' ++ 123%N :: (body' ++ 125%N :: post')).
    { rewrite Htext. simpl. rewrite <- app_assoc. reflexivity. }
    destruct (first_occurrence_unique _ _ _ _ _ H1 Hpre Hpre') as [_ H2].
    destruct (last_occurrence_unique _ _ _ _ _ H2 Hpost Hpost') as [H3 _].
    congruence.
  - exfalso. exact (search_brace_not_found _ E pre body post eq_refl).
Qed.

(** X5.  The fallback extraction takes the text from the first opening
    brace to the last closing brace: nothing before the span holds an
    opening brace, nothing after it a closing one; and it finds nothing
    only when no opening brace is followed by a closing one. *)
Theorem search_brace_span (text : str) :
  match search_brace text with
  | Some g =>
      exists pre body post,
        text = pre ++ g ++ post /\ g = 123%N :: body ++ [125%N]
        /\ ~ In 123%N pre /\ ~ In 125%N post
  | None => forall a b c, text <> a ++ 123%N :: b ++ 125%N :: c
  end.
Proof.
  destruct (search_brace text) as [g|] eqn:E.
  - apply search_brace_found. exact E.
  - apply search_brace_not_found. exact E.
Qed.

Lemma skip_space_split (s : str) :
  exists ws, s = ws ++ skip_space s /\ forallb is_space ws = true.
Proof.
  induction s as [|c s (ws & Hs & Hws)]; [exists []; split; reflexivity|].
  simpl. destruct (is_space c) eqn:E.
  - exists (c :: ws). split; [simpl; f_equal; exact Hs|].
    simpl. rewrite E. exact Hws.
  - exists []. split; reflexivity.
Qed.

(** The lazy group ends at the first closing brace that is followed by
    optional whitespace and a fence. *)
Lemma fenced_body_spec (s acc g : str) :
  fenced_body s acc = Some g ->
  exists body rest,
    g = rev acc ++ body ++ [125%N] /\ s = body ++ 125%N :: rest
    /\ starts_with fence (skip_space rest) = true
    /\ forall b r, body = b ++ 125%N :: r ->
         starts_with fence (skip_space (r ++ 125%N :: rest)) = false.
Proof.
  revert acc. induction s as [|c s IH]; intros acc; cbn [fenced_body];
    [discriminate|].
  destruct ((c =? 125)%N && starts_with fence (skip_space s)) eqn:E.
  - intros [= <-]. apply andb_true_iff in E as [Ec Ef].
    apply N.eqb_eq in Ec. subst c.
    exists [], s. split; [reflexivity|]. split; [reflexivity|].
    split; [exact Ef|]. intros [|x b] r Hb; discriminate Hb.
  - intros Hg. destruct (IH _ Hg) as (body & rest & -> & -> & Hf & Hlazy).
    exists (c :: body), rest. simpl. rewrite <- app_assoc.
    split; [reflexivity|]. split; [reflexivity|]. split; [exact Hf|].
    intros [|x b] r Hb; injection Hb as Hx Hb.
    + subst c r. rewrite N.eqb_refl in E. exact E.
    + apply (Hlazy b r). exact Hb.
Qed.

Lemma match_fenced_at_spec (s g : str) :
  match_fenced_at s = Some g ->
  exists ws1 body ws2 post,
    s = fence_json ++ ws1 ++ g ++ ws2 ++ fence ++ post
    /\ g = 123%N :: body ++ [125%N]
    /\ forallb is_space ws1 = true /\ forallb is_space ws2 = true
    /\ forall b r, body = b ++ 125%N :: r ->
         starts_with fence (skip_space (r ++ 125%N :: ws2 ++ fence ++ post)) = false.
Proof.
  unfold match_fenced_at. destruct (starts_with fence_json s) eqn:Ef; [|discriminate].
  apply starts_with_split in Ef.
  destruct (skip_space_split (drop (length fence_json) s)) as (ws1 & Hs1 & Hws1).
  destruct (skip_space (drop (length fence_json) s)) as [|c r] eqn:Er; [discriminate|].
  destruct (N.eqb_spec c 123) as [-> | _]; [|discriminate].
  intros Hg. destruct (fenced_body_spec _ _ _ Hg) as (body & rest & -> & -> & Hf & Hlazy).
  destruct (skip_space_split rest) as (ws2 & Hs2 & Hws2).
  apply starts_with_split in Hf.
  exists ws1, body, ws2, (drop (length fence) (skip_space rest)).
  split.
  - etransitivity; [exact Ef|]. f_equal.
    etransitivity; [exact Hs1|]. f_equal. simpl. f_equal.
    rewrite <- app_assoc. f_equal. simpl. f_equal.
    etransitivity; [exact Hs2|]. f_equal. exact Hf.
  - split; [reflexivity|]. split; [exact Hws1|]. split; [exact Hws2|].
    intros b r0 Hb. rewrite <- Hf, <- Hs2. apply (Hlazy b r0 Hb).
Qed.

Lemma search_fenced_group_parts (text g : str) :
  search_fenced text = Some g -> exists pre post, text = pre ++ g ++ post.
Proof.
  induction text as [|c s IH]; cbn [search_fenced].
  - destruct (match_fenced_at []) eqn:E; [|discriminate]. intros [= <-].
    destruct (match_fenced_at_spec _ _ E) as (ws1 & body & ws2 & post & -> & _).
    exists (fence_json ++ ws1), (ws2 ++ fence ++ post).
    rewrite <- !app_assoc. reflexivity.
  - destruct (match_fenced_at (c :: s)) eqn:E.
    + intros [= <-].
      destruct (match_fenced_at_spec _ _ E) as (ws1 & body & ws2 & post & -> & _).
      exists (fence_json ++ ws1), (ws2 ++ fence ++ post).
      rewrite <- !app_assoc. reflexivity.
    + intros Hg. destruct (IH Hg) as (pre & post & ->).
      exists (c :: pre), post. reflexivity.
Qed.

(** X6.  What the fenced extraction returns is a brace-delimited group
    of the text that stands between an opening json fence and a closing
    fence, with nothing but whitespace around it; and it is the shortest
    such group: no earlier closing brace of the group is followed by
    optional whitespace and a fence. *)
Theorem search_fenced_group (text g : str) :
  search_fenced text = Some g ->
  exists pre ws1 body ws2 post,
    text = pre ++ fence_json ++ ws1 ++ g ++ ws2 ++ fence ++ post
    /\ g = 123%N :: body ++ [125%N]
    /\ forallb is_space ws1 = true /\ forallb is_space ws2 = true
    /\ forall b r, body = b ++ 125%N :: r ->
         starts_with fence (skip_space (r ++ 125%N :: ws2 ++ fence ++ post)) = false.
Proof.
  induction text as [|c s IH]; cbn [search_fenced].
  - destruct (match_fenced_at []) eqn:E; [|discriminate]. intros [= <-].
    destruct (match_fenced_at_spec _ _ E) as (ws1 & body & ws2 & post & H).
    exists [], ws1, body, ws2, post. exact H.
  - destruct (match_fenced_at (c :: s)) eqn:E.
    + intros [= <-].
      destruct (match_fenced_at_spec _ _ E) as (ws1 & body & ws2 & post & H).
      exists [], ws1, body, ws2, post. exact H.
    + intros Hg.
      destruct (IH Hg) as (pre & ws1 & body & ws2 & post & -> & H).
      exists (c :: pre), ws1, body, ws2, post. split; [reflexivity | exact H].
Qed.

Lemma search_fenced_group_witness :
  exists pre ws1 body ws2 post,
    sequence_and_timeline_text = pre ++ fence_json ++ ws1
      ++ (123%N :: body ++ [125%N]) ++ ws2 ++ fence ++ post
    /\ search_fenced sequence_and_timeline_text = Some (123%N :: body ++ [125%N]).
Proof.
  destruct (search_fenced sequence_and_timeline_text) as [g|] eqn:E;
    [|vm_compute in E; discriminate E].
  destruct (search_fenced_group _ _ E)
    as (pre & ws1 & body & ws2 & post & H1 & -> & _).
  exists pre, ws1, body, ws2, post. split; [exact H1 | reflexivity].
Defined.

Lemma search_fenced_braces (text g : str) :
  search_fenced text = Some g ->
  exists a b c, text = a ++ 123%N :: b ++ 125%N :: c.
Proof.
  intros Hg. destruct (search_fenced_group_parts _ _ Hg) as (pre & post & ->).
  assert (Hat : forall s, match_fenced_at s = Some g ->
                  exists body, g = 123%N :: body ++ [125%N]).
  { intros s0 E.
    destruct (match_fenced_at_spec _ _ E) as (_ & body & _ & _ & _ & H & _).
    eauto. }
  assert (Hbody : exists body, g = 123%N :: body ++ [125%N]).
  { clear - Hg Hat. revert Hg.
    generalize (pre ++ g ++ post) at 1. intros text.
    induction text as [|c s IH]; cbn [search_fenced].
    - destruct (match_fenced_at []) eqn:E; [|discriminate].
      intros [= <-]. apply (Hat _ E).
    - destruct (match_fenced_at (c :: s)) eqn:E; [|exact IH].
      intros [= <-]. apply (Hat _ E). }
  destruct Hbody as [body ->]. exists pre, body, post.
  simpl. rewrite <- app_assoc. reflexivity.
Qed.

(** X7.  What the extraction hands to the decoder: the fenced group when
    there is one; without one, the text from the first opening brace to
    the last closing brace, however the text is cut around them; and
    the whole text when no opening brace is followed by a closing one.
    In each case it is a contiguous part of the model's text. *)
Theorem extract_json_is_part (text : str) :
  (forall g, search_fenced text = Some g -> extract_json text = g)
  /\ (search_fenced text = None ->
      forall pre body post,
        text = pre ++ 123%N :: body ++ 125%N :: post ->
        ~ In 123%N pre -> ~ In 125%N post ->
        extract_json text = 123%N :: body ++ [125%N])
  /\ ((forall a b c, text <> a ++ 123%N :: b ++ 125%N :: c) ->
      extract_json text = text)
  /\ exists pre post, text = pre ++ extract_json text ++ post.
Proof.
  split_and!.
  - intros g Hg. unfold extract_json. rewrite Hg. reflexivity.
  - intros Hf pre body post -> Hpre Hpost. unfold extract_json.
    rewrite Hf, (search_brace_unique _ _ _ Hpre Hpost). reflexivity.
  - intros Hnone. unfold extract_json.
    destruct (search_fenced text) as [g|] eqn:Ef.
    + destruct (search_fenced_braces _ _ Ef) as (a & b & c & H).
      destruct (Hnone a b c H).
    + destruct (search_brace text) as [g|] eqn:Eb; [|reflexivity].
      destruct (search_brace_found _ _ Eb) as (pre & body & post & H & -> & _).
      destruct (Hnone pre body post).
      rewrite H at 1. simpl. rewrite <- app_assoc. reflexivity.
  - unfold extract_json. destruct (search_fenced text) as [g|] eqn:Ef.
    + destruct (search_fenced_group_parts text g Ef) as (pre & post & H).
      exists pre, post. exact H.
    + pose proof (search_brace_parts text) as Hb.
      destruct (search_brace text) as [g|].
      * exact Hb.
      * exists [], []. rewrite app_nil_r. reflexivity.
Qed.

Lemma extract_json_is_part_witness :
  extract_json object_reply
  = 123%N :: (quoted "project_type" ++ lit ": " ++ quoted "web") ++ [125%N]
  /\ extract_json refusal = refusal.
Proof.
  split.
  - destruct (extract_json_is_part object_reply) as (_ & H & _).
    apply (H eq_refl (lit "Here: ")
             (quoted "project_type" ++ lit ": " ++ quoted "web") []);
      [reflexivity | vm_compute; intuition discriminate | intros []].
  - destruct (extract_json_is_part refusal) as (_ & _ & H & _).
    apply H. intros a b c Heq.
    assert (Hin : In 123%N refusal)
      by (rewrite Heq, in_app_iff; right; left; reflexivity).
    vm_compute in Hin. intuition discriminate.
Defined.

End ExtractFacts.

(** ** More on injection *)

Module InjectMore.
Import PyFacts CallFacts DiagramGenerator InjectFacts Samples Samples2.

Lemma escape_head (c : char) (s : str) :
  exists t, escape_close_tags (c :: s) = c :: t.
Proof.
  cbn [escape_close_tags]. destruct s as [|c' s']; [eauto|].
  destruct ((c =? 60)%N && (c' =? 47)%N) eqn:E; [|eauto].
  apply andb_true_iff in E as [Ec _]. apply N.eqb_eq in Ec. subst c. eauto.
Qed.

Lemma escape_no_close_tag (n : nat) (s : str) :
  (length s <= n)%nat ->
  forall k, starts_with close_tag (drop k (escape_close_tags s)) = false.
Proof.
  revert s. induction n as [|n IH]; intros s Hn k.
  { destruct s; [destruct k; reflexivity | simpl in Hn; lia]. }
  destruct s as [|c [|c' s2]].
  - destruct k; reflexivity.
  - destruct k as [|[|k]]; simpl; try reflexivity.
    rewrite andb_false_r. reflexivity.
  - change (escape_close_tags (c :: c' :: s2))
      with (if ((c =? 60) && (c' =? 47))%N
            then 60%N :: 92%N :: 47%N :: escape_close_tags s2
            else c :: escape_close_tags (c' :: s2)).
    destruct ((c =? 60)%N && (c' =? 47)%N) eqn:E.
    + destruct k as [|[|[|k]]]; try reflexivity.
      change (drop (S (S (S k))) (60%N :: 92%N :: 47%N :: escape_close_tags s2))
        with (drop k (escape_close_tags s2)).
      apply IH. simpl in Hn. lia.
    + destruct k as [|k].
      * destruct (escape_head c' s2) as [t Ht].
        replace (escape_close_tags (c' :: s2)) with (c' :: t)
          by (symmetry; exact Ht).
        cbn [drop close_tag lit list_ascii_of_string map starts_with].
        change (N_of_ascii "<") with 60%N. change (N_of_ascii "/") with 47%N.
        destruct (N.eqb_spec 60 c) as [<- | _]; [|reflexivity].
        simpl in E. rewrite (N.eqb_sym 47 c'), E. reflexivity.
      * change (drop (S k) (c :: escape_close_tags (c' :: s2)))
          with (drop k (escape_close_tags (c' :: s2))).
        apply IH. simpl in *. lia.
Qed.

Lemma occurrence_found (p s : str) (n : nat) :
  starts_with p (drop n s) = true -> exists m, index_of p s = Some m.
Proof.
  revert n. induction s as [|c s IH]; intros n H.
  - rewrite drop_nil in H. simpl. rewrite H. eauto.
  - simpl. destruct (starts_with p (c :: s)) eqn:E; [eauto|].
    destruct n as [|n]; [simpl in H; congruence|].
    destruct (IH n H) as [m ->]. simpl. eauto.
Qed.

(** X8.  The text spliced into the template never holds the two
    characters that open a closing tag: whatever the payload, every such
    pair of the JSON text has been escaped. *)
Theorem serialize_has_no_close_tag {interp : Interpreter}
    (json_data : json) :
  str_find (serialize json_data) (lit "</") = -1.
Proof.
  apply str_find_absent.
  destruct (index_of (lit "</") (serialize json_data)) as [m|] eqn:E;
    [|reflexivity].
  apply index_of_first in E as (E & _ & _). unfold serialize in E.
  pose proof (escape_no_close_tag (length (json_dumps json_data))
                (json_dumps json_data) (le_n _) m) as H.
  unfold close_tag in H. congruence.
Qed.

(** X9.  An injected artifact holds both markers again, whatever the
    order of the markers in the template and whatever the payload: a
    further injection into it never takes the not-found branch. *)
Theorem injected_artifact_keeps_markers {interp : Interpreter}
    (T : str) (D D' : json) :
  str_find T start_marker <> -1 ->
  str_find T end_marker <> -1 ->
  exists artifact,
    inject_data_into_html T D = ([], Return artifact)
    /\ str_find artifact start_marker <> -1
    /\ str_find artifact end_marker <> -1
    /\ exists artifact', inject_data_into_html artifact D' = ([], Return artifact').
Proof.
  intros Hs He.
  pose proof (str_find_present _ _ Hs) as Hi.
  pose proof (str_find_present _ _ He) as Hj.
  set (i := Z.to_nat (str_find T start_marker)) in *.
  set (j := Z.to_nat (str_find T end_marker)) in *.
  set (post := drop (j + length end_marker) T).
  set (artifact := take i T ++ new_block (serialize D) ++ post).
  assert (Hs' : exists m, index_of start_marker artifact = Some m).
  { apply (occurrence_found _ _ (length (take i T))).
    unfold artifact. rewrite drop_app_length. apply new_block_starts. }
  assert (He' : exists m, index_of end_marker artifact = Some m).
  { apply (occurrence_found _ _
             (length (take i T)
              + (length block_head + (length (serialize D) + length block_tail)))).
    unfold artifact. rewrite new_block_parts, <- !app_assoc.
    rewrite !drop_app_add, drop_app_length. apply starts_with_app. }
  destruct Hs' as [m Hm]. destruct He' as [m' Hm'].
  exists artifact. split; [apply (inject_found T D i j Hi Hj)|].
  split; [unfold str_find; rewrite Hm; lia|].
  split; [unfold str_find; rewrite Hm'; lia|].
  eexists. apply (inject_found artifact D' m m' Hm Hm').
Qed.

Lemma injected_artifact_keeps_markers_witness :
  exists artifact artifact',
    inject_data_into_html reversed_template sample_data = ([], Return artifact)
    /\ inject_data_into_html artifact other_data = ([], Return artifact').
Proof.
  assert (Hs : str_find reversed_template start_marker <> -1)
    by (vm_compute; discriminate).
  assert (He : str_find reversed_template end_marker <> -1)
    by (vm_compute; discriminate).
  destruct (injected_artifact_keeps_markers reversed_template sample_data
              other_data Hs He) as (artifact & H1 & _ & _ & artifact' & H2).
  exists artifact, artifact'. split; assumption.
Defined.

End InjectMore.

(** ** Sorting paths *)

Module SortFacts.
Import Py Orders.

Lemma str_leb_total (a b : str) : str_leb a b = true \/ str_leb b a = true.
Proof.
  revert b. induction a as [|x a IH]; intros [|y b]; simpl; auto.
  destruct (N.ltb_spec x y) as [Hxy | Hxy]; [left; reflexivity|].
  destruct (N.ltb_spec y x) as [Hyx | Hyx]; [right; reflexivity|].
  assert (x = y) by lia. subst y. rewrite N.eqb_refl. simpl. apply IH.
Qed.

Lemma str_leb_trans (a b c : str) :
  str_leb a b = true -> str_leb b c = true -> str_leb a c = true.
Proof.
  revert b c. induction a as [|x a IH]; intros [|y b] [|z c]; simpl; auto;
    try discriminate.
  rewrite !orb_true_iff, !andb_true_iff, !N.ltb_lt, !N.eqb_eq.
  intros [Hxy | [-> Hab]] [Hyz | [-> Hbc]].
  - left. lia.
  - left. exact Hxy.
  - left. exact Hyz.
  - right. split; [reflexivity | apply (IH b c Hab Hbc)].
Qed.

Lemma str_leb_antisym (a b : str) :
  str_leb a b = true -> str_leb b a = true -> a = b.
Proof.
  revert b. induction a as [|x a IH]; intros [|y b]; simpl; auto;
    try discriminate.
  rewrite !orb_true_iff, !andb_true_iff, !N.ltb_lt, !N.eqb_eq.
  intros [Hxy | [-> Hab]] [Hyx | [E Hba]]; try lia.
  f_equal. apply IH; assumption.
Qed.

#[local] Instance str_le_transitive : Transitive str_le.
Proof. intros a b c. apply str_leb_trans. Qed.

Lemma insert_sorted_str_permutation (x : str) (l : list str) :
  Permutation (insert_sorted str_leb x l) (x :: l).
Proof.
  induction l as [|y l IH]; simpl; [reflexivity|].
  destruct (str_leb x y); [reflexivity|].
  rewrite IH. apply perm_swap.
Qed.

Lemma py_sorted_str_permutation (l : list str) :
  Permutation (py_sorted str_leb l) l.
Proof.
  induction l as [|x l IH]; simpl; [reflexivity|].
  rewrite insert_sorted_str_permutation, IH. reflexivity.
Qed.

Lemma insert_sorted_str_sorted (x : str) (l : list str) :
  Sorted str_le l -> Sorted str_le (insert_sorted str_leb x l).
Proof.
  induction l as [|y l IH]; intros Hl; simpl.
  - repeat constructor.
  - destruct (str_leb x y) eqn:Hxy.
    + constructor; [exact Hl|]. constructor. exact Hxy.
    + assert (Hyx : str_le y x)
        by (destruct (str_leb_total x y); [congruence | assumption]).
      apply Sorted_inv in Hl as [Hl Hhd]. constructor; [apply IH; exact Hl|].
      destruct l as [|z l]; simpl.
      * constructor. exact Hyx.
      * destruct (str_leb x z); constructor.
        -- exact Hyx.
        -- apply HdRel_inv in Hhd. exact Hhd.
Qed.

Lemma py_sorted_str_sorted (l : list str) : Sorted str_le (py_sorted str_leb l).
Proof.
  induction l as [|x l IH]; simpl; [constructor|].
  apply insert_sorted_str_sorted. exact IH.
Qed.

(** [sorted] gives one list for all the orders of the same paths. *)
Lemma py_sorted_str_unique (l l' : list str) :
  Permutation l l' -> py_sorted str_leb l = py_sorted str_leb l'.
Proof.
  intros Hperm. apply (Sorted_unique_strong str_le).
  - intros a b _ _. apply str_leb_antisym.
  - apply py_sorted_str_sorted.
  - apply py_sorted_str_sorted.
  - rewrite !py_sorted_str_permutation. exact Hperm.
Qed.

End SortFacts.

(** ** More on the retrieval pipeline *)

Module RagMore.
Import CallFacts RagPipeline RagFacts SortFacts Samples Samples2.

Lemma filter_all {A} (f : A -> bool) (l : list A) :
  (forall x, In x l -> f x = true) -> List.filter f l = l.
Proof.
  induction l as [|x l IH]; intros H; simpl; [reflexivity|].
  rewrite (H x (or_introl eq_refl)). f_equal. apply IH.
  intros y Hy. apply H. right. exact Hy.
Qed.

Lemma filter_none {A} (f : A -> bool) (l : list A) :
  (forall x, In x l -> f x = false) -> List.filter f l = [].
Proof.
  induction l as [|x l IH]; intros H; simpl; [reflexivity|].
  rewrite (H x (or_introl eq_refl)). apply IH.
  intros y Hy. apply H. right. exact Hy.
Qed.

Lemma matches_source (p : str) (d : Document) :
  matches [(lit "source", p)] d = str_eqb (doc_source d) p.
Proof.
  unfold matches, metadata_str, doc_source. cbn [forallb fst snd].
  unfold str_eqb at 1. rewrite bool_decide_eq_true_2 by reflexivity.
  apply andb_true_r.
Qed.

Lemma imap_chunk_keys {B} (g : nat -> B -> Document) (n : nat) (l : list B) :
  (forall i c, chunk_key (g i c) = (n + i)%nat) ->
  map chunk_key (imap g l) = seq n (length l).
Proof.
  revert g n. induction l as [|x l IH]; intros g n Hg; [reflexivity|].
  rewrite imap_cons. simpl. f_equal; [rewrite Hg; lia|].
  apply IH. intros i c. simpl. rewrite Hg. lia.
Qed.

Lemma imap_page_content (g : nat -> str -> Document) (l : list str) :
  (forall i c, page_content (g i c) = c) ->
  map page_content (imap g l) = l.
Proof.
  revert g. induction l as [|x l IH]; intros g Hg; [reflexivity|].
  rewrite imap_cons. simpl. f_equal; [apply Hg|].
  apply IH. intros i c. apply Hg.
Qed.

Section Documents.
Context {libs : Libraries}.

Lemma file_documents_source (p : str) (fd : FileData) (d : Document) :
  In d (file_documents p fd) -> doc_source d = p.
Proof.
  unfold file_documents. destruct (1500 <? len (content fd)).
  - intros Hd. apply list_elem_of_In, elem_of_lookup_imap in Hd
      as (i & c & -> & _). reflexivity.
  - intros [<- | []]. reflexivity.
Qed.

Lemma create_documents_source (files : Files) (d : Document) :
  In d (_create_documents files) -> In (doc_source d) (map fst files).
Proof.
  unfold _create_documents. intros Hd.
  apply in_flat_map in Hd as ([p fd] & Hin & Hd). simpl in Hd.
  rewrite (file_documents_source p fd d Hd).
  apply (in_map fst files (p, fd) Hin).
Qed.

(** The documents of the store that the source filter keeps are those
    created from the file: the keys of a [dict] are pairwise different. *)
Lemma documents_of_create (files : Files) (p : str) (fd : FileData) :
  NoDup (map fst files) -> In (p, fd) files ->
  documents_of (_create_documents files) p = file_documents p fd.
Proof.
  unfold documents_of.
  induction files as [|[q fq] files IH]; intros Hnd Hin; [destruct Hin|].
  simpl in Hnd. apply NoDup_cons in Hnd as [Hq Hnd].
  change (_create_documents ((q, fq) :: files))
    with (file_documents q fq ++ _create_documents files).
  rewrite List.filter_app. destruct Hin as [Heq | Hin].
  - injection Heq as -> ->. rewrite filter_all, filter_none.
    + apply app_nil_r.
    + intros d Hd. rewrite matches_source. unfold str_eqb.
      apply bool_decide_eq_false_2. intros E. apply Hq.
      rewrite <- E. apply list_elem_of_In, create_documents_source, Hd.
    + intros d Hd. rewrite matches_source. unfold str_eqb.
      apply bool_decide_eq_true_2. apply (file_documents_source _ _ _ Hd).
  - rewrite filter_none, (IH Hnd Hin); [reflexivity|].
    intros d Hd. rewrite matches_source. unfold str_eqb.
    apply bool_decide_eq_false_2. intros E.
    rewrite (file_documents_source _ _ _ Hd) in E. subst q.
    apply Hq, list_elem_of_In. apply (in_map fst files (p, fd) Hin).
Qed.

Lemma file_documents_keys (p : str) (fd : FileData) :
  map chunk_key (file_documents p fd) = seq 0 (length (file_documents p fd)).
Proof.
  unfold file_documents. destruct (1500 <? len (content fd)); [|reflexivity].
  rewrite length_imap. apply imap_chunk_keys. reflexivity.
Qed.

Lemma file_documents_contents (p : str) (fd : FileData) :
  map page_content (file_documents p fd)
  = if 1500 <? len (content fd) then split_text (content fd)
    else [content fd].
Proof.
  unfold file_documents. destruct (1500 <? len (content fd)); [|reflexivity].
  apply imap_page_content. reflexivity.
Qed.

(** Documents of other sources do not count for a file. *)
Lemma documents_of_held (held docs : list Document) (p : str) :
  Forall (fun d => doc_source d <> p) held ->
  documents_of (held ++ docs) p = documents_of docs p.
Proof.
  intros Hheld. unfold documents_of. rewrite List.filter_app, filter_none;
    [reflexivity|].
  intros d Hd. rewrite matches_source. unfold str_eqb.
  apply bool_decide_eq_false_2.
  apply (proj1 (List.Forall_forall _ held) Hheld d Hd).
Qed.

Lemma build_index_returned (held : list Document) (self self' : RAGPipeline)
    (files : Files) (n : nat) :
  result (build_index held self files) = Return (self', n) ->
  vectorstore self' = Some (held ++ _create_documents files)
  /\ n = length (_create_documents files)
  /\ _create_documents files <> [].
Proof.
  rewrite build_index_result.
  destruct (_create_documents files) as [|d docs]; [discriminate|].
  intros H. injection H as <- <-. split_and!; [reflexivity .. | discriminate].
Qed.

(** X10.  What [_create_documents] makes of one file of the mapping:
    the documents carrying its path as source are those created from it,
    in order; a file of at most 1500 characters is one document with the
    whole content and no chunk key; a longer file gives one document per
    chunk of the splitter, in the splitter's order, numbered 0, 1, ...
    and each carrying the number of chunks. *)
Theorem create_documents_of_file (files : Files) (p : str) (fd : FileData) :
  NoDup (map fst files) -> In (p, fd) files ->
  let docs := documents_of (_create_documents files) p in
  let chunks := split_text (content fd) in
  Forall (fun d => file_type (metadata d) = _get_file_type p
                   /\ size (metadata d) = file_size fd
                   /\ directory (metadata d) = path_parent p
                   /\ filename (metadata d) = path_name p) docs
  /\ (len (content fd) <= 1500 ->
      map page_content docs = [content fd]
      /\ Forall (fun d => chunk_index (metadata d) = None
                          /\ total_chunks (metadata d) = None) docs)
  /\ (1500 < len (content fd) ->
      map page_content docs = chunks
      /\ map (fun d => chunk_index (metadata d)) docs
         = map Some (seq 0 (length chunks))
      /\ Forall (fun d => total_chunks (metadata d) = Some (length chunks)) docs).
Proof.
  intros Hnd Hin docs chunks. subst docs.
  rewrite (documents_of_create files p fd Hnd Hin).
  unfold file_documents. split_and!.
  - destruct (1500 <? len (content fd)).
    + apply Forall_forall. intros d Hd.
      apply elem_of_lookup_imap in Hd as (i & c & -> & _). auto.
    + repeat constructor.
  - intros Hlen. destruct (Z.ltb_spec 1500 (len (content fd))); [lia|].
    repeat constructor.
  - intros Hlen. destruct (Z.ltb_spec 1500 (len (content fd))); [|lia].
    fold chunks. split_and!.
    + apply imap_page_content. reflexivity.
    + generalize (length chunks) at 1. intros N.
      assert (G : forall (l : list str) (k : nat) (g : nat -> str -> Document),
                (forall i c, chunk_index (metadata (g i c)) = Some (k + i)%nat) ->
                map (fun d => chunk_index (metadata d)) (imap g l)
                = map Some (seq k (length l))).
      { induction l as [|x l IH]; intros k g Hg; [reflexivity|].
        rewrite imap_cons. simpl. f_equal; [rewrite Hg; f_equal; lia|].
        apply IH. intros i c. simpl. rewrite Hg. f_equal. lia. }
      apply (G chunks 0%nat). reflexivity.
    + apply Forall_forall. intros d Hd.
      apply elem_of_lookup_imap in Hd as (i & c & -> & _). reflexivity.
Qed.

(** X11.  After [build_index] has returned, [get_file_context] gives a
    file of the mapping back, provided that no document held by the
    collection before the call carries the path of the file (none does
    in a fresh process): the content itself for a file of at most 1500
    characters, and the chunks of the splitter, in order and joined by
    line breaks, for a longer file of at most 20 chunks, whatever the
    ranking of the store. *)
Theorem get_file_context_after_build_index (held : list Document)
    (self self' : RAGPipeline) (files : Files) (n : nat) (p : str)
    (fd : FileData) :
  result (build_index held self files) = Return (self', n) ->
  NoDup (map fst files) -> In (p, fd) files ->
  Forall (fun d => doc_source d <> p) held ->
  (len (content fd) <= 1500 ->
   get_file_context self' p = ([], Return (content fd)))
  /\ (1500 < len (content fd) ->
      (length (split_text (content fd)) <= 20)%nat ->
      get_file_context self' p
      = ([], Return (join [10%N] (split_text (content fd))))).
Proof.
  intros Hb Hnd Hin Hheld.
  destruct (build_index_returned _ _ _ _ _ Hb) as (Hs & _ & _).
  pose proof (get_file_context_in_order self' _ p Hs) as H. cbv zeta in H.
  rewrite (documents_of_held _ _ _ Hheld) in H.
  rewrite (documents_of_create files p fd Hnd Hin) in H.
  specialize (H (file_documents_keys p fd)).
  rewrite file_documents_contents in H.
  assert (Hl : length (file_documents p fd)
               = length (if 1500 <? len (content fd)
                         then split_text (content fd) else [content fd])).
  { rewrite <- (file_documents_contents p fd). symmetry. apply length_map. }
  rewrite Hl in H. split.
  - intros Hlen. destruct (Z.ltb_spec 1500 (len (content fd))); [lia|].
    apply H. simpl. lia.
  - intros Hlen Hn. destruct (Z.ltb_spec 1500 (len (content fd))); [|lia].
    apply H. exact Hn.
Qed.

(** X13.  The tree text of [get_file_structure] depends on the paths
    only, not on the order in which the mapping holds them: the paths
    are sorted before the tree is built. *)
Theorem get_file_structure_order_independent (files files' : Files) :
  Permutation (map fst files) (map fst files') ->
  get_file_structure files = get_file_structure files'.
Proof.
  intros Hperm. unfold get_file_structure.
  rewrite (py_sorted_str_unique (map fst files) (map fst files') Hperm).
  reflexivity.
Qed.

End Documents.

Lemma create_documents_of_file_witness :
  map page_content (documents_of (_create_documents two_files) (lit "main.py"))
  = [lit "class Foo: pass"]
  /\ map (fun d => chunk_index (metadata d))
       (documents_of (_create_documents two_files) (lit "src/long.py"))
     = [Some 0%nat; Some 1%nat].
Proof.
  assert (Hnd : NoDup (map fst two_files)) by compute_done.
  assert (Hmain : In (lit "main.py",
                      {| content := lit "class Foo: pass"; file_size := 15 |})
                    two_files) by (left; reflexivity).
  assert (Hlong : In (lit "src/long.py",
                      {| content := long_content; file_size := 1600 |})
                    two_files) by (right; left; reflexivity).
  assert (Hshort : len (lit "class Foo: pass") <= 1500)
    by (vm_compute; discriminate).
  split.
  - exact (proj1 (proj1 (proj2 (create_documents_of_file two_files _ _ Hnd Hmain))
                    Hshort)).
  - destruct (create_documents_of_file two_files _ _ Hnd Hlong) as (_ & _ & H).
    destruct H as (_ & H & _); [vm_compute; reflexivity | exact H].
Defined.

Lemma get_file_context_after_build_index_witness :
  let held := _create_documents guide_files in
  let self :=
    {| vectorstore := Some (held ++ _create_documents two_files) |} in
  get_file_context self (lit "main.py") = ([], Return (lit "class Foo: pass"))
  /\ get_file_context self (lit "src/long.py")
     = ([], Return (join [10%N] (split_text long_content))).
Proof.
  intros held self.
  assert (Hnd : NoDup (map fst two_files)) by compute_done.
  assert (Hb : result (build_index held fresh_pipeline two_files)
               = Return (self, 3%nat))
    by (vm_compute; reflexivity).
  assert (Hmain : In (lit "main.py",
                      {| content := lit "class Foo: pass"; file_size := 15 |})
                    two_files) by (left; reflexivity).
  assert (Hlong : In (lit "src/long.py",
                      {| content := long_content; file_size := 1600 |})
                    two_files) by (right; left; reflexivity).
  assert (Hheld : forall p, p <> lit "docs/guide.md" ->
                    Forall (fun d => doc_source d <> p) held)
    by (intros p Hp; repeat constructor; intros <-; apply Hp; reflexivity).
  assert (Hshort : len (lit "class Foo: pass") <= 1500)
    by (vm_compute; discriminate).
  assert (Hover : 1500 < len long_content) by (vm_compute; reflexivity).
  assert (Hfew : (length (split_text long_content) <= 20)%nat)
    by (vm_compute; lia).
  split.
  - refine (proj1 (get_file_context_after_build_index _ _ _ _ _ _ _
                     Hb Hnd Hmain (Hheld _ _)) Hshort).
    vm_compute. discriminate.
  - refine (proj2 (get_file_context_after_build_index _ _ _ _ _ _ _
                     Hb Hnd Hlong (Hheld _ _)) Hover Hfew).
    vm_compute. discriminate.
Defined.

Lemma get_file_structure_order_independent_witness :
  get_file_structure small_files = get_file_structure (rev small_files).
Proof.
  apply get_file_structure_order_independent. apply perm_swap.
Defined.

End RagMore.

(** ** More on the analysis agent *)

Module AgentMore.
Import CallFacts JsonFacts DiagramGenerator RagPipeline RepoAgent RagFacts.
Import AgentFacts ValidateMore Schema Stages Samples Samples2.

Lemma dict_get_set_same (key : str) (v : json) (d : dict) :
  dict_get key (dict_set key v d) = Some v.
Proof.
  induction d as [|[k x] d IH]; simpl.
  - unfold str_eqb. rewrite bool_decide_eq_true_2; reflexivity.
  - destruct (str_eqb k key) eqn:E; simpl; rewrite E; [reflexivity | exact IH].
Qed.

Lemma dict_get_set_other (key key' : str) (v : json) (d : dict) :
  key' <> key -> dict_get key' (dict_set key v d) = dict_get key' d.
Proof.
  intros Hne. induction d as [|[k x] d IH]; simpl.
  - unfold str_eqb. rewrite bool_decide_eq_false_2; [reflexivity|].
    intros E. apply Hne. symmetry. exact E.
  - destruct (str_eqb k key) eqn:E; simpl.
    + unfold str_eqb in *. apply bool_decide_eq_true_1 in E. subst k.
      rewrite bool_decide_eq_false_2; [reflexivity|].
      intros E. apply Hne. symmetry. exact E.
    + rewrite IH. reflexivity.
Qed.

Section Parsed.
Context {interp : Interpreter}.

(** X14.  The parser of the agent decodes the text that the extraction
    of [validate_json] takes, whenever a fenced block or a brace span
    exists, turning a [JSONDecodeError] into [None], and gives [None]
    without decoding anything otherwise; so it returns a value exactly
    when there is such a block or span and the text taken decodes to
    that value; and what it returns is always an object. *)
Theorem parse_json_response_agrees_with_extraction (response : str) :
  _parse_json_response response
  = (if has_json_span response then decode_or_none (extract_json response)
     else ret None)
  /\ (forall v,
        _parse_json_response response = ret (Some v)
        <-> has_json_span response = true
            /\ json_loads (extract_json response) = Some v)
  /\ (forall v, _parse_json_response response = ret (Some v) ->
        exists d, v = JObject d).
Proof.
  split_and!.
  - apply parse_json_response_result.
  - intros v. rewrite parse_json_response_result.
    unfold decode_or_none, json_loads.
    destruct (has_json_span response).
    + destruct (loads (extract_json response)) as [v0|e].
      * split; [intros [= ->]; split; reflexivity | intros [_ [= ->]]; reflexivity].
      * split; [|intros [_ H]; discriminate H].
        destruct (is_decode_error e); discriminate.
    + split; [discriminate | intros [H _]; discriminate H].
  - intros v H. apply (parse_json_response_object response).
    rewrite H. reflexivity.
Qed.

End Parsed.

Section WithServices.
Context {interp : Interpreter} {libs : Libraries} {services : Services}.

Lemma analyze_overview_returned (self self' : RepoAnalysisAgent)
    (v : json) :
  result (analyze_overview self) = Return (self', v) ->
  overview self' = Some v
  /\ (exists d, v = JObject d /\ d <> [])
  /\ py_not (overview self') = false
  /\ rag self' = rag self
  /\ repo_data self' = repo_data self
  /\ diagram_plan self' = diagram_plan self
  /\ repo_data self <> None.
Proof.
  unfold analyze_overview.
  destruct (repo_data self) as [rd|] eqn:Hrd; [|discriminate].
  intros H. apply bind_result_inv in H as (prompt & _ & H).
  apply bind_result_inv in H as (response & _ & H).
  apply bind_result_inv in H as (parsed & Hparse & H).
  assert (Hv : exists d, d <> []
                /\ (if py_not parsed then fallback_overview response
                    else get_or JNull parsed)
                   = JObject d).
  { destruct parsed as [p|].
    - destruct (parse_json_response_object _ _ Hparse) as [d ->].
      destruct d as [|kv d]; simpl; eexists; (split; [|reflexivity]);
        discriminate.
    - simpl. eexists. split; [|reflexivity]. discriminate. }
  destruct Hv as (d & Hd & Hv). rewrite Hv in H.
  unfold ret, result in H. simpl in H. injection H as <- <-.
  simpl. rewrite Hrd. split_and!; try reflexivity.
  - exists d. split; [reflexivity | exact Hd].
  - destruct d; [congruence | reflexivity].
  - discriminate.
Qed.

(** X15.  Whenever [analyze_overview] returns, the value returned is the
    overview it stored, a [dict] that is not empty, so that a later
    [not self.overview] is false; the index, the repository data and the
    plan are those of before, and repository data were present. *)
Theorem analyze_overview_postcondition (self self' : RepoAnalysisAgent)
    (v : json) :
  result (analyze_overview self) = Return (self', v) ->
  overview self' = Some v
  /\ (exists d, v = JObject d /\ d <> [])
  /\ py_not (overview self') = false
  /\ rag self' = rag self
  /\ repo_data self' = repo_data self
  /\ diagram_plan self' = diagram_plan self
  /\ repo_data self <> None.
Proof. apply analyze_overview_returned. Qed.

(** X16.  An answer of the chat model that parses to an object is
    stored and returned as it is, unless the object is empty: the empty
    object is replaced by the fallback overview, whose raw_analysis is
    the answer. *)
Theorem analyze_overview_parsed (self : RepoAnalysisAgent) (rd : RepoData)
    (out : list str) (prompt response : str) (d : dict) :
  repo_data self = Some rd ->
  overview_prompt self rd = (out, Return prompt) ->
  _call_llm prompt (Some ANALYSIS_SYSTEM_PROMPT) = ret response ->
  _parse_json_response response = ret (Some (JObject d)) ->
  (d <> [] ->
   analyze_overview self
   = (out, Return (with_overview self (JObject d), JObject d)))
  /\ (d = [] ->
      analyze_overview self
      = (out, Return (with_overview self (fallback_overview response),
                      fallback_overview response))).
Proof.
  intros Hrd Hprompt Hcall Hparse.
  rewrite (analyze_overview_answered _ _ _ _ _ _ Hrd Hprompt Hcall Hparse).
  split; intros Hd.
  - destruct d; [congruence | reflexivity].
  - subst d. reflexivity.
Qed.

(** What a run of [generate_diagram_data] that returns a value has gone
    through. *)
Lemma generate_diagram_data_returned (self : RepoAnalysisAgent)
    (diagram_spec : DiagramSpec) (v : json) :
  result (generate_diagram_data self diagram_spec) = Return (Some v) ->
  let diagram_type := get_or (lit "Sequence") (spec_type diagram_spec) in
  let focus_area :=
    get_or (get_or [] (spec_title diagram_spec))
           (spec_generation_prompt diagram_spec) in
  exists (docs : list Document) (prompt response : str) (d0 : dict),
    result (query (rag self) focus_area 10 None) = Return docs
    /\ result (diagram_prompt self diagram_type focus_area
                 (join [10%N; 10%N] (map code_block docs))) = Return prompt
    /\ _call_llm prompt (Some ANALYSIS_SYSTEM_PROMPT) = ret response
    /\ _parse_json_response response = ret (Some (JObject d0))
    /\ ((d0 = [] /\ v = JObject [])
        \/ (d0 <> []
            /\ v = JObject (dict_set (lit "_meta") (meta_of diagram_spec) d0)
            /\ py_get (lit "_meta") v = ret (Some (meta_of diagram_spec))
            /\ forall key, key <> lit "_meta" ->
                 py_get key v = py_get key (JObject d0))).
Proof.
  intros H diagram_type focus_area. unfold generate_diagram_data in H.
  fold diagram_type focus_area in H.
  apply bind_result_inv in H as (docs & Hdocs & H).
  apply bind_result_inv in H as (prompt & Hprompt & H).
  apply bind_result_inv in H as (response & Hcall & H).
  apply bind_result_inv in H as (parsed & Hparse & H).
  unfold attach_meta in H.
  destruct parsed as [data|]; [|discriminate H].
  destruct (parse_json_response_object _ _ Hparse) as [d ->].
  exists docs, prompt, response, d.
  split; [exact Hdocs|]. split; [exact Hprompt|].
  split; [apply call_llm_returned; exact Hcall|].
  split; [apply parse_json_response_returned; exact Hparse|].
  destruct d as [|kv d].
  - left. simpl in H. unfold ret, result in H. simpl in H.
    injection H as <-. split; reflexivity.
  - right. remember (kv :: d) as d0 eqn:Ed0.
    assert (Ht : py_truthy (JObject d0) = true) by (subst d0; reflexivity).
    rewrite Ht in H. unfold set_meta in H. rewrite bind_ret_l in H.
    unfold ret, result in H. cbn [snd] in H. injection H as <-.
    split_and!; [subst d0; discriminate | reflexivity | |].
    + unfold py_get. rewrite dict_get_set_same. reflexivity.
    + intros key Hkey. unfold py_get.
      rewrite (dict_get_set_other _ _ _ _ Hkey). reflexivity.
Qed.

(** X17.  What [generate_diagram_data] returns, when it returns a value
    that is not [None]: documents were found for the focus area, the
    prompt of the type asked for ("Sequence" by default) was built from
    them, the chat model has answered that prompt, and its answer has
    parsed to a [dict].  An empty [dict] is returned as it is; any other
    is returned with a ['_meta'] that holds the type asked for, the
    title ("Untitled" by default) and the description (empty by
    default), every other key being as the chat model gave it. *)
Theorem generate_diagram_data_meta (self : RepoAnalysisAgent)
    (diagram_spec : DiagramSpec) (v : json) :
  result (generate_diagram_data self diagram_spec) = Return (Some v) ->
  let diagram_type := get_or (lit "Sequence") (spec_type diagram_spec) in
  let focus_area :=
    get_or (get_or [] (spec_title diagram_spec))
           (spec_generation_prompt diagram_spec) in
  exists (docs : list Document) (prompt response : str) (d0 : dict),
    result (query (rag self) focus_area 10 None) = Return docs
    /\ result (diagram_prompt self diagram_type focus_area
                 (join [10%N; 10%N] (map code_block docs))) = Return prompt
    /\ _call_llm prompt (Some ANALYSIS_SYSTEM_PROMPT) = ret response
    /\ _parse_json_response response = ret (Some (JObject d0))
    /\ ((d0 = [] /\ v = JObject [])
        \/ (d0 <> []
            /\ v = JObject (dict_set (lit "_meta") (meta_of diagram_spec) d0)
            /\ py_get (lit "_meta") v = ret (Some (meta_of diagram_spec))
            /\ forall key, key <> lit "_meta" ->
                 py_get key v = py_get key (JObject d0))).
Proof. apply generate_diagram_data_returned. Qed.

(** X18.  What each stage needs from the stages before it.
    [analyze_overview] without repository data raises the [ValueError]
    that names [ingest_repository], before anything else, and with
    repository data but no index the [ValueError] of the pipeline;
    [generate_diagram_data] without an index raises that same error
    whatever the spec, with an index but without repository data a
    [TypeError], and for a Mindmap before any overview an
    [AttributeError]. *)
Theorem stages_need_earlier_stages (self : RepoAnalysisAgent) :
  let not_built := ValueError (lit "Index not built. Call build_index first.") in
  (repo_data self = None ->
   analyze_overview self
   = ([], Raise (ValueError (lit "No repository data. Call ingest_repository first."))))
  /\ (forall rd, repo_data self = Some rd ->
        vectorstore (rag self) = None ->
        returns (get_file_structure (files rd)) ->
        result (analyze_overview self) = Raise not_built)
  /\ (vectorstore (rag self) = None ->
      forall diagram_spec,
        generate_diagram_data self diagram_spec = ([], Raise not_built))
  /\ (forall store, vectorstore (rag self) = Some store ->
        repo_data self = None ->
        forall diagram_spec,
          generate_diagram_data self diagram_spec = ([], Raise TypeError))
  /\ (forall store rd, vectorstore (rag self) = Some store ->
        repo_data self = Some rd ->
        overview self = None ->
        returns (get_file_structure (files rd)) ->
        forall diagram_spec,
          spec_type diagram_spec = Some (lit "Mindmap") ->
          result (generate_diagram_data self diagram_spec) = Raise AttributeError).
Proof.
  intros not_built.
  assert (Hq : vectorstore (rag self) = None ->
               forall q k f, query (rag self) q k f = ([], Raise not_built))
    by (intros Hs q k f; unfold query; rewrite Hs; reflexivity).
  split_and!.
  - intros Hrd. unfold analyze_overview. rewrite Hrd. reflexivity.
  - intros rd Hrd Hs (out & fs & Hfs).
    unfold analyze_overview, overview_prompt. rewrite Hrd.
    rewrite !result_bind, Hfs. cbn [result snd].
    rewrite !result_bind.
    unfold get_architecture_context, architecture_documents.
    cbn [architecture_queries collect_documents]. rewrite (Hq Hs).
    reflexivity.
  - intros Hs diagram_spec. unfold generate_diagram_data.
    rewrite (Hq Hs). reflexivity.
  - intros store Hs Hrd diagram_spec. unfold generate_diagram_data.
    rewrite (query_built _ _ _ _ _ Hs), bind_ret_l.
    unfold diagram_prompt, sequence_prompt, the_repo_data. rewrite Hrd.
    destruct (str_eqb _ (lit "Sequence")); [reflexivity|].
    destruct (str_eqb _ (lit "Mindmap")); [reflexivity|].
    destruct (str_eqb _ (lit "Graph")); [|reflexivity].
    rewrite (query_built _ _ _ _ _ Hs), bind_ret_l. reflexivity.
  - intros store rd Hs Hrd Hov (out & fs & Hfs) diagram_spec Htype.
    unfold generate_diagram_data. rewrite Htype. cbn [get_or].
    rewrite (query_built _ _ _ _ _ Hs), bind_ret_l.
    unfold diagram_prompt.
    replace (str_eqb (lit "Mindmap") (lit "Sequence")) with false
      by (symmetry; apply bool_decide_eq_false_2; vm_compute; discriminate).
    replace (str_eqb (lit "Mindmap") (lit "Mindmap")) with true
      by (symmetry; apply bool_decide_eq_true_2; reflexivity).
    unfold the_repo_data, overview_components. rewrite Hrd, Hov.
    rewrite bind_ret_l, !result_bind, Hfs. reflexivity.
Qed.

End WithServices.

Lemma analyze_overview_postcondition_witness :
  exists (self' : RepoAnalysisAgent) (v : json),
    result (analyze_overview (services := constant_services object_reply)
              small_agent) = Return (self', v)
    /\ overview self' = Some v
    /\ py_not (overview self') = false.
Proof.
  destruct (result (analyze_overview (services := constant_services object_reply)
                      small_agent)) as [[self' v]|e] eqn:E;
    [|vm_compute in E; discriminate E].
  destruct (analyze_overview_postcondition
              (services := constant_services object_reply) small_agent self' v E)
    as (Hov & _ & Hnot & _).
  exists self', v. split_and!; [reflexivity | exact Hov | exact Hnot].
Defined.

Lemma analyze_overview_parsed_witness :
  exists out : list str,
    analyze_overview (services := constant_services empty_object_reply) small_agent
    = (out, Return (with_overview small_agent (fallback_overview empty_object_reply),
                    fallback_overview empty_object_reply)).
Proof.
  destruct (overview_prompt (services := constant_services empty_object_reply)
              small_agent small_repo)
    as [out [prompt | e]] eqn:Ep; [|vm_compute in Ep; discriminate Ep].
  exists out.
  assert (Hparse : _parse_json_response empty_object_reply
                   = ret (Some (JObject [])))
    by (vm_compute; reflexivity).
  exact (proj2 (analyze_overview_parsed
                  (services := constant_services empty_object_reply)
                  small_agent small_repo out prompt empty_object_reply []
                  eq_refl Ep eq_refl Hparse)
           eq_refl).
Defined.

Lemma generate_diagram_data_meta_witness :
  exists v : json,
    result (generate_diagram_data (services := constant_services object_reply)
              small_agent timeline_spec) = Return (Some v)
    /\ py_get (lit "_meta") v = ret (Some (meta_of timeline_spec)).
Proof.
  destruct (result (generate_diagram_data
                      (services := constant_services object_reply)
                      small_agent timeline_spec)) as [[v|]|e] eqn:E;
    [| vm_compute in E; discriminate E | vm_compute in E; discriminate E].
  exists v. split; [reflexivity|].
  destruct (generate_diagram_data_meta
              (services := constant_services object_reply)
              small_agent timeline_spec v E)
    as (docs & prompt & response & d0 & _ & _ & _ & _
        & [[_ Hempty] | (_ & _ & Hmeta & _)]).
  - subst v. vm_compute in E. discriminate E.
  - exact Hmeta.
Defined.

Lemma stages_need_earlier_stages_witness :
  result (analyze_overview (services := constant_services refusal) bare_agent)
  = Raise (ValueError (lit "No repository data. Call ingest_repository first."))
  /\ result (generate_diagram_data (services := constant_services refusal)
               index_only_agent timeline_spec) = Raise TypeError
  /\ result (generate_diagram_data (services := constant_services refusal)
               small_agent mindmap_spec) = Raise AttributeError.
Proof.
  split_and!.
  - destruct (stages_need_earlier_stages (services := constant_services refusal)
                bare_agent) as (H & _).
    rewrite (H eq_refl). reflexivity.
  - destruct (stages_need_earlier_stages (services := constant_services refusal)
                index_only_agent) as (_ & _ & _ & H & _).
    rewrite (H _ eq_refl eq_refl timeline_spec). reflexivity.
  - destruct (stages_need_earlier_stages (services := constant_services refusal)
                small_agent) as (_ & _ & _ & _ & H).
    apply (H _ small_repo eq_refl eq_refl eq_refl); [|reflexivity].
    eexists _, _. vm_compute. reflexivity.
Defined.

End AgentMore.

(** ** Ingestion and planning *)

Module StageFacts.
Import CallFacts JsonFacts DiagramGenerator RagPipeline RepoAgent RagFacts.
Import AgentFacts ValidateFacts ValidateMore AgentMore RagMore.
Import Schema Stages Samples Samples2.

Section WithServices.
Context {interp : Interpreter} {libs : Libraries} {services : Services}
        {plan_services : PlanServices}.

Lemma ingest_repository_result (held : list Document)
    (self : RepoAnalysisAgent) (rd : RepoData) :
  ingest_repository held self rd =
    match _create_documents (files rd) with
    | [] => (with_repo_data self rd, ([], Raise no_documents))
    | d :: docs =>
        (with_rag (with_repo_data self rd)
           {| vectorstore := Some (held ++ d :: docs) |},
         ([], Return (length (d :: docs))))
    end.
Proof.
  unfold ingest_repository. rewrite build_index_result.
  destruct (_create_documents (files rd)); reflexivity.
Qed.

Lemma plan_from_returned (self self' : RepoAnalysisAgent) (prompt : str)
    (plan : json) :
  result (plan_from self prompt) = Return (self', plan) ->
  self' = with_diagram_plan self plan
  /\ (exists d, plan = JObject d /\ d <> [])
  /\ exists (response : str) (parsed : option json),
       _call_llm prompt (Some ANALYSIS_SYSTEM_PROMPT) = ret response
       /\ _parse_json_response response = ret parsed
       /\ if py_not parsed
          then exists rd, repo_data self = Some rd
                          /\ plan = fallback_plan (name rd)
          else parsed = Some plan.
Proof.
  unfold plan_from. intros H.
  apply bind_result_inv in H as (response & Hcall & H).
  apply bind_result_inv in H as (parsed & Hparse & H).
  apply call_llm_returned in Hcall.
  assert (Hfallback :
            py_not parsed = true ->
            result (let! rd := the_repo_data self in
                    ret (with_diagram_plan self (fallback_plan (name rd)),
                         fallback_plan (name rd)))
            = Return (self', plan) ->
            self' = with_diagram_plan self plan
            /\ (exists d, plan = JObject d /\ d <> [])
            /\ exists (response : str) (parsed : option json),
                 _call_llm prompt (Some ANALYSIS_SYSTEM_PROMPT) = ret response
                 /\ _parse_json_response response = ret parsed
                 /\ if py_not parsed
                    then exists rd, repo_data self = Some rd
                                    /\ plan = fallback_plan (name rd)
                    else parsed = Some plan).
  { intros Hnot. unfold the_repo_data.
    destruct (repo_data self) as [rd|]; [|discriminate].
    rewrite bind_ret_l. unfold ret, result. cbn [snd]. intros H0.
    injection H0 as <- <-. split_and!; [reflexivity | |].
    - eexists. split; [reflexivity | discriminate].
    - exists response, parsed. split; [exact Hcall|].
      split; [apply parse_json_response_returned; exact Hparse|].
      rewrite Hnot. eauto. }
  destruct parsed as [p|]; [|apply Hfallback; [reflexivity | exact H]].
  destruct (parse_json_response_object _ _ Hparse) as [d ->].
  destruct d as [|kv d]; [apply Hfallback; [reflexivity | exact H]|].
  cbn [py_not py_truthy negb get_or] in H. unfold ret, result in H.
  cbn [snd] in H. injection H as <- <-.
  split_and!; [reflexivity | |].
  - eexists. split; [reflexivity | discriminate].
  - exists response, (Some (JObject (kv :: d))). split; [exact Hcall|].
    split; [apply parse_json_response_returned; exact Hparse | reflexivity].
Qed.

(** X19.  [ingest_repository] assigns the repository data first, and it
    never touches the overview and the plan held: when no document is
    created the call raises [ValueError("No documents to index")] and
    leaves the new repository data beside the index of before; otherwise
    it returns the number of documents created, and the index holds
    them after the documents that the collection held before the call. *)
Theorem ingest_repository_state (held : list Document)
    (self : RepoAnalysisAgent) (rd : RepoData) :
  let self' := fst (ingest_repository held self rd) in
  let documents := _create_documents (files rd) in
  repo_data self' = Some rd
  /\ overview self' = overview self
  /\ diagram_plan self' = diagram_plan self
  /\ (documents = [] ->
      snd (ingest_repository held self rd) = ([], Raise no_documents)
      /\ rag self' = rag self)
  /\ (documents <> [] ->
      snd (ingest_repository held self rd) = ([], Return (length documents))
      /\ vectorstore (rag self') = Some (held ++ documents)).
Proof.
  cbv zeta. rewrite ingest_repository_result.
  destruct (_create_documents (files rd)) as [|d docs];
    (split_and!; [reflexivity .. | |]); intros H; try congruence;
    split; reflexivity.
Qed.

(** X21.  Whenever [plan_diagrams] returns, the value returned is the
    plan it stored, a [dict] that is not empty; the index and the
    repository data are those of before; an overview that was held is
    left as it is, and otherwise it is the one that [analyze_overview]
    returned.  The plan comes from the chat model's answer to the
    planning prompt, built on the state that holds the overview: it is
    what was parsed from that answer, or, when nothing or the empty
    object was parsed from it, the default plan of the repository. *)
Theorem plan_diagrams_postcondition (self self' : RepoAnalysisAgent)
    (plan : json) :
  result (plan_diagrams self) = Return (self', plan) ->
  diagram_plan self' = Some plan
  /\ (exists d, plan = JObject d /\ d <> [])
  /\ rag self' = rag self
  /\ repo_data self' = repo_data self
  /\ py_not (overview self') = false
  /\ (py_not (overview self) = false -> overview self' = overview self)
  /\ (py_not (overview self) = true ->
      exists self1 v, result (analyze_overview self) = Return (self1, v)
                      /\ overview self' = Some v)
  /\ exists (self1 : RepoAnalysisAgent) (prompt response : str)
            (parsed : option json),
       (py_not (overview self) = false -> self1 = self)
       /\ (py_not (overview self) = true ->
           exists v, result (analyze_overview self) = Return (self1, v))
       /\ result (plan_prompt self1) = Return prompt
       /\ _call_llm prompt (Some ANALYSIS_SYSTEM_PROMPT) = ret response
       /\ _parse_json_response response = ret parsed
       /\ self' = with_diagram_plan self1 plan
       /\ if py_not parsed
          then exists rd, repo_data self = Some rd
                          /\ plan = fallback_plan (name rd)
          else parsed = Some plan.
Proof.
  unfold plan_diagrams. intros H.
  apply bind_result_inv in H as (self1 & H1 & H).
  apply bind_result_inv in H as (prompt & Hprompt & H).
  destruct (plan_from_returned _ _ _ _ H)
    as (-> & Hplan & response & parsed & Hcall & Hparse & Horigin).
  cbn [with_diagram_plan diagram_plan rag repo_data overview].
  assert (Hself1 :
            rag self1 = rag self
            /\ repo_data self1 = repo_data self
            /\ py_not (overview self1) = false
            /\ (py_not (overview self) = false -> self1 = self)
            /\ (py_not (overview self) = true ->
                exists v, result (analyze_overview self) = Return (self1, v)
                          /\ overview self1 = Some v)).
  { destruct (py_not (overview self)) eqn:Eov.
    - apply bind_result_inv in H1 as ([s1 v] & Ha & H1).
      unfold ret, result in H1. cbn [snd fst] in H1. injection H1 as <-.
      destruct (analyze_overview_returned _ _ _ Ha)
        as (Hov & _ & Hnot & Hrag & Hrd & _).
      split_and!; [exact Hrag | exact Hrd | exact Hnot | discriminate |].
      intros _. exists v. split; [exact Ha | exact Hov].
    - unfold ret, result in H1. cbn [snd] in H1. injection H1 as <-.
      split_and!; [reflexivity | reflexivity | exact Eov | reflexivity |
                   discriminate]. }
  destruct Hself1 as (Hrag & Hrd & Hnot & Hkept & Hrun).
  split_and!; [reflexivity | exact Hplan | exact Hrag | exact Hrd | exact Hnot
               | | |].
  - intros Hheld. rewrite (Hkept Hheld). reflexivity.
  - intros Hnone. destruct (Hrun Hnone) as (v & Ha & Hov). eauto.
  - exists self1, prompt, response, parsed.
    split_and!; [exact Hkept | | exact Hprompt | exact Hcall | exact Hparse
                 | reflexivity |].
    + intros Hnone. destruct (Hrun Hnone) as (v & Ha & _). eauto.
    + rewrite <- Hrd. exact Horigin.
Qed.

(** X22.  Plan degrade-not-fail: on an agent that holds an overview and
    repository data, once the prompt is built and the chat model has
    answered it, an answer from which the parser returns no object, or
    the empty object, makes [plan_diagrams] store and return the
    default plan: one Sequence diagram named after the repository; the
    overview is left as it is. *)
Theorem plan_diagrams_degrades (self : RepoAnalysisAgent) (rd : RepoData)
    (out : list str) (prompt response : str) (parsed : option json) :
  repo_data self = Some rd ->
  py_not (overview self) = false ->
  plan_prompt self = (out, Return prompt) ->
  _call_llm prompt (Some ANALYSIS_SYSTEM_PROMPT) = ret response ->
  _parse_json_response response = ret parsed ->
  py_not parsed = true ->
  let plan := fallback_plan (name rd) in
  plan_diagrams self = (out, Return (with_diagram_plan self plan, plan))
  /\ overview (with_diagram_plan self plan) = overview self
  /\ py_get (lit "diagrams") plan
     = ret (Some (JArray
                    [ JObject
                        [ (lit "type", JString (lit "Sequence"));
                          (lit "title", JString (name rd ++ lit " Main Flow"));
                          (lit "description", JString (lit "Main application flow"));
                          (lit "generation_prompt",
                           JString (lit "Main request/response flow in "
                                      ++ name rd)) ] ])).
Proof.
  intros Hrd Hov Hprompt Hcall Hparse Hnot plan.
  split; [|split; reflexivity].
  assert (Hfrom : plan_from self prompt = ret (with_diagram_plan self plan, plan)).
  { unfold plan_from. rewrite Hcall, bind_ret_l, Hparse, bind_ret_l, Hnot.
    unfold the_repo_data. rewrite Hrd, bind_ret_l. reflexivity. }
  unfold plan_diagrams. rewrite Hov, bind_ret_l, Hprompt.
  apply bind_returned_pure. exact Hfrom.
Qed.

(** X31.  Only [json.JSONDecodeError] is caught around [json.loads]: any
    other exception that [json.loads] raises on the text taken from an
    answer (the [ValueError] of an integer literal beyond the digit
    limit, a [RecursionError]) leaves [_parse_json_response] and
    [validate_json], and with it [analyze_overview] and [plan_diagrams]
    once the chat model has given that answer: these stages do not
    degrade to their fallback then. *)
Theorem decoder_exceptions_leave_the_stages (response : str) (e : exn) :
  has_json_span response = true ->
  loads (extract_json response) = Raise e ->
  e <> JSONDecodeError ->
  _parse_json_response response = raise e
  /\ validate_json response = raise e
  /\ (forall self rd out prompt,
        repo_data self = Some rd ->
        overview_prompt self rd = (out, Return prompt) ->
        _call_llm prompt (Some ANALYSIS_SYSTEM_PROMPT) = ret response ->
        analyze_overview self = (out, Raise e))
  /\ (forall self out prompt,
        py_not (overview self) = false ->
        plan_prompt self = (out, Return prompt) ->
        _call_llm prompt (Some ANALYSIS_SYSTEM_PROMPT) = ret response ->
        plan_diagrams self = (out, Raise e)).
Proof.
  intros Hspan Hload He.
  assert (Hparse : _parse_json_response response = raise e).
  { rewrite parse_json_response_result, Hspan. unfold decode_or_none.
    rewrite Hload. destruct e; try reflexivity. congruence. }
  split_and!.
  - exact Hparse.
  - rewrite (validate_json_raised _ _ Hload).
    destruct e; try reflexivity. congruence.
  - intros self rd out prompt Hrd Hprompt Hcall. unfold analyze_overview.
    rewrite Hrd, Hprompt. apply bind_returned_pure.
    rewrite Hcall, bind_ret_l, Hparse. reflexivity.
  - intros self out prompt Hov Hprompt Hcall. unfold plan_diagrams.
    rewrite Hov, bind_ret_l, Hprompt. apply bind_returned_pure.
    unfold plan_from. rewrite Hcall, bind_ret_l, Hparse. reflexivity.
Qed.

End WithServices.

Lemma decoder_exceptions_leave_the_stages_witness :
  result (analyze_overview (services := constant_services oversized_reply)
            small_agent)
  = Raise (ValueError
             (lit "Exceeds the limit (4300 digits) for integer string conversion")).
Proof.
  destruct (overview_prompt (services := constant_services oversized_reply)
              small_agent small_repo)
    as [out [prompt | e]] eqn:Ep; [|vm_compute in Ep; discriminate Ep].
  assert (Hspan : has_json_span oversized_reply = true)
    by (vm_compute; reflexivity).
  assert (Hload : loads (extract_json oversized_reply)
                  = Raise (ValueError
                             (lit "Exceeds the limit (4300 digits) for integer string conversion")))
    by (vm_compute; reflexivity).
  destruct (decoder_exceptions_leave_the_stages
              (services := constant_services oversized_reply)
              oversized_reply _ Hspan Hload) as (_ & _ & H & _);
    [discriminate|].
  rewrite (H small_agent small_repo out prompt eq_refl Ep eq_refl).
  reflexivity.
Defined.

Lemma ingest_repository_state_witness :
  let held := _create_documents guide_files in
  snd (ingest_repository held bare_agent small_repo) = ([], Return 2%nat)
  /\ vectorstore (rag (fst (ingest_repository held bare_agent small_repo)))
     = Some (held ++ _create_documents small_files)
  /\ snd (ingest_repository held small_agent hollow_repo)
     = ([], Raise no_documents)
  /\ rag (fst (ingest_repository held small_agent hollow_repo)) = rag small_agent
  /\ repo_data (fst (ingest_repository held small_agent hollow_repo))
     = Some hollow_repo.
Proof.
  intros held.
  destruct (ingest_repository_state held bare_agent small_repo)
    as (_ & _ & _ & _ & Hsome).
  destruct (ingest_repository_state held small_agent hollow_repo)
    as (Hrd & _ & _ & Hnone & _).
  destruct Hsome as [Hret Hstore]; [vm_compute; discriminate|].
  destruct Hnone as [Hraise Hrag]; [reflexivity|].
  split_and!; [exact Hret | exact Hstore | exact Hraise | exact Hrag | exact Hrd].
Defined.

Lemma plan_diagrams_postcondition_witness :
  exists (self' : RepoAnalysisAgent) (plan : json),
    result (plan_diagrams (services := constant_services refusal) small_agent)
    = Return (self', plan)
    /\ diagram_plan self' = Some plan
    /\ py_not (overview self') = false.
Proof.
  destruct (result (plan_diagrams (services := constant_services refusal)
                      small_agent)) as [[self' plan]|e] eqn:E;
    [|vm_compute in E; discriminate E].
  destruct (plan_diagrams_postcondition
              (services := constant_services refusal) small_agent self' plan E)
    as (Hplan & _ & _ & _ & Hnot & _).
  exists self', plan. split_and!; [reflexivity | exact Hplan | exact Hnot].
Defined.

Lemma plan_diagrams_degrades_witness :
  exists out : list str,
    plan_diagrams (services := constant_services refusal) analysed_agent
    = (out, Return (with_diagram_plan analysed_agent (fallback_plan (lit "demo")),
                    fallback_plan (lit "demo"))).
Proof.
  destruct (plan_prompt analysed_agent)
    as [out [prompt | e]] eqn:Ep; [|vm_compute in Ep; discriminate Ep].
  exists out.
  assert (Hparse : _parse_json_response refusal = ret None)
    by (vm_compute; reflexivity).
  apply (plan_diagrams_degrades (services := constant_services refusal)
           analysed_agent small_repo out prompt refusal None
           eq_refl eq_refl Ep eq_refl Hparse eq_refl).
Defined.

End StageFacts.

(** ** Decoded values that are no objects *)

Module ValidateEdge.
Import CallFacts DiagramGenerator Schema ValidateFacts Samples Samples2.

Lemma py_in_text_or_list (key : str) (v : json) :
  is_text_or_list v = true -> py_in key v = ret (contains key v).
Proof. destruct v; try discriminate; reflexivity. Qed.

Lemma py_get_text_or_list (key : str) (v : json) :
  is_text_or_list v = true -> py_get key v = raise AttributeError.
Proof. destruct v; try discriminate; reflexivity. Qed.

Lemma check_required_text_or_list (fields : list str) (v : json) :
  is_text_or_list v = true ->
  result (check_required fields v)
  = Return (forallb (fun f => contains f v) fields).
Proof.
  intros Hv. induction fields as [|f fields IH]; [reflexivity|].
  cbn [check_required forallb].
  rewrite (py_in_text_or_list f v Hv), bind_ret_l.
  destruct (contains f v); [exact IH | reflexivity].
Qed.

Lemma validate_data_scalar (v : json) :
  is_scalar v = true -> validate_data v = ([], Raise TypeError).
Proof. destruct v; try discriminate; reflexivity. Qed.

Lemma validate_data_text_or_list (v : json) :
  is_text_or_list v = true ->
  result (validate_data v) =
    if contains (lit "participants") v && contains (lit "events") v
    then Raise AttributeError
    else if contains (lit "mermaid_syntax") v then Return (Some v)
    else if forallb (fun f => contains f v) required_fields
         then Raise AttributeError
         else Return None.
Proof.
  intros Hv. unfold validate_data.
  rewrite (py_in_text_or_list _ v Hv), bind_ret_l.
  assert (Hseq : result (validate_sequence v) = Raise AttributeError).
  { unfold validate_sequence. rewrite (py_get_text_or_list _ v Hv). reflexivity. }
  assert (Hgraph : result (validate_graph v)
                   = if forallb (fun f => contains f v) required_fields
                     then Raise AttributeError else Return None).
  { unfold validate_graph.
    rewrite result_bind, (check_required_text_or_list _ v Hv).
    destruct (forallb _ required_fields); [|reflexivity].
    cbn [negb]. rewrite (py_get_text_or_list _ v Hv). reflexivity. }
  assert (Hrest : result (let! is_timeline := py_in (lit "mermaid_syntax") v in
                          if is_timeline then ret (Some v) else validate_graph v)
                  = if contains (lit "mermaid_syntax") v then Return (Some v)
                    else if forallb (fun f => contains f v) required_fields
                         then Raise AttributeError else Return None).
  { rewrite (py_in_text_or_list _ v Hv), bind_ret_l.
    destruct (contains (lit "mermaid_syntax") v); [reflexivity | exact Hgraph]. }
  destruct (contains (lit "participants") v); cbn [andb].
  - rewrite (py_in_text_or_list _ v Hv), bind_ret_l.
    destruct (contains (lit "events") v); [exact Hseq | exact Hrest].
  - rewrite bind_ret_l. exact Hrest.
Qed.

(** X27.  What [validate_json] does with a decoded value that is no
    [dict].  A number, a boolean or [null] makes the first membership
    test raise [TypeError].  On a string or a list the tests are
    substring and element tests: with both 'participants' and 'events'
    the call raises [AttributeError]; otherwise, with 'mermaid_syntax',
    the string or list itself is returned, a value that is no [dict];
    otherwise, with the three Graph fields, [AttributeError] again; and
    in the remaining case [None] is returned. *)
Theorem validate_json_non_object {interp : Interpreter}
    (json_str : str) (v : json) :
  json_loads (extract_json json_str) = Some v ->
  (is_scalar v = true -> validate_json json_str = ([], Raise TypeError))
  /\ (is_text_or_list v = true ->
      result (validate_json json_str) =
        if contains (lit "participants") v && contains (lit "events") v
        then Raise AttributeError
        else if contains (lit "mermaid_syntax") v then Return (Some v)
        else if forallb (fun f => contains f v) required_fields
             then Raise AttributeError
             else Return None).
Proof.
  intros Hload. rewrite (validate_json_decoded _ _ Hload). split.
  - apply validate_data_scalar.
  - apply validate_data_text_or_list.
Qed.

Lemma validate_json_non_object_witness :
  validate_json (lit "3.5") = ([], Raise TypeError)
  /\ result (validate_json (quoted "mermaid_syntax"))
     = Return (Some (JString (lit "mermaid_syntax"))).
Proof.
  split.
  - assert (Hload : json_loads (extract_json (lit "3.5")) = Some (JFloat (lit "3.5")))
      by (vm_compute; reflexivity).
    exact (proj1 (validate_json_non_object _ _ Hload) eq_refl).
  - assert (Hload : json_loads (extract_json (quoted "mermaid_syntax"))
                    = Some (JString (lit "mermaid_syntax")))
      by (vm_compute; reflexivity).
    exact (proj2 (validate_json_non_object _ _ Hload) eq_refl).
Defined.

End ValidateEdge.

(** ** Rendering *)

Module RenderFacts.
Import PyFacts CallFacts JsonFacts DiagramGenerator RagPipeline RepoAgent.
Import InjectFacts AgentFacts ValidateFacts ValidateMore AgentMore ValidateEdge.
Import Schema Stages Renderer Samples Samples2.

(** The injection returns, whatever the template and the payload. *)
Lemma inject_returns {interp : Interpreter}
    (T : str) (D : json) :
  exists out html, inject_data_into_html T D = (out, Return html).
Proof.
  destruct (index_of start_marker T) as [i|] eqn:Hi.
  - destruct (index_of end_marker T) as [j|] eqn:Hj.
    + rewrite (inject_found T D i j Hi Hj). eauto.
    + rewrite (inject_not_found T D (or_intror Hj)). eauto.
  - rewrite (inject_not_found T D (or_introl Hi)). eauto.
Qed.

Lemma no_text_false (t : option str) :
  no_text t = false -> exists c s, t = Some (c :: s).
Proof. destruct t as [[|c s]|]; try discriminate. eauto. Qed.

(** The types of [DIAGRAM_CONFIG]. *)
Lemma config_get_unknown (diagram_type : str) :
  diagram_type <> lit "Graph" -> diagram_type <> lit "Mindmap" ->
  diagram_type <> lit "Sequence" -> diagram_type <> lit "Timeline" ->
  config_get DIAGRAM_CONFIG diagram_type = None.
Proof.
  intros H1 H2 H3 H4. unfold DIAGRAM_CONFIG, config_get, str_eqb.
  rewrite !bool_decide_eq_false_2; [reflexivity | | | |];
    intros E; symmetry in E; contradiction.
Qed.

Ltac shape_iff :=
  split;
  [ intros Hh; first [reflexivity | exfalso; apply Hh; reflexivity]
  | intros Hh; first [discriminate Hh | discriminate] ].

Ltac shape_imp :=
  intros Hh; first [discriminate | exfalso; apply Hh; reflexivity].

Section WithHost.
Context {interp : Interpreter} {host : Host}.

Lemma generate_from_json_found (self : Generator) (json_data : json)
    (diagram_type : str) (config : Config) (t : str) :
  config_get DIAGRAM_CONFIG diagram_type = Some config ->
  read_text (path_join (base_path self) (lit (template config))) = Some t ->
  t <> [] ->
  generate_from_json self json_data diagram_type
  = (printed (inject_data_into_html t json_data),
     match result (inject_data_into_html t json_data) with
     | Return html => Return (Some html, None)
     | Raise e => Raise e
     end)
  /\ returns (inject_data_into_html t json_data).
Proof.
  intros Hc Ht Hne. unfold generate_from_json, load_template, _get_path.
  rewrite Hc, Ht. destruct t as [|c t]; [congruence|]. cbn [no_text].
  destruct (inject_returns (c :: t) json_data) as (out & html & E).
  rewrite E. split; [|eexists _, _; reflexivity].
  unfold try_except, bind, ret, printed, result. cbn [fst snd].
  rewrite app_nil_r. reflexivity.
Qed.

(** X23.  [generate_from_json] always returns, with exactly one half of
    the pair set.  The error is "Unknown diagram type: T" for a type
    that [DIAGRAM_CONFIG] does not hold, or "HTML template not found:
    F" when the template file is missing or empty; with a template at
    hand the page is what the injection returns: the handler of the
    [try] is never entered. *)
Theorem generate_from_json_outcome (self : Generator) (json_data : json)
    (diagram_type : str) :
  exists out html error,
    generate_from_json self json_data diagram_type = (out, Return (html, error))
    /\ ((html = None /\ out = []
         /\ config_get DIAGRAM_CONFIG diagram_type = None
         /\ error = Some (lit "Unknown diagram type: " ++ diagram_type))
        \/ (exists config,
              html = None /\ out = []
              /\ config_get DIAGRAM_CONFIG diagram_type = Some config
              /\ no_text (read_text (path_join (base_path self)
                                       (lit (template config)))) = true
              /\ error = Some (lit "HTML template not found: "
                                 ++ lit (template config)))
        \/ (exists config t page,
              html = Some page /\ error = None
              /\ config_get DIAGRAM_CONFIG diagram_type = Some config
              /\ read_text (path_join (base_path self) (lit (template config)))
                 = Some t
              /\ inject_data_into_html t json_data = (out, Return page))).
Proof.
  destruct (config_get DIAGRAM_CONFIG diagram_type) as [config|] eqn:Hc.
  - destruct (no_text (read_text (path_join (base_path self)
                                    (lit (template config))))) eqn:Hn.
    + exists [], None, (Some (lit "HTML template not found: "
                                ++ lit (template config))).
      split.
      * unfold generate_from_json, load_template, _get_path.
        rewrite Hc, Hn. reflexivity.
      * right. left. exists config. split_and!; reflexivity || assumption.
    + destruct (no_text_false _ Hn) as (c & t & Ht).
      destruct (generate_from_json_found self json_data diagram_type config
                  (c :: t) Hc Ht) as [Hrun (out & page & E)]; [discriminate|].
      rewrite E in Hrun. exists out, (Some page), None.
      split; [exact Hrun|]. right. right. exists config, (c :: t), page.
      split_and!; reflexivity || assumption.
  - exists [], None, (Some (lit "Unknown diagram type: " ++ diagram_type)).
    split.
    + unfold generate_from_json. rewrite Hc. reflexivity.
    + left. split_and!; reflexivity.
Qed.

(** X24.  A template without one of the markers is rendered as a
    success: [generate_from_json] returns the template itself as the
    page, with no error message; the only trace is the line printed by
    the injection. *)
Theorem generate_from_json_silent_without_markers (self : Generator)
    (json_data : json) (diagram_type : str) (config : Config) (t : str) :
  config_get DIAGRAM_CONFIG diagram_type = Some config ->
  read_text (path_join (base_path self) (lit (template config))) = Some t ->
  t <> [] ->
  str_find t start_marker = -1 \/ str_find t end_marker = -1 ->
  generate_from_json self json_data diagram_type
  = ([not_found_message], Return (Some t, None)).
Proof.
  intros Hc Ht Hne Hmark.
  destruct (generate_from_json_found self json_data diagram_type config t
              Hc Ht Hne) as [-> _].
  rewrite (inject_not_found t json_data); [reflexivity|].
  destruct Hmark as [H | H]; [left | right]; apply str_find_absent; exact H.
Qed.

(** X25.  [generate_from_topic] always returns a triple: a page comes
    with its data and without an error message, and an error message
    comes without a page; data are only returned when [validate_json]
    returned them, as a value that is not empty, for an answer of the
    model. *)
Theorem generate_from_topic_outcome (self : Generator) (topic diagram_type : str) :
  exists out html data error,
    generate_from_topic self topic diagram_type
    = (out, Return (html, data, error))
    /\ (html <> None <-> error = None)
    /\ (html <> None -> data <> None)
    /\ (forall d, data = Some d ->
          exists final_prompt text,
            generate_content final_prompt = Return text
            /\ result (validate_json text) = Return (Some d)
            /\ py_truthy d = true).
Proof.
  unfold generate_from_topic.
  destruct (config_get DIAGRAM_CONFIG diagram_type) as [config|].
  2: { eexists _, _, _, _. split; [reflexivity|].
       split_and!; [shape_iff | shape_imp | discriminate]. }
  destruct (no_text (load_prompt _)).
  { eexists _, _, _, _. split; [reflexivity|].
    split_and!; [shape_iff | shape_imp | discriminate]. }
  set (final_prompt := str_replace _ _ topic).
  destruct (generate_content final_prompt) as [text|e] eqn:Eg.
  2: { eexists _, _, _, _. split; [unfold bind, try_except, ret; reflexivity|].
       split_and!; [shape_iff | shape_imp | discriminate]. }
  change (@pair (list str) (outcome str) [] (Return text)) with (ret text).
  rewrite bind_ret_l.
  destruct (validate_json text) as [out1 [[data|]|e]] eqn:Ev;
    unfold bind, try_except, ret; cbv beta iota.
  - destruct (py_truthy data) eqn:Et; cbv beta iota.
    + destruct (no_text (load_template _)); cbv beta iota.
      * eexists _, _, _, _. split; [reflexivity|].
        split_and!; [shape_iff | shape_imp |].
        intros d Hd. injection Hd as <-. exists final_prompt, text.
        rewrite Ev. split_and!; [exact Eg | reflexivity | exact Et].
      * destruct (inject_returns
                    (match load_template
                             (_get_path self (lit (template config))) with
                     | Some t => t
                     | None => []
                     end) data) as (out2 & page & E).
        rewrite E. cbv beta iota.
        eexists _, _, _, _. split; [reflexivity|].
        split_and!; [shape_iff | shape_imp |].
        intros d Hd. injection Hd as <-. exists final_prompt, text.
        rewrite Ev. split_and!; [exact Eg | reflexivity | exact Et].
    + eexists _, _, _, _. split; [reflexivity|].
      split_and!; [shape_iff | shape_imp | discriminate].
  - eexists _, _, _, _. split; [reflexivity|].
    split_and!; [shape_iff | shape_imp | discriminate].
  - eexists _, _, _, _. split; [reflexivity|].
    split_and!; [shape_iff | shape_imp | discriminate].
Qed.

(** X28.  What goes wrong inside the [try] of [generate_from_topic]
    comes back as text: with the prompt file at hand, an exception
    raised by the model, and likewise the [TypeError] that
    [validate_json] raises on an answer that decodes to a number, a
    boolean or [null], give the triple without page and data whose
    message is "Exception: " followed by [str(e)]. *)
Theorem generate_from_topic_reports_exceptions (self : Generator)
    (topic diagram_type : str) (config : Config) (p : str) :
  config_get DIAGRAM_CONFIG diagram_type = Some config ->
  read_text (path_join (base_path self) (lit (prompt config))) = Some p ->
  p <> [] ->
  let final_prompt := str_replace p (lit "[INSERT TOPIC HERE]") topic in
  (forall e, generate_content final_prompt = Raise e ->
     generate_from_topic self topic diagram_type
     = ([], Return (None, None, Some (lit "Exception: " ++ exception_text e))))
  /\ (forall text v,
        generate_content final_prompt = Return text ->
        json_loads (extract_json text) = Some v ->
        is_scalar v = true ->
        generate_from_topic self topic diagram_type
        = ([], Return (None, None,
                       Some (lit "Exception: " ++ exception_text TypeError)))).
Proof.
  intros Hc Hp Hne final_prompt.
  unfold generate_from_topic, load_prompt, _get_path. rewrite Hc, Hp.
  destruct p as [|c p]; [congruence|]. cbn [no_text]. fold final_prompt.
  split.
  - intros e ->. reflexivity.
  - intros text v -> Hload Hv.
    change (@pair (list str) (outcome str) [] (Return text)) with (ret text).
    rewrite bind_ret_l.
    assert (Hraise : validate_json text = ([], Raise TypeError)).
    { rewrite (validate_json_decoded _ _ Hload).
      apply validate_data_scalar, Hv. }
    rewrite Hraise. reflexivity.
Qed.

End WithHost.

Section Pipeline.
Context {interp : Interpreter} {libs : Libraries} {services : Services}
        {host : Host}.

(** X26.  A diagram is tagged with the type that its spec asked for,
    and the renderer is called with the type read back from the tag: a
    diagram made for a type that [DIAGRAM_CONFIG] does not hold, which
    the agent built from the Sequence prompt, is refused by
    [generate_from_json] as an unknown type. *)
Theorem unrecognized_type_is_not_rendered (self : RepoAnalysisAgent)
    (generator : Generator) (diagram_spec : DiagramSpec) (v : json) :
  result (generate_diagram_data self diagram_spec) = Return (Some v) ->
  v <> JObject [] ->
  let diagram_type := get_or (lit "Sequence") (spec_type diagram_spec) in
  meta_type v = ret (JString diagram_type)
  /\ (diagram_type <> lit "Graph" -> diagram_type <> lit "Mindmap" ->
      diagram_type <> lit "Sequence" -> diagram_type <> lit "Timeline" ->
      generate_from_json generator v diagram_type
      = ret (None, Some (lit "Unknown diagram type: " ++ diagram_type))).
Proof.
  intros Hrun Hne diagram_type.
  destruct (generate_diagram_data_returned _ _ _ Hrun)
    as (docs & prompt & response & d0 & _ & _ & _ & _
        & [[_ ->] | (_ & _ & Hmeta & _)]); [congruence|].
  split.
  - unfold meta_type. rewrite Hmeta, bind_ret_l. reflexivity.
  - intros H1 H2 H3 H4. unfold generate_from_json.
    rewrite (config_get_unknown _ H1 H2 H3 H4). reflexivity.
Qed.

End Pipeline.

Lemma generate_from_json_silent_without_markers_witness :
  generate_from_json sample_generator sample_data (lit "Timeline")
  = ([not_found_message], Return (Some (lit "<html></html>"), None)).
Proof.
  apply (generate_from_json_silent_without_markers sample_generator sample_data
           (lit "Timeline")
           {| prompt := "timeline_prompt.txt";
              template := "timeline_template.html";
              modification_prompt := "modification_prompt.txt" |}).
  - reflexivity.
  - vm_compute. reflexivity.
  - discriminate.
  - left. vm_compute. reflexivity.
Defined.

Lemma generate_from_topic_reports_exceptions_witness :
  generate_from_topic
    (host := {| path_join := path_join; read_text := read_text;
                generate_content := fun _ => Return (lit "42");
                exception_text := exception_text |})
    sample_generator (lit "login") (lit "Sequence")
  = ([], Return (None, None, Some (lit "Exception: TypeError"))).
Proof.
  refine (proj2 (generate_from_topic_reports_exceptions
                   (host := {| path_join := path_join; read_text := read_text;
                               generate_content := fun _ => Return (lit "42");
                               exception_text := exception_text |})
                   sample_generator (lit "login") (lit "Sequence")
                   {| prompt := "sequence_prompt.txt";
                      template := "sequence_template.html";
                      modification_prompt := "modification_prompt.txt" |}
                   (lit "Topic: [INSERT TOPIC HERE].") _ _ _)
            (lit "42") (JInt 42) _ _ _).
  - reflexivity.
  - vm_compute. reflexivity.
  - discriminate.
  - reflexivity.
  - vm_compute. reflexivity.
  - reflexivity.
Defined.

Lemma unrecognized_type_is_not_rendered_witness :
  exists v : json,
    result (generate_diagram_data (services := constant_services object_reply)
              small_agent flowchart_spec) = Return (Some v)
    /\ meta_type v = ret (JString (lit "Flowchart"))
    /\ generate_from_json sample_generator v (lit "Flowchart")
       = ret (None, Some (lit "Unknown diagram type: Flowchart")).
Proof.
  destruct (result (generate_diagram_data
                      (services := constant_services object_reply)
                      small_agent flowchart_spec)) as [[v|]|e] eqn:E;
    [| vm_compute in E; discriminate E | vm_compute in E; discriminate E].
  assert (Hne : v <> JObject [])
    by (intros ->; vm_compute in E; discriminate E).
  destruct (unrecognized_type_is_not_rendered
              (services := constant_services object_reply)
              small_agent sample_generator flowchart_spec v E Hne)
    as [Hmeta Hrender].
  exists v. split_and!; [reflexivity | exact Hmeta |].
  apply Hrender; vm_compute; discriminate.
Defined.

End RenderFacts.

(** ** The file filter and the file tree *)

Module FilterFacts.
Import CallFacts RagPipeline RepoAnalyzer Samples Samples2.

(** Every extension that [_get_file_type] knows is an included one. *)
Lemma typed_extension_included (ext : str) :
  lookup_type type_mapping ext <> lit "unknown" ->
  member ext INCLUDED_EXTENSIONS = true.
Proof.
  unfold type_mapping, lookup_type.
  repeat (let E := fresh "E" in
          destruct (str_eqb _ ext) eqn:E;
          [ intros _; apply bool_decide_eq_true_1 in E; rewrite <- E;
            vm_compute; reflexivity | clear E ]).
  intros H. exfalso. apply H. reflexivity.
Qed.

Section WithLibraries.
Context {libs : Libraries}.

(** X29.  What the file filter never admits, and what it always
    admits.  A file over 100 KB, a file with an ignored directory among
    the parts of its path, at any depth, and a lock file are refused
    whatever the extension.  A file that passes these three tests and
    whose type [_get_file_type] knows is admitted: the pipeline types as
    "unknown" no file that the filter refuses for its extension. *)
Theorem should_include_file_rules (file_path : str) (file_size : Z) :
  (should_include_file file_path file_size = true ->
   file_size <= 102400
   /\ Forall (fun part => member part IGNORED_DIRS = false) (path_parts file_path)
   /\ member (path_name file_path) IGNORED_FILES = false)
  /\ (file_size <= 102400 ->
      Forall (fun part => member part IGNORED_DIRS = false) (path_parts file_path) ->
      member (path_name file_path) IGNORED_FILES = false ->
      _get_file_type file_path <> lit "unknown" ->
      should_include_file file_path file_size = true).
Proof.
  unfold should_include_file, MAX_FILE_SIZE. split.
  - destruct (existsb _ (path_parts file_path)) eqn:Edirs; [discriminate|].
    destruct (member (path_name file_path) IGNORED_FILES); [discriminate|].
    destruct (Z.ltb_spec (100 * 1024) file_size); [discriminate|].
    intros _. split_and!; [lia | | reflexivity].
    apply Forall_forall. intros part Hpart.
    destruct (member part IGNORED_DIRS) eqn:Em; [|reflexivity].
    assert (Hex : existsb (fun part => member part IGNORED_DIRS)
                    (path_parts file_path) = true).
    { apply existsb_exists. exists part. split; [|exact Em].
      apply list_elem_of_In. exact Hpart. }
    congruence.
  - intros Hsize Hdirs Hname Htype.
    assert (Edirs : existsb (fun part => member part IGNORED_DIRS)
                      (path_parts file_path) = false).
    { destruct (existsb _ (path_parts file_path)) eqn:E; [|reflexivity].
      apply existsb_exists in E as (part & Hin & Hm).
      rewrite Forall_forall in Hdirs.
      rewrite (Hdirs part) in Hm; [discriminate|].
      apply list_elem_of_In. exact Hin. }
    rewrite Edirs, Hname.
    destruct (Z.ltb_spec (100 * 1024) file_size); [lia|].
    unfold _get_file_type in Htype.
    rewrite (typed_extension_included _ Htype). reflexivity.
Qed.

End WithLibraries.

Lemma should_include_file_rules_witness :
  should_include_file (lit "src/app/Main.PY") 2048 = true
  /\ member (path_name (lit "src/app/Main.PY")) IGNORED_FILES = false.
Proof.
  assert (H : should_include_file (lit "src/app/Main.PY") 2048 = true).
  { apply (should_include_file_rules (lit "src/app/Main.PY") 2048).
    - lia.
    - repeat constructor.
    - reflexivity.
    - vm_compute. discriminate. }
  split; [exact H|].
  apply (proj1 (should_include_file_rules (lit "src/app/Main.PY") 2048) H).
Defined.

(** *** The file tree *)





Section Tree.
Context {libs : Libraries}.




End Tree.


End FilterFacts.
